(** * TrustLink: the satellite relay node

    A shallow embedding of the four satellite relay programs of the
    repository

      - [Parallel_Enhancement/satellite_node_parallel.py]
      - [channel_characteristics_enhancement/satellite_node_channelchar.py]
      - [scalable_enhancement/satellite_node_scalable.py]
      - [short_path_enhancement/satellite_node_sp.py]

    and the properties of deduplication, routing, retrying, acknowledging
    and failure containment that their specification states.

    The programs are Python scripts that mutate module-level dictionaries,
    sleep, draw random numbers and send UDP datagrams.  They are embedded
    as functions in a state-and-exception monad over a [world] record that
    holds the module globals, a clock and the trace of sleeps and
    [sendto] calls.  What the network and the random generator answer is
    read from an [env] record.

    Further parts embed [broadcast_presence] of the relays, the command
    stations that receive what the relays forward
    ([short_path_enhancement/command_station_shortpath.py],
    [field_testing/command_station_field.py]), and [send_data] and
    [discover_satellites] of the vehicle
    ([scalable_enhancement/vehicle_node_scalability.py]). *)

From Stdlib Require Import ZArith QArith Qround Lqa String List.
From stdpp Require Import base option list gmap strings pretty.

Set Warnings "-register-all".
Local Open Scope Z_scope.
Local Open Scope string_scope.

(** ** Python values

    A datagram is decoded with [json.loads], so a message is an arbitrary
    JSON value.  Numbers are restricted to integers (JSON floats are left
    out of the model); an object is an association list in which the
    first binding of a key is the one a lookup finds. *)

Inductive json : Type :=
| JNull
| JBool (b : bool)
| JNum (n : Z)
| JStr (s : string)
| JArr (items : list json)
| JObj (fields : list (string * json)).

(** The exceptions the relay code can meet; all derive from [Exception]. *)
Inductive exn : Type :=
| KeyError | TypeError | AttributeError | ValueError | OverflowError | OSError.

(** Hashable JSON values, as keys of a Python dict.  [True] and [1] are
    the same key in Python, and so are [False] and [0]. *)
Inductive pykey : Type :=
| KNone
| KInt (z : Z)
| KStr (s : string).

#[global] Instance pykey_eq_dec : EqDecision pykey.
Proof. solve_decision. Defined.

#[global] Instance pykey_countable : Countable pykey.
Proof.
  refine (inj_countable'
    (fun k => match k with
              | KNone => inl tt
              | KInt z => inr (inl z)
              | KStr s => inr (inr s)
              end)
    (fun x => match x with
              | inl _ => KNone
              | inr (inl z) => KInt z
              | inr (inr s) => KStr s
              end) _).
  intros k; destruct k; reflexivity.
Defined.

Module Py.

(** [d[k]] on the fields of a dict. *)
Fixpoint dict_lookup (k : string) (fields : list (string * json)) : option json :=
  match fields with
  | [] => None
  | (k', v) :: rest => if String.eqb k k' then Some v else dict_lookup k rest
  end.

(** [hash(v)]: lists and dicts are unhashable. *)
Definition hash_key (v : json) : option pykey :=
  match v with
  | JNull => Some KNone
  | JBool b => Some (KInt (Z.b2z b))
  | JNum n => Some (KInt n)
  | JStr s => Some (KStr s)
  | JArr _ | JObj _ => None
  end.

(** [v == s] for a string literal [s]. *)
Definition eq_str (v : json) (s : string) : bool :=
  match v with
  | JStr s' => String.eqb s' s
  | _ => false
  end.

(** A value accepted where an integer is expected ([bool] is a subclass
    of [int]). *)
Definition as_int (v : json) : option Z :=
  match v with
  | JNum n => Some n
  | JBool b => Some (Z.b2z b)
  | _ => None
  end.

(** [s in t] for two strings: the substring test. *)
Definition is_substring (s t : string) : bool :=
  match String.index 0 s t with
  | Some _ => true
  | None => false
  end.

End Py.

(** ** The world of one relay process *)

(** What leaves the process, and the time it spends asleep.  A datagram is
    kept as the JSON value handed to [json.dumps]; its bytes on the wire
    are [json_dumps] of it. *)
Inductive event : Type :=
| EvSleep (d : Q)
| EvSent (data : json) (ip : string) (port : Z)
| EvSendFailed (data : json) (ip : string) (port : json) (e : exn).

(** The [metrics] dictionary.  [average_processing_time], a float fed by
    wall-clock differences, is left out. *)
Record metrics_t : Type := mkMetrics {
  total_packets_received : Z;
  total_packets_forwarded : Z;
  total_packets_dropped : Z;
  total_acks_sent : Z;
  duplicate_messages : Z;
  shortest_path_updates : Z
}.

(** A value of [ROUTING_TABLE]: a dict with some of the keys
    ["next_hop"], ["ip"], ["port"]. *)
Record route_entry : Type := mkEntry {
  next_hop : option string;
  ip : option string;
  port : option json
}.

(** An element of [NEIGHBORS]. *)
Record neighbor : Type := mkNeighbor {
  n_id : string;
  n_ip : string;
  n_port : Z
}.

(** The module globals of a relay, with the clock and the history of the
    process.  The clock is what [time.time()] returns, taken as a rational
    number of seconds; [time.sleep] moves it on, and so may whoever hands
    the next item to a worker ([set_clock]). *)
Record world : Type := mkWorld {
  clock : Q;                                  (* what time.time() returns *)
  recent_messages : gmap pykey Q;
  ROUTING_TABLE : gmap pykey route_entry;
  message_queue : list (json * json);         (* queue.PriorityQueue of (priority, message) *)
  metrics : metrics_t;
  trace : list event;                         (* oldest first *)
  sends : nat;                                (* sendto calls made so far *)
  draws : nat                                 (* random.random() calls made so far *)
}.

(** What the process does not control. *)
Record env : Type := mkEnv {
  SATELLITE_PORT : Z;                         (* sys.argv[1], or 33001 *)
  json_dumps : json -> string;                (* json.dumps *)
  strftime_utc : Q -> string;                 (* time.strftime("%Y-%m-%dT%H:%M:%SZ", time.gmtime()) *)
  net_ok : nat -> string -> Z -> bool;        (* does the n-th sendto, to ip:port, go through? *)
  packet_lost : nat -> bool                   (* is the n-th random.random() below PACKET_LOSS_PROBABILITY? *)
}.

Definition set_clock (t : Q) (w : world) : world :=
  mkWorld t (recent_messages w) (ROUTING_TABLE w) (message_queue w)
          (metrics w) (trace w) (sends w) (draws w).
Definition set_recent_messages (r : gmap pykey Q) (w : world) : world :=
  mkWorld (clock w) r (ROUTING_TABLE w) (message_queue w)
          (metrics w) (trace w) (sends w) (draws w).
Definition set_ROUTING_TABLE (t : gmap pykey route_entry) (w : world) : world :=
  mkWorld (clock w) (recent_messages w) t (message_queue w)
          (metrics w) (trace w) (sends w) (draws w).
Definition set_message_queue (q : list (json * json)) (w : world) : world :=
  mkWorld (clock w) (recent_messages w) (ROUTING_TABLE w) q
          (metrics w) (trace w) (sends w) (draws w).
Definition set_metrics (m : metrics_t) (w : world) : world :=
  mkWorld (clock w) (recent_messages w) (ROUTING_TABLE w) (message_queue w)
          m (trace w) (sends w) (draws w).
Definition set_trace (t : list event) (w : world) : world :=
  mkWorld (clock w) (recent_messages w) (ROUTING_TABLE w) (message_queue w)
          (metrics w) t (sends w) (draws w).
Definition set_sends (n : nat) (w : world) : world :=
  mkWorld (clock w) (recent_messages w) (ROUTING_TABLE w) (message_queue w)
          (metrics w) (trace w) n (draws w).
Definition set_draws (n : nat) (w : world) : world :=
  mkWorld (clock w) (recent_messages w) (ROUTING_TABLE w) (message_queue w)
          (metrics w) (trace w) (sends w) n.

Definition incr_received (m : metrics_t) : metrics_t :=
  mkMetrics (total_packets_received m + 1) (total_packets_forwarded m)
            (total_packets_dropped m) (total_acks_sent m)
            (duplicate_messages m) (shortest_path_updates m).
Definition incr_forwarded (m : metrics_t) : metrics_t :=
  mkMetrics (total_packets_received m) (total_packets_forwarded m + 1)
            (total_packets_dropped m) (total_acks_sent m)
            (duplicate_messages m) (shortest_path_updates m).
Definition incr_dropped (m : metrics_t) : metrics_t :=
  mkMetrics (total_packets_received m) (total_packets_forwarded m)
            (total_packets_dropped m + 1) (total_acks_sent m)
            (duplicate_messages m) (shortest_path_updates m).
Definition incr_acks_sent (m : metrics_t) : metrics_t :=
  mkMetrics (total_packets_received m) (total_packets_forwarded m)
            (total_packets_dropped m) (total_acks_sent m + 1)
            (duplicate_messages m) (shortest_path_updates m).
Definition incr_duplicates (m : metrics_t) : metrics_t :=
  mkMetrics (total_packets_received m) (total_packets_forwarded m)
            (total_packets_dropped m) (total_acks_sent m)
            (duplicate_messages m + 1) (shortest_path_updates m).
Definition incr_path_updates (m : metrics_t) : metrics_t :=
  mkMetrics (total_packets_received m) (total_packets_forwarded m)
            (total_packets_dropped m) (total_acks_sent m)
            (duplicate_messages m) (shortest_path_updates m + 1).

(** ** The monad of statements: state, and an exception or a value *)

Inductive outcome (A : Type) : Type :=
| Ok (a : A)
| Raise (e : exn).
Arguments Ok {A} a.
Arguments Raise {A} e.

Definition M (A : Type) : Type := world -> outcome A * world.

Definition ret {A} (a : A) : M A := fun w => (Ok a, w).
Definition raise {A} (e : exn) : M A := fun w => (Raise e, w).
Definition bind {A B} (m : M A) (k : A -> M B) : M B :=
  fun w => match m w with
           | (Ok a, w') => k a w'
           | (Raise e, w') => (Raise e, w')
           end.
(** [try: m except Exception as e: h e] *)
Definition try_except {A} (m : M A) (h : exn -> M A) : M A :=
  fun w => match m w with
           | (Ok a, w') => (Ok a, w')
           | (Raise e, w') => h e w'
           end.
Definition gets {A} (f : world -> A) : M A := fun w => (Ok (f w), w).
Definition modify (f : world -> world) : M unit := fun w => (Ok tt, f w).
Definition lift_option {A} (e : exn) (o : option A) : M A :=
  match o with
  | Some a => ret a
  | None => raise e
  end.

Declare Scope py_scope.
Delimit Scope py_scope with py.
Notation "'let!' x ':=' m 'in' k" := (bind m (fun x => k))
  (at level 10, x name, m at level 100, k at level 200) : py_scope.
Notation "m '>>' k" := (bind m (fun _ => k))
  (at level 100, k at level 200, right associativity) : py_scope.
Local Open Scope py_scope.

(** ** Statements every variant shares *)

Module Common.
Section WithEnv.
Variable E : env.

Definition COMMAND_STATION_IP : string := "10.35.70.19".
Definition COMMAND_STATION_PORT : Z := 33500.
Definition ACK_LISTEN_PORT : Z := 33020.
Definition BANDWIDTH_LIMIT : positive := 5000.
Definition DEDUP_WINDOW : Q := 10.

(** [v[k]] for a string [k]. *)
Definition subscript (v : json) (k : string) : M json :=
  match v with
  | JObj fields => lift_option KeyError (Py.dict_lookup k fields)
  | _ => raise TypeError
  end.

(** [v.get(k, default)] *)
Definition dict_get (v : json) (k : string) (default : json) : M json :=
  match v with
  | JObj fields => ret (from_option id default (Py.dict_lookup k fields))
  | _ => raise AttributeError
  end.

(** [message_id in some_dict], [some_dict[message_id]]: the key is hashed. *)
Definition hash (v : json) : M pykey := lift_option TypeError (Py.hash_key v).

(** ["port" in v]: key membership for a dict, element membership for a
    list, substring test for a string, a TypeError otherwise. *)
Definition contains (k : string) (v : json) : M bool :=
  match v with
  | JObj fields => ret (bool_decide (is_Some (Py.dict_lookup k fields)))
  | JArr items => ret (existsb (fun x => Py.eq_str x k) items)
  | JStr s => ret (Py.is_substring k s)
  | JNull | JBool _ | JNum _ => raise TypeError
  end.

Definition time_time : M Q := gets clock.

Definition emit (e : event) : M unit :=
  modify (fun w => set_trace (trace w ++ [e]) w).

Definition time_sleep (d : Q) : M unit :=
  modify (fun w => set_clock (clock w + d)%Q w) >> emit (EvSleep d).

Definition Qltb (x y : Q) : bool := negb (Qle_bool y x).

(** [sock.sendto(data.encode(), (ip, port))].  The call fails on a port
    that is no integer or is out of range, and when the network says
    so. *)
Definition sendto (data : json) (ip : string) (port : json) : M unit :=
  let! n := gets sends in
  modify (set_sends (S n)) >>
  match Py.as_int port with
  | None => emit (EvSendFailed data ip port TypeError) >> raise TypeError
  | Some p =>
      if ((0 <=? p) && (p <=? 65535))%Z then
        if net_ok E n ip p then emit (EvSent data ip p)
        else emit (EvSendFailed data ip port OSError) >> raise OSError
      else emit (EvSendFailed data ip port OverflowError) >> raise OverflowError
  end.

Definition time_ns (t : Q) : Z := Qfloor (t * 1000000000).

Definition satellite_name : string := "satellite_" +:+ pretty (SATELLITE_PORT E).

(** The dict that [create_message] serialises. *)
Definition create_message (msg_type source : string) (destination payload : json)
  : M json :=
  let! now := time_time in
  ret (JObj [("type", JStr msg_type);
             ("source", JStr source);
             ("destination", destination);
             ("payload", payload);
             ("timestamp", JStr (strftime_utc E now));
             ("id", JStr (source +:+ "-" +:+ pretty (time_ns now)))]).

Definition simulate_packet_loss : M bool :=
  let! n := gets draws in
  modify (set_draws (S n)) >>
  ret (packet_lost E n).

Definition simulate_bandwidth (data : json) : M unit :=
  let data_size := String.length (json_dumps E data) in
  let delay := (Z.of_nat data_size # BANDWIDTH_LIMIT)%Q in
  time_sleep delay.

(** [is_duplicate] of the parallel, channel-characteristics and scalable
    relays (the three texts are the same). *)
Definition is_duplicate (message_id : json) : M bool :=
  let! current_time := time_time in
  let! k := hash message_id in
  let! seen := gets (fun w => recent_messages w !! k) in
  let! suppressed :=
    match seen with
    | Some first_seen =>
        if Qltb (current_time - first_seen) DEDUP_WINDOW then ret true
        else modify (fun w => set_recent_messages (delete k (recent_messages w)) w)
             >> ret false
    | None => ret false
    end in
  if (suppressed : bool) then ret true
  else modify (fun w => set_recent_messages (<[k := current_time]> (recent_messages w)) w)
       >> ret false.

(** [queue.PriorityQueue] is library code; it is modelled by its
    contract, as a list kept in ascending priority in which an entry
    goes behind the entries of the same priority.  Priorities other
    than integers are taken as incomparable.  (In Python the entries are
    the tuples [(priority, message)], and a tie on the priority makes the
    queue compare two dicts, which raises a TypeError; the list is kinder
    and keeps such entries in the order of their arrival.) *)
Fixpoint pq_insert (e : json * json) (q : list (json * json))
  : option (list (json * json)) :=
  match q with
  | [] => Some [e]
  | h :: rest =>
      match Py.as_int (fst e), Py.as_int (fst h) with
      | Some p, Some p' =>
          if (p <? p')%Z then Some (e :: h :: rest)
          else option_map (cons h) (pq_insert e rest)
      | _, _ => None
      end
  end.

Definition message_queue_put (e : json * json) : M unit :=
  let! q := gets message_queue in
  let! q' := lift_option TypeError (pq_insert e q) in
  modify (set_message_queue q').

End WithEnv.
End Common.

(** ** Parallel_Enhancement/satellite_node_parallel.py *)

Module Parallel.
Section WithEnv.
Variable E : env.

Import Common.

Definition initial_ROUTING_TABLE : gmap pykey route_entry :=
  list_to_map
    [(KStr "command_station", mkEntry (Some "command_station") None None);
     (KStr "satellite", mkEntry (Some "command_station") None None);
     (KStr "sat_1", mkEntry (Some "sat_2") None None);
     (KStr "sat_2", mkEntry (Some "sat_3") None None);
     (KStr "sat_3", mkEntry (Some "sat_4") None None);
     (KStr "sat_4", mkEntry (Some "sat_5") None None);
     (KStr "sat_5", mkEntry (Some "command_station") None None)].

Definition NEIGHBORS : list neighbor :=
  [mkNeighbor "command_station" "10.35.70.19" 33500;
   mkNeighbor "sat_1" "127.0.0.1" 33001;
   mkNeighbor "sat_2" "127.0.0.1" 33002;
   mkNeighbor "sat_3" "127.0.0.1" 33003;
   mkNeighbor "sat_4" "127.0.0.1" 33004;
   mkNeighbor "sat_5" "127.0.0.1" 33005].

Definition initial_metrics : metrics_t := mkMetrics 0 0 0 0 0 0.

Definition initial_world : world :=
  mkWorld 0%Q ∅ initial_ROUTING_TABLE [] initial_metrics [] 0%nat 0%nat.

Definition is_duplicate := Common.is_duplicate.

Definition forward_to_command_station (data : json) : M unit :=
  try_except
    (sendto E data COMMAND_STATION_IP (JNum COMMAND_STATION_PORT))
    (fun _ => ret tt).

Definition forward_to_neighbor (message : json) (nb : neighbor) : M unit :=
  try_except
    (time_sleep (1 # 2) >>
     sendto E message (n_ip nb) (JNum (n_port nb)))
    (fun _ => ret tt).

(** The body of the [try] in [route_data]. *)
Definition route_one (msg destination : json) (neighbors : list neighbor) : M unit :=
  let! k := hash destination in
  let! found := gets (fun w => ROUTING_TABLE w !! k) in
  match found with
  | Some entry =>
      let! hop := lift_option KeyError (next_hop entry) in
      if String.eqb hop "command_station" then forward_to_command_station msg
      else
        match List.find (fun n => String.eqb (n_id n) hop) neighbors with
        | Some nb => forward_to_neighbor msg nb
        | None => raise ValueError
        end
  | None => raise KeyError
  end.

(** [while not message_queue.empty(): ...]; nothing is put on the queue
    inside the loop, so its length at entry bounds the iterations. *)
Fixpoint route_loop (fuel : nat) (neighbors : list neighbor) : M unit :=
  match fuel with
  | O => ret tt
  | S fuel' =>
      let! q := gets message_queue in
      match q with
      | [] => ret tt
      | (_, msg) :: rest =>
          modify (set_message_queue rest) >>
          let! destination := subscript msg "destination" in
          let! message_id := subscript msg "id" in
          let! dup := is_duplicate message_id in
          if (dup : bool) then route_loop fuel' neighbors
          else
            try_except (route_one msg destination neighbors) (fun _ => ret tt) >>
            route_loop fuel' neighbors
      end
  end.

Definition route_data (message : json) (neighbors : list neighbor) : M unit :=
  let! priority := dict_get message "priority" (JNum 1) in
  message_queue_put (priority, message) >>
  let! n := gets (fun w => length (message_queue w)) in
  route_loop n neighbors.

Definition respond_to_vehicle (addr : string * Z) (vehicle_id : json) : M unit :=
  try_except
    (let! ack_message := create_message E "ack" (satellite_name E) vehicle_id
                           (JObj [("status", JStr "received")]) in
     let vehicle_ip := fst addr in
     sendto E ack_message vehicle_ip (JNum ACK_LISTEN_PORT))
    (fun _ => ret tt).

Definition handle_connection (addr : string * Z) (message : json) : M unit :=
  try_except
    (let! ty := subscript message "type" in
     if Py.eq_str ty "data" then
       route_data message NEIGHBORS >>
       let! source := subscript message "source" in
       respond_to_vehicle addr source
     else ret tt)
    (fun _ => ret tt).

(** [connection_worker] on the items that [connection_queue], a FIFO
    [queue.Queue], hands out, oldest first.  The result counts the
    calls of [task_done]. *)
Fixpoint connection_worker (items : list ((string * Z) * json)) : M nat :=
  match items with
  | [] => ret 0%nat
  | (addr, message) :: rest =>
      let! done := try_except (handle_connection addr message >> ret 1%nat)
                              (fun _ => ret 0%nat) in
      let! n := connection_worker rest in
      ret (done + n)%nat
  end.

End WithEnv.
End Parallel.

(** ** channel_characteristics_enhancement/satellite_node_channelchar.py *)

Module ChannelChar.
Section WithEnv.
Variable E : env.

Import Common.

Definition ISL_DELAY : Q := 1 # 5.

Definition initial_ROUTING_TABLE : gmap pykey route_entry :=
  list_to_map
    [(KStr "command_station", mkEntry (Some "command_station") None None);
     (KStr "sat_1", mkEntry (Some "sat_2") None None);
     (KStr "sat_2", mkEntry (Some "sat_3") None None);
     (KStr "sat_3", mkEntry (Some "sat_4") None None);
     (KStr "sat_4", mkEntry (Some "sat_5") None None);
     (KStr "sat_5", mkEntry (Some "command_station") None None);
     (KStr "satellite", mkEntry (Some "command_station") None None)].

Definition NEIGHBORS : list neighbor :=
  [mkNeighbor "command_station" "10.35.70.19" 33500;
   mkNeighbor "sat_1" "127.0.0.1" 33001;
   mkNeighbor "sat_2" "127.0.0.1" 33002;
   mkNeighbor "sat_3" "127.0.0.1" 33003;
   mkNeighbor "sat_4" "127.0.0.1" 33004;
   mkNeighbor "sat_5" "127.0.0.1" 33005].

Definition initial_world : world :=
  mkWorld 0%Q ∅ initial_ROUTING_TABLE [] (mkMetrics 0 0 0 0 0 0) [] 0%nat 0%nat.

Definition is_duplicate := Common.is_duplicate.

Definition forward_to_command_station (data : json) : M unit :=
  try_except
    (simulate_bandwidth E data >>
     sendto E data COMMAND_STATION_IP (JNum COMMAND_STATION_PORT) >>
     modify (fun w => set_metrics (incr_forwarded (metrics w)) w))
    (fun _ => ret tt).

Definition forward_to_neighbor (message : json) (nb : neighbor) : M unit :=
  try_except
    (time_sleep ISL_DELAY >>
     let! lost := simulate_packet_loss E in
     if (lost : bool) then
       modify (fun w => set_metrics (incr_dropped (metrics w)) w)
     else
       simulate_bandwidth E message >>
       sendto E message (n_ip nb) (JNum (n_port nb)) >>
       modify (fun w => set_metrics (incr_forwarded (metrics w)) w))
    (fun _ => ret tt).

(** The body of the [try] in [route_data]. *)
Definition route_one (msg destination : json) (neighbors : list neighbor) : M unit :=
  let! k := hash destination in
  let! found := gets (fun w => ROUTING_TABLE w !! k) in
  match found with
  | Some entry =>
      let! hop := lift_option KeyError (next_hop entry) in
      if String.eqb hop "command_station" then forward_to_command_station msg
      else
        match List.find (fun n => String.eqb (n_id n) hop) neighbors with
        | Some nb => forward_to_neighbor msg nb
        | None => ret tt                     (* "Error: No route to next hop" *)
        end
  | None =>                                  (* "Warning: ... Forwarding to command station." *)
      forward_to_command_station msg
  end.

Fixpoint route_loop (fuel : nat) (neighbors : list neighbor) : M unit :=
  match fuel with
  | O => ret tt
  | S fuel' =>
      let! q := gets message_queue in
      match q with
      | [] => ret tt
      | (_, msg) :: rest =>
          modify (set_message_queue rest) >>
          let! destination := subscript msg "destination" in
          let! message_id := subscript msg "id" in
          let! dup := is_duplicate message_id in
          if (dup : bool) then route_loop fuel' neighbors
          else
            try_except (route_one msg destination neighbors) (fun _ => ret tt) >>
            route_loop fuel' neighbors
      end
  end.

Definition route_data (message : json) (neighbors : list neighbor) : M unit :=
  let! priority := dict_get message "priority" (JNum 1) in
  message_queue_put (priority, message) >>
  let! n := gets (fun w => length (message_queue w)) in
  route_loop n neighbors.

Definition respond_to_vehicle (addr : string * Z) (vehicle_id : json) : M unit :=
  try_except
    (let! ack_message := create_message E "ack" (satellite_name E) vehicle_id
                           (JObj [("status", JStr "received")]) in
     let vehicle_ip := fst addr in
     sendto E ack_message vehicle_ip (JNum ACK_LISTEN_PORT) >>
     modify (fun w => set_metrics (incr_acks_sent (metrics w)) w))
    (fun _ => ret tt).

Definition handle_connection (addr : string * Z) (message : json) : M unit :=
  try_except
    (let! ty := subscript message "type" in
     if Py.eq_str ty "data" then
       route_data message NEIGHBORS >>
       let! source := subscript message "source" in
       respond_to_vehicle addr source
     else ret tt)
    (fun _ => ret tt).

Fixpoint connection_worker (items : list ((string * Z) * json)) : M nat :=
  match items with
  | [] => ret 0%nat
  | (addr, message) :: rest =>
      let! done := try_except (handle_connection addr message >> ret 1%nat)
                              (fun _ => ret 0%nat) in
      let! n := connection_worker rest in
      ret (done + n)%nat
  end.

End WithEnv.
End ChannelChar.

(** ** scalable_enhancement/satellite_node_scalable.py *)

Module Scalable.
Section WithEnv.
Variable E : env.

Import Common.

Definition ISL_DELAY : Q := 1 # 5.
Definition MAX_RETRIES : nat := 3.

Definition initial_ROUTING_TABLE : gmap pykey route_entry :=
  list_to_map
    [(KStr "command_station", mkEntry (Some "command_station") None None);
     (KStr "sat_1", mkEntry (Some "sat_2") None None);
     (KStr "sat_2", mkEntry (Some "sat_3") None None);
     (KStr "sat_3", mkEntry (Some "sat_4") None None);
     (KStr "sat_4", mkEntry (Some "sat_5") None None);
     (KStr "sat_5", mkEntry (Some "command_station") None None);
     (KStr "satellite", mkEntry (Some "command_station") None None)].

Definition NEIGHBORS : list neighbor :=
  [mkNeighbor "command_station" COMMAND_STATION_IP COMMAND_STATION_PORT;
   mkNeighbor "sat_1" "127.0.0.1" 33001;
   mkNeighbor "sat_2" "127.0.0.1" 33002;
   mkNeighbor "sat_3" "127.0.0.1" 33003;
   mkNeighbor "sat_4" "127.0.0.1" 33004;
   mkNeighbor "sat_5" "127.0.0.1" 33005].

Definition initial_world : world :=
  mkWorld 0%Q ∅ initial_ROUTING_TABLE [] (mkMetrics 0 0 0 0 0 0) [] 0%nat 0%nat.

Definition is_duplicate := Common.is_duplicate.

(** [for attempt in range(MAX_RETRIES): try: ...; return
    except Exception: ...; time.sleep(0.5)]; the result tells whether the
    loop was left by the [return]. *)
Fixpoint command_station_attempts (attempts : list nat) (data : json) : M bool :=
  match attempts with
  | [] => ret false
  | attempt :: rest =>
      let! returned :=
        try_except
          (simulate_bandwidth E data >>
           sendto E data COMMAND_STATION_IP (JNum COMMAND_STATION_PORT) >>
           modify (fun w => set_metrics (incr_forwarded (metrics w)) w) >>
           ret true)
          (fun _ => time_sleep (1 # 2) >> ret false) in
      if (returned : bool) then ret true
      else command_station_attempts rest data
  end.

Definition forward_to_command_station (data : json) : M unit :=
  let! returned := command_station_attempts (seq 0 MAX_RETRIES) data in
  if (returned : bool) then ret tt
  else modify (fun w => set_metrics (incr_dropped (metrics w)) w).

Fixpoint neighbor_attempts (attempts : list nat) (message : json) (nb : neighbor)
  : M bool :=
  match attempts with
  | [] => ret false
  | attempt :: rest =>
      let! returned :=
        try_except
          (simulate_bandwidth E message >>
           time_sleep ISL_DELAY >>
           sendto E message (n_ip nb) (JNum (n_port nb)) >>
           modify (fun w => set_metrics (incr_forwarded (metrics w)) w) >>
           ret true)
          (fun _ => time_sleep (1 # 2) >> ret false) in
      if (returned : bool) then ret true
      else neighbor_attempts rest message nb
  end.

Definition forward_to_neighbor (message : json) (nb : neighbor) : M unit :=
  let! returned := neighbor_attempts (seq 0 MAX_RETRIES) message nb in
  if (returned : bool) then ret tt
  else modify (fun w => set_metrics (incr_dropped (metrics w)) w).

(** The body of the [try] in [route_data]. *)
Definition route_one (message destination : json) : M unit :=
  let! k := hash destination in
  let! found := gets (fun w => ROUTING_TABLE w !! k) in
  match found with
  | Some entry =>
      let! hop := lift_option KeyError (next_hop entry) in
      if String.eqb hop "command_station" then forward_to_command_station message
      else
        match List.find (fun n => String.eqb (n_id n) hop) NEIGHBORS with
        | Some nb => forward_to_neighbor message nb
        | None => ret tt                     (* "No route to next hop" *)
        end
  | None =>                                  (* "Using fallback to command station." *)
      forward_to_command_station message
  end.

Definition route_data (message : json) : M unit :=
  let! destination := subscript message "destination" in
  let! message_id := subscript message "id" in
  let! dup := is_duplicate message_id in
  if (dup : bool) then ret tt
  else try_except (route_one message destination) (fun _ => ret tt).

Definition send_ack (addr : string * Z) (vehicle_id : json) : M unit :=
  let! ack_message := create_message E "ack" (satellite_name E) vehicle_id
                        (JObj [("status", JStr "received")]) in
  sendto E ack_message (fst addr) (JNum ACK_LISTEN_PORT) >>
  modify (fun w => set_metrics (incr_acks_sent (metrics w)) w).

Definition handle_connection (addr : string * Z) (message : json) : M unit :=
  try_except
    (let! ty := subscript message "type" in
     if Py.eq_str ty "data" then
       route_data message >>
       let! source := subscript message "source" in
       send_ack addr source
     else ret tt)
    (fun _ => ret tt).

Fixpoint connection_worker (items : list ((string * Z) * json)) : M nat :=
  match items with
  | [] => ret 0%nat
  | (addr, message) :: rest =>
      let! done := try_except (handle_connection addr message >> ret 1%nat)
                              (fun _ => ret 0%nat) in
      let! n := connection_worker rest in
      ret (done + n)%nat
  end.

End WithEnv.
End Scalable.

(** ** short_path_enhancement/satellite_node_sp.py *)

Module SP.
Section WithEnv.
Variable E : env.

Import Common.

Definition ISL_DELAY : Q := 1 # 5.
Definition MAX_RETRIES : nat := 3.

Definition initial_ROUTING_TABLE : gmap pykey route_entry :=
  list_to_map
    [(KStr "command_station",
      mkEntry (Some "command_station") (Some COMMAND_STATION_IP)
              (Some (JNum COMMAND_STATION_PORT)));
     (KStr "sat_1", mkEntry (Some "sat_2") None None);
     (KStr "sat_2", mkEntry (Some "sat_3") None None);
     (KStr "sat_3", mkEntry (Some "sat_4") None None);
     (KStr "sat_4", mkEntry (Some "sat_5") None None);
     (KStr "sat_5", mkEntry (Some "command_station") None None);
     (KStr "satellite", mkEntry (Some "command_station") None None)].

Definition initial_world : world :=
  mkWorld 0%Q ∅ initial_ROUTING_TABLE [] (mkMetrics 0 0 0 0 0 0) [] 0%nat 0%nat.

Definition is_duplicate (message_id : json) : M bool :=
  let! current_time := time_time in
  let! k := hash message_id in
  let! seen := gets (fun w => recent_messages w !! k) in
  let! suppressed :=
    match seen with
    | Some first_seen =>
        if Qltb (current_time - first_seen) DEDUP_WINDOW then
          modify (fun w => set_metrics (incr_duplicates (metrics w)) w) >>
          ret true
        else modify (fun w => set_recent_messages (delete k (recent_messages w)) w)
             >> ret false
    | None => ret false
    end in
  if (suppressed : bool) then ret true
  else modify (fun w => set_recent_messages (<[k := current_time]> (recent_messages w)) w)
       >> ret false.

Definition send_ack (addr : string * Z) (source : json) : M unit :=
  let! ack_message := create_message E "ack" (satellite_name E) source
                        (JObj [("status", JStr "received")]) in
  sendto E ack_message (fst addr) (JNum ACK_LISTEN_PORT) >>
  modify (fun w => set_metrics (incr_acks_sent (metrics w)) w).

(** ["ip" in entry and "port" in entry] *)
Definition has_endpoint (entry : route_entry) : bool :=
  bool_decide (is_Some (ip entry)) && bool_decide (is_Some (port entry)).

(** The truth value of [entry.get("next_hop")]. *)
Definition truthy (s : option string) : bool :=
  match s with
  | Some s => negb (String.eqb s EmptyString)
  | None => false
  end.

Definition get_next_hop (destination : json) : M (option route_entry) :=
  let! k := hash destination in
  let! table := gets ROUTING_TABLE in
  match table !! k with
  | Some entry =>
      if has_endpoint entry then ret (Some entry)
      else
        let static_next_hop := next_hop entry in
        match static_next_hop with
        | Some hop =>
            if truthy static_next_hop then
              match table !! KStr hop with
              | Some next_hop_entry =>
                  if has_endpoint next_hop_entry then ret (Some next_hop_entry)
                  else ret None
              | None => ret None
              end
            else ret None
        | None => ret None
        end
  | None => ret None
  end.

Definition update_routing_table (message : json) (addr : string * Z) : M unit :=
  let! source := subscript message "source" in
  let! payload := subscript message "payload" in
  let! has_port := contains "port" payload in
  if (has_port : bool) then
    let! declared := subscript payload "port" in
    let! k := hash source in
    modify (fun w =>
              set_ROUTING_TABLE
                (<[k := mkEntry None (Some (fst addr)) (Some declared)]> (ROUTING_TABLE w)) w) >>
    modify (fun w => set_metrics (incr_path_updates (metrics w)) w)
  else ret tt.

Fixpoint neighbor_attempts (attempts : list nat) (data : json) (ip : string) (port : json)
  : M bool :=
  match attempts with
  | [] => ret false
  | attempt :: rest =>
      let! returned :=
        try_except
          (simulate_bandwidth E data >>
           time_sleep ISL_DELAY >>
           sendto E data ip port >>
           modify (fun w => set_metrics (incr_forwarded (metrics w)) w) >>
           ret true)
          (fun _ => time_sleep (1 # 2) >> ret false) in
      if (returned : bool) then ret true
      else neighbor_attempts rest data ip port
  end.

Definition forward_to_neighbor (data : json) (ip : string) (port : json) : M unit :=
  let! returned := neighbor_attempts (seq 0 MAX_RETRIES) data ip port in
  if (returned : bool) then ret tt
  else modify (fun w => set_metrics (incr_dropped (metrics w)) w).

Definition forward_message (message : json) : M unit :=
  let! destination := subscript message "destination" in
  let! hop := get_next_hop destination in
  match hop with
  | Some entry =>
      let! hop_ip := lift_option KeyError (ip entry) in
      let! hop_port := lift_option KeyError (port entry) in
      forward_to_neighbor message hop_ip hop_port
  | None =>
      modify (fun w => set_metrics (incr_dropped (metrics w)) w)
  end.

Definition handle_connection (addr : string * Z) (message : json) : M unit :=
  try_except
    (let! message_id := subscript message "id" in
     let! dup := is_duplicate message_id in
     if (dup : bool) then ret tt
     else
       let! ty := subscript message "type" in
       (if Py.eq_str ty "data" then
          forward_message message >>
          let! source := subscript message "source" in
          send_ack addr source
        else if Py.eq_str ty "announcement" then
          update_routing_table message addr
        else ret tt) >>
       modify (fun w => set_metrics (incr_received (metrics w)) w))
    (fun _ => ret tt).

Fixpoint connection_worker (items : list ((string * Z) * json)) : M nat :=
  match items with
  | [] => ret 0%nat
  | (addr, message) :: rest =>
      let! done := try_except (handle_connection addr message >> ret 1%nat)
                              (fun _ => ret 0%nat) in
      let! n := connection_worker rest in
      ret (done + n)%nat
  end.

End WithEnv.
End SP.

(** ** Observations on worlds and traces *)

(** The statement [m] leaves the observation [f] of the world as it found
    it, whether it returns or raises. *)
Definition preserves {A X : Type} (f : world -> X) (m : M A) : Prop :=
  forall w, f (snd (m w)) = f w.

(** The statement [m] never lets an exception out. *)
Definition contained {A : Type} (m : M A) : Prop :=
  forall w, exists a, fst (m w) = Ok a.

(** The key [k] is not under suppression at the clock of [w]: it was never
    recorded, or its record is ten seconds old or older. *)
Definition novel (w : world) (k : pykey) : Prop :=
  match recent_messages w !! k with
  | None => True
  | Some first_seen => (Common.DEDUP_WINDOW <= clock w - first_seen)%Q
  end.

(** The world after the dedup store records [k] at the current clock. *)
Definition record_seen (k : pykey) (w : world) : world :=
  set_recent_messages (<[k := clock w]> (recent_messages w)) w.

(** The ["type"] field of a datagram. *)
Definition datagram_type (d : json) : json :=
  match d with
  | JObj fields => from_option id JNull (Py.dict_lookup "type" fields)
  | _ => JNull
  end.

(** Datagrams of type [ty] that left the node. *)
Definition is_sent (ty : string) (e : event) : bool :=
  match e with
  | EvSent d _ _ => Py.eq_str (datagram_type d) ty
  | _ => false
  end.

(** Calls of [sendto] on a datagram of type [ty], failed ones included. *)
Definition is_attempt (ty : string) (e : event) : bool :=
  match e with
  | EvSent d _ _ | EvSendFailed d _ _ _ => Py.eq_str (datagram_type d) ty
  | EvSleep _ => false
  end.

Definition count_sent (ty : string) (t : list event) : nat :=
  length (List.filter (is_sent ty) t).

Definition count_attempts (ty : string) (t : list event) : nat :=
  length (List.filter (is_attempt ty) t).

(** The ["priority"] fields of the data datagrams that left the node, in
    the order in which they left. *)
Fixpoint forwarded_priorities (t : list event) : list json :=
  match t with
  | [] => []
  | EvSent (JObj fields) _ _ :: rest =>
      if Py.eq_str (from_option id JNull (Py.dict_lookup "type" fields)) "data"
      then from_option id JNull (Py.dict_lookup "priority" fields)
           :: forwarded_priorities rest
      else forwarded_priorities rest
  | _ :: rest => forwarded_priorities rest
  end.

(** The sleeps that directly follow a failed [sendto]: the waits before
    the next attempt. *)
Fixpoint backoff_waits (t : list event) : list Q :=
  match t with
  | [] => []
  | EvSendFailed _ _ _ _ :: rest =>
      match rest with
      | EvSleep d :: _ => d :: backoff_waits rest
      | _ => backoff_waits rest
      end
  | _ :: rest => backoff_waits rest
  end.

(** The sleeps and the [sendto] that one failed attempt of the retry loops
    of the scalable and short-path relays leaves in the trace. *)
Definition failed_attempt_events (bandwidth_delay : Q) (isl : list Q)
    (data : json) (ip : string) (port : json) (e : exn) : list event :=
  EvSleep bandwidth_delay :: map EvSleep isl ++
  [EvSendFailed data ip port e; EvSleep (1 # 2)].

Definition bandwidth_delay (E : env) (data : json) : Q :=
  Z.of_nat (String.length (json_dumps E data)) # Common.BANDWIDTH_LIMIT.

(** What [route_data] of the parallel relay does to the one message it is
    given, the priority queue set aside. *)
Definition route_alone (E : env) (message : json) (neighbors : list neighbor) : M unit :=
  let! priority := Common.dict_get message "priority" (JNum 1) in
  let! destination := Common.subscript message "destination" in
  let! message_id := Common.subscript message "id" in
  let! dup := Parallel.is_duplicate message_id in
  if (dup : bool) then ret tt
  else try_except (Parallel.route_one E message destination neighbors)
                  (fun _ => ret tt).

(** What the trace shows of a [sendto] to the command station made in the
    world [w]: the datagram leaves, or the call fails. *)
Definition sink_attempt (E : env) (data : json) (w : world) : event :=
  if net_ok E (sends w) Common.COMMAND_STATION_IP Common.COMMAND_STATION_PORT
  then EvSent data Common.COMMAND_STATION_IP Common.COMMAND_STATION_PORT
  else EvSendFailed data Common.COMMAND_STATION_IP
                    (JNum Common.COMMAND_STATION_PORT) OSError.

(** A port that [sendto] accepts. *)
Definition valid_port (port : json) (p : Z) : Prop :=
  Py.as_int port = Some p /\ (0 <= p <= 65535)%Z.

(** The world after one attempt of a retry loop whose [sendto] the network
    refused: the bandwidth delay and the sleeps [isl] before the call, the
    failed call, the sleep of the handler. *)
Definition after_failed_attempt (bw : Q) (isl : list Q)
    (data : json) (ip : string) (port : json) (w : world) : world :=
  mkWorld (fold_left Qplus isl (clock w + bw) + (1 # 2))%Q
          (recent_messages w) (ROUTING_TABLE w) (message_queue w) (metrics w)
          (trace w ++ failed_attempt_events bw isl data ip port OSError)
          (S (sends w)) (draws w).

(** The world after one attempt whose [sendto] went through. *)
Definition after_sent_attempt (bw : Q) (isl : list Q)
    (data : json) (ip : string) (p : Z) (w : world) : world :=
  mkWorld (fold_left Qplus isl (clock w + bw))%Q
          (recent_messages w) (ROUTING_TABLE w) (message_queue w)
          (incr_forwarded (metrics w))
          (trace w ++ EvSleep bw :: map EvSleep isl ++ [EvSent data ip p])
          (S (sends w)) (draws w).

(** What a retry loop adds to the trace when its first [k] attempts fail
    and, if [k] is below [MAX_RETRIES], the next one goes through. *)
Definition retry_events (bw : Q) (isl : list Q)
    (data : json) (ip : string) (port : json) (p : Z) (k : nat) : list event :=
  concat (repeat (failed_attempt_events bw isl data ip port OSError) k) ++
  (if (k <? 3)%nat then EvSleep bw :: map EvSleep isl ++ [EvSent data ip p] else []).

(** The dict that [send_ack] has [create_message] build at clock [now]. *)
Definition ack_datagram (E : env) (source : json) (now : Q) : json :=
  JObj [("type", JStr "ack");
        ("source", JStr (Common.satellite_name E));
        ("destination", source);
        ("payload", JObj [("status", JStr "received")]);
        ("timestamp", JStr (strftime_utc E now));
        ("id", JStr (Common.satellite_name E +:+ "-" +:+ pretty (Common.time_ns now)))].

(** The entry that an announcement from address [a] declaring the port
    [p] puts in the routing table: a direct endpoint. *)
Definition learned (a : string) (p : json) : route_entry :=
  mkEntry None (Some a) (Some p).

(** The message is a dict whose ["payload"] is a dict with the key
    ["port"]. *)
Definition declares_port (message : json) : bool :=
  match message with
  | JObj fields =>
      match Py.dict_lookup "payload" fields with
      | Some (JObj payload_fields) =>
          match Py.dict_lookup "port" payload_fields with
          | Some _ => true
          | None => false
          end
      | _ => false
      end
  | _ => false
  end.

(** The world after a worker has handled the items one after the other. *)
Definition handle_all (handle : string * Z -> json -> M unit)
    (items : list ((string * Z) * json)) (w : world) : world :=
  fold_left (fun w item => snd (handle (fst item) (snd item) w)) items w.

(** ** Sample inputs *)

Module Sample.

(** An environment in which every datagram goes through and the random
    generator never drops. *)
Definition env_up : env :=
  mkEnv 33001 (fun _ => "{}") (fun _ => "2024-01-01T00:00:00Z")
        (fun _ _ _ => true) (fun _ => false).

(** An environment in which no datagram reaches the command station,
    and every other one goes through. *)
Definition env_sink_down : env :=
  mkEnv 33001 (fun _ => "{}") (fun _ => "2024-01-01T00:00:00Z")
        (fun _ ip _ => negb (String.eqb ip Common.COMMAND_STATION_IP))
        (fun _ => false).

Definition vehicle_addr : string * Z := ("10.0.0.7", 40000).

Definition data_envelope (source destination message_id : string) : json :=
  JObj [("type", JStr "data");
        ("source", JStr source);
        ("destination", JStr destination);
        ("payload", JObj [("latitude", JNum 53); ("longitude", JNum (-6))]);
        ("timestamp", JStr "2024-01-01T00:00:00Z");
        ("id", JStr message_id)].

Definition prioritised (priority : Z) (message_id : string) : json :=
  JObj [("type", JStr "data");
        ("source", JStr "vehicle_1234");
        ("destination", JStr "satellite");
        ("payload", JNull);
        ("timestamp", JStr "2024-01-01T00:00:00Z");
        ("id", JStr message_id);
        ("priority", JNum priority)].

Definition announcement (source : string) (declared_port : Z) : json :=
  JObj [("type", JStr "announcement");
        ("source", JStr source);
        ("destination", JStr "all");
        ("payload", JObj [("port", JNum declared_port)]);
        ("timestamp", JStr "2024-01-01T00:00:00Z");
        ("id", JStr (source +:+ "-1"))].

Definition stray_ack : json :=
  JObj [("type", JStr "ack");
        ("source", JStr "satellite_33002");
        ("destination", JStr "vehicle_1234");
        ("payload", JObj [("status", JStr "received")]);
        ("timestamp", JStr "2024-01-01T00:00:00Z");
        ("id", JStr "satellite_33002-7")].

(** A world whose clock reads 11 and whose store saw one id at 0. *)
Definition world_seen_11s_ago : world :=
  mkWorld 11 {[KStr "vehicle_1234-5" := 0%Q]} ∅ []
          (mkMetrics 0 0 0 0 0 0) [] 0%nat 0%nat.

(** Three data envelopes with the priorities 3, 1 and 2, in the order of
    their arrival. *)
Definition three_priorities : list ((string * Z) * json) :=
  [(vehicle_addr, prioritised 3 "vehicle_1234-1");
   (vehicle_addr, prioritised 1 "vehicle_1234-2");
   (vehicle_addr, prioritised 2 "vehicle_1234-3")].

(** A data envelope that is handled twice, the second time a second after
    the first. *)
Definition twice : json := data_envelope "vehicle_1234" "satellite" "vehicle_1234-1".

Definition parallel_after_first : world :=
  snd (Parallel.handle_connection env_up vehicle_addr twice Parallel.initial_world).

Definition parallel_after_second : world :=
  snd (Parallel.handle_connection env_up vehicle_addr twice
                                  (set_clock 1 parallel_after_first)).

Definition sp_after_first : world :=
  snd (SP.handle_connection env_up vehicle_addr twice SP.initial_world).

Definition sp_after_second : world :=
  snd (SP.handle_connection env_up vehicle_addr twice (set_clock 1 sp_after_first)).

(** An announcement whose payload declares no port. *)
Definition portless_announcement : json :=
  JObj [("type", JStr "announcement");
        ("source", JStr "satellite_33002");
        ("destination", JStr "all");
        ("payload", JObj [("status", JStr "up")]);
        ("timestamp", JStr "2024-01-01T00:00:00Z");
        ("id", JStr "satellite_33002-1")].

Definition to_sink : json :=
  data_envelope "vehicle_1234" "command_station" "vehicle_1234-1".

Definition to_unknown : json :=
  data_envelope "vehicle_1234" "unknown_xyz" "vehicle_1234-2".

End Sample.

(** ** [broadcast_presence]

    Every relay runs [broadcast_presence] in a thread of its own.  The
    function is one [while True] around a [try]; its model runs a given
    number of turns of the loop.  The socket is made once, before the
    loop; only [sendto] is called on it. *)

(** The dict that [broadcast_presence] has [create_message] build at
    clock [now]. *)
Definition announcement_datagram (E : env) (now : Q) : json :=
  JObj [("type", JStr "announcement");
        ("source", JStr (Common.satellite_name E));
        ("destination", JStr "all");
        ("payload", JObj [("port", JNum (SATELLITE_PORT E))]);
        ("timestamp", JStr (strftime_utc E now));
        ("id", JStr (Common.satellite_name E +:+ "-" +:+ pretty (Common.time_ns now)))].

(** Parallel_Enhancement/satellite_node_parallel.py *)
Module ParallelBeacon.
Section WithEnv.
Variable E : env.

Import Common.

Definition BROADCAST_PORT : Z := 34000.
Definition BROADCAST_INTERVAL : Z := 5.
Definition broadcast_address : string := "255.255.255.255".

(** One turn of the loop, entered with the local variable [interval];
    the result is its value when the turn ends. *)
Definition broadcast_turn (interval : Z) : M Z :=
  try_except
    (let! message := create_message E "announcement" (satellite_name E) (JStr "all")
                       (JObj [("port", JNum (SATELLITE_PORT E))]) in
     sendto E message broadcast_address (JNum BROADCAST_PORT) >>
     let interval := Z.min (interval + 1) 30 in
     time_sleep (inject_Z interval) >>
     ret interval)
    (fun _ => ret interval).

Fixpoint broadcast_turns (turns : nat) (interval : Z) : M Z :=
  match turns with
  | O => ret interval
  | S turns' =>
      let! interval := broadcast_turn interval in
      broadcast_turns turns' interval
  end.

(** The first [turns] turns of [broadcast_presence]. *)
Definition broadcast_presence (turns : nat) : M Z :=
  broadcast_turns turns BROADCAST_INTERVAL.

End WithEnv.
End ParallelBeacon.

(** channel_characteristics_enhancement/satellite_node_channelchar.py,
    scalable_enhancement/satellite_node_scalable.py and
    short_path_enhancement/satellite_node_sp.py: the three texts differ in
    what they log only. *)
Module Beacon.
Section WithEnv.
Variable E : env.

Import Common.

Definition BROADCAST_PORT : Z := 34000.
Definition BROADCAST_INTERVAL : Z := 5.
Definition broadcast_address : string := "255.255.255.255".

(** One turn of the loop. *)
Definition broadcast_turn : M unit :=
  try_except
    (let! message := create_message E "announcement" (satellite_name E) (JStr "all")
                       (JObj [("port", JNum (SATELLITE_PORT E))]) in
     let! lost := simulate_packet_loss E in
     (if (lost : bool) then
        modify (fun w => set_metrics (incr_dropped (metrics w)) w)
      else
        simulate_bandwidth E message >>
        sendto E message broadcast_address (JNum BROADCAST_PORT)) >>
     time_sleep (inject_Z BROADCAST_INTERVAL))
    (fun _ => ret tt).

(** The first [turns] turns of [broadcast_presence]. *)
Fixpoint broadcast_presence (turns : nat) : M unit :=
  match turns with
  | O => ret tt
  | S turns' => broadcast_turn >> broadcast_presence turns'
  end.

End WithEnv.
End Beacon.

(** The sleeps of a trace, in their order. *)
Fixpoint sleeps (t : list event) : list Q :=
  match t with
  | [] => []
  | EvSleep d :: rest => d :: sleeps rest
  | _ :: rest => sleeps rest
  end.

(** ** The command station

    The command station receives what the relays forward and counts it.
    Its [metrics] dictionary is the whole of its state
    ([average_processing_time], a float fed by wall-clock differences, is
    left out).  [process_message] catches every exception it meets, and
    its [finally] clause runs on every path. *)

(** What [sock.recvfrom] hands to the main loop: bytes that are no text,
    text that is no JSON, or a JSON value. *)
Inductive datagram : Type :=
| NotText
| NotJson
| Decoded (message : json).

(** short_path_enhancement/command_station_shortpath.py *)
Module Station.

Record station_metrics : Type := mkStation {
  total_messages_received : Z;
  control_messages_received : Z;
  data_messages_received : Z;
  unknown_messages_received : Z;
  malformed_messages_received : Z;
  sources : gmap pykey Z
}.

Definition initial_metrics : station_metrics := mkStation 0 0 0 0 0 ∅.

Definition set_sources (s : gmap pykey Z) (m : station_metrics) : station_metrics :=
  mkStation (total_messages_received m) (control_messages_received m)
            (data_messages_received m) (unknown_messages_received m)
            (malformed_messages_received m) s.

(** [metrics[key] += increment] for the keys of [metrics]; adding a
    number to the dict under ["sources"] is a TypeError. *)
Definition update_metric (key : string) (increment : Z) (m : station_metrics)
  : outcome unit * station_metrics :=
  if String.eqb key "total_messages_received" then
    (Ok tt, mkStation (total_messages_received m + increment)
                      (control_messages_received m) (data_messages_received m)
                      (unknown_messages_received m) (malformed_messages_received m)
                      (sources m))
  else if String.eqb key "control_messages_received" then
    (Ok tt, mkStation (total_messages_received m)
                      (control_messages_received m + increment)
                      (data_messages_received m)
                      (unknown_messages_received m) (malformed_messages_received m)
                      (sources m))
  else if String.eqb key "data_messages_received" then
    (Ok tt, mkStation (total_messages_received m) (control_messages_received m)
                      (data_messages_received m + increment)
                      (unknown_messages_received m) (malformed_messages_received m)
                      (sources m))
  else if String.eqb key "unknown_messages_received" then
    (Ok tt, mkStation (total_messages_received m) (control_messages_received m)
                      (data_messages_received m)
                      (unknown_messages_received m + increment)
                      (malformed_messages_received m) (sources m))
  else if String.eqb key "malformed_messages_received" then
    (Ok tt, mkStation (total_messages_received m) (control_messages_received m)
                      (data_messages_received m) (unknown_messages_received m)
                      (malformed_messages_received m + increment) (sources m))
  else if String.eqb key "sources" then (Raise TypeError, m)
  else (Ok tt, m).                  (* "average_processing_time", or no key of metrics *)

(** [if source not in metrics["sources"]: metrics["sources"][source] = 0]
    and [metrics["sources"][source] += 1] *)
Definition track_source (source : json) (m : station_metrics)
  : outcome unit * station_metrics :=
  match Py.hash_key source with
  | None => (Raise TypeError, m)
  | Some k =>
      let started :=
        if bool_decide (is_Some (sources m !! k)) then sources m
        else <[k := 0]> (sources m) in
      match started !! k with
      | Some n => (Ok tt, set_sources (<[k := n + 1]> started) m)
      | None => (Raise KeyError, set_sources started m)
      end
  end.

(** The body of the [try] of [process_message]. *)
Definition process_message_try (message : json) (m : station_metrics)
  : outcome unit * station_metrics :=
  match message with
  | JObj fields =>
      let source := from_option id (JStr "unknown") (Py.dict_lookup "source" fields) in
      let message_type := from_option id (JStr "unknown") (Py.dict_lookup "type" fields) in
      match track_source source m with
      | (Ok _, m1) =>
          if Py.eq_str message_type "control" then
            update_metric "control_messages_received" 1 m1
          else if Py.eq_str message_type "data" then
            update_metric "data_messages_received" 1 m1
          else
            update_metric "unknown_messages_received" 1 m1
      | (Raise e, m1) => (Raise e, m1)
      end
  | _ => (Raise AttributeError, m)           (* no [get] on a list, a string, ... *)
  end.

(** Both handlers log and go on; the [finally] clause counts the
    message. *)
Definition process_message (message : json) (m : station_metrics) : station_metrics :=
  let m1 := snd (process_message_try message m) in
  mkStation (total_messages_received m1 + 1) (control_messages_received m1)
            (data_messages_received m1) (unknown_messages_received m1)
            (malformed_messages_received m1) (sources m1).

Definition handle_malformed_message (m : station_metrics) : station_metrics :=
  snd (update_metric "malformed_messages_received" 1 m).

(** One turn of the loop of [main]: [json.loads(data.decode())] fails
    with a UnicodeDecodeError, which only the outer handler catches, or
    with a JSONDecodeError, or gives the message. *)
Definition main_turn (d : datagram) (m : station_metrics) : station_metrics :=
  match d with
  | NotText => m
  | NotJson => handle_malformed_message m
  | Decoded message => process_message message m
  end.

(** The loop of [main] on the datagrams that arrive, oldest first. *)
Definition main (arrivals : list datagram) (m : station_metrics) : station_metrics :=
  fold_left (fun m d => main_turn d m) arrivals m.

End Station.

(** field_testing/command_station_field.py *)
Module FieldStation.

Record station_metrics : Type := mkStation {
  total_messages_received : Z;
  control_messages_received : Z;
  data_messages_received : Z;
  unknown_messages_received : Z
}.

Definition initial_metrics : station_metrics := mkStation 0 0 0 0.

(** [message["type"]] *)
Definition message_type (message : json) : outcome json :=
  match message with
  | JObj fields =>
      match Py.dict_lookup "type" fields with
      | Some ty => Ok ty
      | None => Raise KeyError
      end
  | _ => Raise TypeError
  end.

(** The body of the [try] of [process_message]. *)
Definition process_message_try (message : json) (m : station_metrics)
  : outcome unit * station_metrics :=
  match message_type message with
  | Ok ty =>
      if Py.eq_str ty "control" then
        (Ok tt, mkStation (total_messages_received m) (control_messages_received m + 1)
                          (data_messages_received m) (unknown_messages_received m))
      else if Py.eq_str ty "data" then
        (Ok tt, mkStation (total_messages_received m) (control_messages_received m)
                          (data_messages_received m + 1) (unknown_messages_received m))
      else
        (Ok tt, mkStation (total_messages_received m) (control_messages_received m)
                          (data_messages_received m) (unknown_messages_received m + 1))
  | Raise e => (Raise e, m)
  end.

Definition process_message (message : json) (m : station_metrics) : station_metrics :=
  let m1 := snd (process_message_try message m) in
  mkStation (total_messages_received m1 + 1) (control_messages_received m1)
            (data_messages_received m1) (unknown_messages_received m1).

(** One turn of the loop of [main]; what cannot be decoded is logged. *)
Definition main_turn (d : datagram) (m : station_metrics) : station_metrics :=
  match d with
  | NotText | NotJson => m
  | Decoded message => process_message message m
  end.

Definition main (arrivals : list datagram) (m : station_metrics) : station_metrics :=
  fold_left (fun m d => main_turn d m) arrivals m.

End FieldStation.

(** *** Observations on the arrivals of a command station *)

(** The number of arrivals that satisfy [f]. *)
Definition count_arrivals (f : datagram -> bool) (arrivals : list datagram) : Z :=
  Z.of_nat (length (List.filter f arrivals)).

Definition is_decoded (d : datagram) : bool :=
  match d with Decoded _ => true | _ => false end.

Definition is_not_json (d : datagram) : bool :=
  match d with NotJson => true | _ => false end.

(** The key under which the short-path command station counts the source
    of a message: the message is a dict, and its ["source"], or
    ["unknown"] in its absence, is hashable. *)
Definition source_key (d : datagram) : option pykey :=
  match d with
  | Decoded (JObj fields) =>
      Py.hash_key (from_option id (JStr "unknown") (Py.dict_lookup "source" fields))
  | _ => None
  end.

(** The class under which a message is counted: ["control"], ["data"],
    or ["unknown"] for every other type, the absent one included. *)
Definition message_class (fields : list (string * json)) : string :=
  let ty := from_option id (JStr "unknown") (Py.dict_lookup "type" fields) in
  if Py.eq_str ty "control" then "control"
  else if Py.eq_str ty "data" then "data"
  else "unknown".

(** The arrival is a dict with a countable source and of the class
    [class]. *)
Definition classed (class : string) (d : datagram) : bool :=
  match d with
  | Decoded (JObj fields) =>
      bool_decide (is_Some (source_key d)) && String.eqb (message_class fields) class
  | _ => false
  end.

(** The arrival is a dict with a countable source that hashes to [k]. *)
Definition from_source (k : pykey) (d : datagram) : bool :=
  bool_decide (source_key d = Some k).

(** For the field-testing station: the arrival is a dict with a ["type"]
    key, of the class [class]. *)
Definition typed (class : string) (d : datagram) : bool :=
  match d with
  | Decoded (JObj fields) =>
      bool_decide (is_Some (Py.dict_lookup "type" fields))
      && String.eqb (message_class fields) class
  | _ => false
  end.

(** ** The vehicle: [send_data]

    scalable_enhancement/vehicle_node_scalability.py.  A vehicle sends a
    message to a relay and waits for its acknowledgement, up to
    [MAX_RETRIES] times.  The state is the [metrics] dictionary
    ([average_response_time], a float fed by wall-clock differences, is
    left out) and the history of the socket: what was sent, what was
    received, how long the vehicle slept. *)

Module Vehicle.

Definition MAX_RETRIES : nat := 3.

Record vehicle_metrics : Type := mkVehicle {
  total_messages_sent : Z;
  successful_transmissions : Z;
  retransmissions : Z;
  failed_transmissions : Z
}.

(** What [sock.recvfrom] does within [ACK_TIMEOUT]: it times out, fails
    otherwise, or returns a datagram. *)
Inductive reception : Type :=
| TimedOut
| RecvError
| Received (d : datagram).

Inductive vehicle_event : Type :=
| VSent
| VSendFailed
| VReceived (r : reception)
| VSleep (seconds : Z).

Record vehicle : Type := mkVehicleState {
  v_metrics : vehicle_metrics;
  v_trace : list vehicle_event;             (* oldest first *)
  v_sends : nat;                            (* sendto calls made so far *)
  v_recvs : nat                             (* recvfrom calls made so far *)
}.

(** What [sock.sendto] does: it returns, or it raises [socket.timeout]
    (the socket has a timeout from the first attempt on), or it raises
    something else. *)
Inductive dispatch : Type :=
| Sent
| SendTimedOut
| SendError.

(** What the vehicle does not control. *)
Record network : Type := mkNetwork {
  send : nat -> dispatch;                   (* what the n-th sendto does *)
  recv : nat -> reception                   (* what the n-th recvfrom does *)
}.

(** [ack_message["type"] == "ack" and
     ack_message["source"].startswith("satellite")] *)
Definition valid_ack (ack_message : json) : outcome bool :=
  match ack_message with
  | JObj fields =>
      match Py.dict_lookup "type" fields with
      | None => Raise KeyError
      | Some ty =>
          if Py.eq_str ty "ack" then
            match Py.dict_lookup "source" fields with
            | None => Raise KeyError
            | Some (JStr s) => Ok (String.prefix "satellite" s)
            | Some _ => Raise AttributeError
            end
          else Ok false
      end
  | _ => Raise TypeError
  end.

Definition sent (v : vehicle) : vehicle :=
  let m := v_metrics v in
  mkVehicleState
    (mkVehicle (total_messages_sent m + 1) (successful_transmissions m)
               (retransmissions m) (failed_transmissions m))
    (v_trace v ++ [VSent]) (S (v_sends v)) (v_recvs v).

Definition send_failed (v : vehicle) : vehicle :=
  mkVehicleState (v_metrics v) (v_trace v ++ [VSendFailed]) (S (v_sends v)) (v_recvs v).

Definition received (r : reception) (v : vehicle) : vehicle :=
  mkVehicleState (v_metrics v) (v_trace v ++ [VReceived r]) (v_sends v) (S (v_recvs v)).

Definition succeeded (v : vehicle) : vehicle :=
  let m := v_metrics v in
  mkVehicleState
    (mkVehicle (total_messages_sent m) (successful_transmissions m + 1)
               (retransmissions m) (failed_transmissions m))
    (v_trace v) (v_sends v) (v_recvs v).

(** The handler of [socket.timeout]. *)
Definition timed_out (attempt : nat) (v : vehicle) : vehicle :=
  let m := v_metrics v in
  mkVehicleState
    (mkVehicle (total_messages_sent m) (successful_transmissions m)
               (retransmissions m + 1) (failed_transmissions m))
    (v_trace v ++ [VSleep (2 ^ Z.of_nat attempt)]) (v_sends v) (v_recvs v).

Definition failed (v : vehicle) : vehicle :=
  let m := v_metrics v in
  mkVehicleState
    (mkVehicle (total_messages_sent m) (successful_transmissions m)
               (retransmissions m) (failed_transmissions m + 1))
    (v_trace v) (v_sends v) (v_recvs v).

(** One turn of the [for] loop; the result tells whether the turn left
    the function by [return True]. *)
Definition attempt_once (N : network) (attempt : nat) (v : vehicle) : bool * vehicle :=
  match send N (v_sends v) with
  | Sent =>
    let v1 := sent v in
    let r := recv N (v_recvs v1) in
    let v2 := received r v1 in
    match r with
    | TimedOut => (false, timed_out attempt v2)
    | RecvError => (false, v2)                              (* except Exception *)
    | Received NotText | Received NotJson => (false, v2)    (* json.loads raises *)
    | Received (Decoded ack_message) =>
        match valid_ack ack_message with
        | Ok true => (true, succeeded v2)
        | Ok false => (false, v2)                           (* falls out of the try *)
        | Raise _ => (false, v2)                            (* except Exception *)
        end
    end
  | SendTimedOut => (false, timed_out attempt (send_failed v))
  | SendError => (false, send_failed v)                     (* except Exception *)
  end.

Fixpoint attempts (N : network) (turns : list nat) (v : vehicle) : bool * vehicle :=
  match turns with
  | [] => (false, v)
  | attempt :: rest =>
      match attempt_once N attempt v with
      | (true, v1) => (true, v1)
      | (false, v1) => attempts N rest v1
      end
  end.

Definition send_data (N : network) (v : vehicle) : bool * vehicle :=
  match attempts N (seq 0 MAX_RETRIES) v with
  | (true, v1) => (true, v1)
  | (false, v1) => (false, failed v1)
  end.

Definition initial_vehicle : vehicle :=
  mkVehicleState (mkVehicle 0 0 0 0) [] 0%nat 0%nat.

(** The sleeps of a trace, in their order. *)
Fixpoint waits (t : list vehicle_event) : list Z :=
  match t with
  | [] => []
  | VSleep seconds :: rest => seconds :: waits rest
  | _ :: rest => waits rest
  end.

End Vehicle.

(** What the loop of [send_data] may do to a vehicle over the turns
    [turns], when it ends with the result [b]. *)
Definition vehicle_step (turns : list nat) (b : bool) (v v' : Vehicle.vehicle) : Prop :=
  let m := Vehicle.v_metrics v in
  let m' := Vehicle.v_metrics v' in
  (Vehicle.v_sends v' <= Vehicle.v_sends v + length turns)%nat
  /\ (if b then (Vehicle.v_sends v < Vehicle.v_sends v')%nat
      else Vehicle.v_sends v' = (Vehicle.v_sends v + length turns)%nat)
  /\ Vehicle.successful_transmissions m'
     = Vehicle.successful_transmissions m + Z.b2z b
  /\ Vehicle.failed_transmissions m' = Vehicle.failed_transmissions m
  /\ Vehicle.total_messages_sent m' - Vehicle.total_messages_sent m
     = Z.of_nat (Vehicle.v_recvs v' - Vehicle.v_recvs v)
  /\ (Vehicle.v_recvs v <= Vehicle.v_recvs v')%nat
  /\ (Vehicle.v_recvs v' - Vehicle.v_recvs v
      <= Vehicle.v_sends v' - Vehicle.v_sends v)%nat
  /\ 0 <= Vehicle.retransmissions m' - Vehicle.retransmissions m
     <= Z.of_nat (Vehicle.v_sends v' - Vehicle.v_sends v)
  /\ exists slept,
       Vehicle.waits (Vehicle.v_trace v')
       = (Vehicle.waits (Vehicle.v_trace v) ++ slept)%list
       /\ sublist slept (map (fun attempt => 2 ^ Z.of_nat attempt) turns).

(** ** The vehicle: [discover_satellites]

    scalable_enhancement/vehicle_node_scalability.py.  The vehicle listens
    on the broadcast port for [SATELLITE_DISCOVERY_TIMEOUT] seconds and
    keeps, for every source that announces itself, the address the
    announcement came from and the port it declares.  The model takes the
    receptions that fall into that time, each with the address of its
    sender. *)

Module Discovery.

(** [discovered] maps a source to [{"ip": ..., "port": ...}]. *)
Definition discovered_t : Type := gmap pykey route_entry.

(** ["port" in payload] *)
Definition declares (payload : json) : outcome bool :=
  match payload with
  | JObj fields => Ok (bool_decide (is_Some (Py.dict_lookup "port" fields)))
  | JArr items => Ok (existsb (fun x => Py.eq_str x "port") items)
  | JStr s => Ok (Py.is_substring "port" s)
  | JNull | JBool _ | JNum _ => Raise TypeError
  end.

(** [payload["port"]] *)
Definition declared_port (payload : json) : outcome json :=
  match payload with
  | JObj fields =>
      match Py.dict_lookup "port" fields with
      | Some p => Ok p
      | None => Raise KeyError
      end
  | _ => Raise TypeError
  end.

(** The body of the [try] on a decoded message; an exception leaves
    [discovered] as it was and is logged. *)
Definition note (message : json) (addr : string * Z) (discovered : discovered_t)
  : outcome unit * discovered_t :=
  match message with
  | JObj fields =>
      match Py.dict_lookup "type" fields with
      | None => (Raise KeyError, discovered)
      | Some ty =>
          if Py.eq_str ty "announcement" then
            match Py.dict_lookup "payload" fields with
            | None => (Raise KeyError, discovered)
            | Some payload =>
                match declares payload with
                | Raise e => (Raise e, discovered)
                | Ok false => (Ok tt, discovered)
                | Ok true =>
                    match declared_port payload with
                    | Raise e => (Raise e, discovered)
                    | Ok p =>
                        match Py.dict_lookup "source" fields with
                        | None => (Raise KeyError, discovered)
                        | Some source =>
                            match Py.hash_key source with
                            | None => (Raise TypeError, discovered)
                            | Some k =>
                                (Ok tt,
                                 <[k := mkEntry None (Some (fst addr)) (Some p)]>
                                   discovered)
                            end
                        end
                    end
                end
            end
          else (Ok tt, discovered)
      end
  | _ => (Raise TypeError, discovered)
  end.

(** One turn of the loop. *)
Definition hear (r : Vehicle.reception) (addr : string * Z) (discovered : discovered_t)
  : discovered_t :=
  match r with
  | Vehicle.TimedOut => discovered                          (* continue *)
  | Vehicle.RecvError => discovered
  | Vehicle.Received NotText | Vehicle.Received NotJson => discovered
  | Vehicle.Received (Decoded message) => snd (note message addr discovered)
  end.

Definition discover_satellites (heard : list (Vehicle.reception * (string * Z)))
  : discovered_t :=
  fold_left (fun discovered h => hear (fst h) (snd h) discovered) heard ∅.

End Discovery.

(** ** More observations *)

(** The statement [m] moves the world along the relation [R], whether it
    returns or raises. *)
Definition keeps {A : Type} (R : world -> world -> Prop) (m : M A) : Prop :=
  forall w, R w (snd (m w)).

(** The trace of [w'] is the trace of [w] followed by events that all
    satisfy [P]. *)
Definition extends_with (P : event -> Prop) (w w' : world) : Prop :=
  exists added, trace w' = (trace w ++ added)%list /\ Forall P added.

(** Every event that the statement [m] adds to the trace satisfies [P]. *)
Definition emits {A : Type} (P : event -> Prop) (m : M A) : Prop :=
  keeps (extends_with P) m.

(** Exactly one of the two counters of a forwarding went up, by one. *)
Definition counted_once (before after : metrics_t) : Prop :=
  after = incr_forwarded before \/ after = incr_dropped before.

(** The key under which a message is routed: its ["destination"], when
    the message is a dict that has one and it is hashable. *)
Definition destination_key (message : json) : option pykey :=
  match message with
  | JObj fields =>
      match Py.dict_lookup "destination" fields with
      | Some destination => Py.hash_key destination
      | None => None
      end
  | _ => None
  end.

(** Every id that [w] has a record of has a record in [w']. *)
Definition remembers (w w' : world) : Prop :=
  forall k, is_Some (recent_messages w !! k) -> is_Some (recent_messages w' !! k).

(** Every destination that has an entry in the routing table of [w] has
    one in the table of [w']. *)
Definition still_routes (w w' : world) : Prop :=
  forall k, is_Some (ROUTING_TABLE w !! k) -> is_Some (ROUTING_TABLE w' !! k).

(** [message[k]], or [None] when the message is no dict or has no such
    key. *)
Definition message_field (k : string) (message : json) : json :=
  match message with
  | JObj fields => from_option id JNull (Py.dict_lookup k fields)
  | _ => JNull
  end.

(** What a relay may put in its trace while it handles [message], received
    from [addr]: sleeps, sends of the message as it came, and sends of an
    acknowledgement for the message's source to the ACK port of the
    sender's host. *)
Definition relay_event (E : env) (addr : string * Z) (message : json) (e : event)
  : Prop :=
  match e with
  | EvSleep _ => True
  | EvSent d to_ip to_port =>
      d = message
      \/ ((exists now, d = ack_datagram E (message_field "source" message) now)
          /\ to_ip = fst addr /\ to_port = Common.ACK_LISTEN_PORT)
  | EvSendFailed d to_ip to_port _ =>
      d = message
      \/ ((exists now, d = ack_datagram E (message_field "source" message) now)
          /\ to_ip = fst addr /\ to_port = JNum Common.ACK_LISTEN_PORT)
  end.

(** The observation [f] reads the same in [w'] as in [w]. *)
Definition unchanged {X : Type} (f : world -> X) (w w' : world) : Prop :=
  f w' = f w.

(** What handling [n] items may do to the counters of the short-path
    relay, from [m] to [m']: no counter goes down; an item is counted as
    received or as a duplicate at most once, and so is a forwarding as
    done or dropped; an acknowledgement or a route update is only counted
    for an item that is then counted as received; an acknowledgement is
    only counted after a forwarding was. *)
Definition accounted (n : Z) (m m' : metrics_t) : Prop :=
  let received := total_packets_received m' - total_packets_received m in
  let forwarded := total_packets_forwarded m' - total_packets_forwarded m in
  let dropped := total_packets_dropped m' - total_packets_dropped m in
  let acks := total_acks_sent m' - total_acks_sent m in
  let duplicates := duplicate_messages m' - duplicate_messages m in
  let updates := shortest_path_updates m' - shortest_path_updates m in
  (0 <= received /\ 0 <= forwarded /\ 0 <= dropped
   /\ 0 <= acks /\ 0 <= duplicates /\ 0 <= updates)
  /\ received + duplicates <= n
  /\ forwarded + dropped + duplicates <= n
  /\ acks + updates <= received
  /\ acks <= forwarded + dropped.

(** * Properties *)

(** ** Statements in general *)

Lemma Qltb_lt (x y : Q) : Common.Qltb x y = true <-> (x < y)%Q.
Proof.
  unfold Common.Qltb. rewrite negb_true_iff.
  split.
  - intros H. apply Qnot_le_lt. intros Hle.
    apply Qle_bool_iff in Hle. congruence.
  - intros H. destruct (Qle_bool y x) eqn:Hb; [| reflexivity].
    apply Qle_bool_iff in Hb. exfalso. exact (Qlt_not_le _ _ H Hb).
Qed.

Lemma Qltb_ge (x y : Q) : Common.Qltb x y = false <-> (y <= x)%Q.
Proof.
  unfold Common.Qltb. rewrite negb_false_iff. apply Qle_bool_iff.
Qed.

Lemma preserves_ret {A X} (f : world -> X) (a : A) : preserves f (ret a).
Proof. intros w. reflexivity. Qed.

Lemma preserves_raise {A X} (f : world -> X) (e : exn) : preserves f (raise (A := A) e).
Proof. intros w. reflexivity. Qed.

Lemma preserves_gets {A X} (f : world -> X) (g : world -> A) : preserves f (gets g).
Proof. intros w. reflexivity. Qed.

Lemma preserves_lift_option {A X} (f : world -> X) (e : exn) (o : option A) :
  preserves f (lift_option e o).
Proof. destruct o; intros w; reflexivity. Qed.

Lemma preserves_modify {X} (f : world -> X) (g : world -> world) :
  (forall w, f (g w) = f w) -> preserves f (modify g).
Proof. intros H w. apply H. Qed.

Lemma preserves_bind {A B X} (f : world -> X) (m : M A) (k : A -> M B) :
  preserves f m -> (forall a, preserves f (k a)) -> preserves f (bind m k).
Proof.
  intros Hm Hk w. unfold bind. specialize (Hm w).
  destruct (m w) as [[a | e] w1]; simpl in *.
  - rewrite Hk. exact Hm.
  - exact Hm.
Qed.

Lemma preserves_try_except {A X} (f : world -> X) (m : M A) (h : exn -> M A) :
  preserves f m -> (forall e, preserves f (h e)) -> preserves f (try_except m h).
Proof.
  intros Hm Hh w. unfold try_except. specialize (Hm w).
  destruct (m w) as [[a | e] w1]; simpl in *.
  - exact Hm.
  - rewrite Hh. exact Hm.
Qed.

(** A [try] whose handler only logs lets nothing out. *)
Lemma contained_try_except {A} (m : M A) (a0 : A) :
  contained (try_except m (fun _ => ret a0)).
Proof.
  intros w. unfold try_except. destruct (m w) as [[a | e] w1]; simpl; eauto.
Qed.

Lemma contained_unit (m : M unit) : contained m -> forall w, fst (m w) = Ok tt.
Proof. intros H w. destruct (H w) as [[] Ha]. exact Ha. Qed.

(** Unfolding the monad and the record updates, to run a statement on a
    world given by its fields. *)
Ltac monad_unfold :=
  cbv beta iota delta [bind ret raise gets modify lift_option try_except].

Ltac world_simpl :=
  cbn [clock recent_messages ROUTING_TABLE message_queue metrics trace sends draws
       set_clock set_recent_messages set_ROUTING_TABLE set_message_queue
       set_metrics set_trace set_sends set_draws record_seen fst snd].

Ltac run := repeat (monad_unfold; world_simpl).

(** A subscript reads the message and nothing else. *)
Lemma subscript_pure (message : json) (k : string) (w : world) :
  Common.subscript message k w = (fst (Common.subscript message k w), w).
Proof.
  unfold Common.subscript, lift_option.
  destruct message; try reflexivity.
  destruct (Py.dict_lookup k fields); reflexivity.
Qed.

Lemma snd_try_except_logged {A} (m : M A) (a0 : A) (w : world) :
  snd (try_except m (fun _ => ret a0) w) = snd (m w).
Proof. unfold try_except. destruct (m w) as [[a | e] w1]; reflexivity. Qed.

Lemma snd_bind_ok {A B} (m : M A) (k : A -> M B) (w w1 : world) (a : A) :
  m w = (Ok a, w1) -> snd (bind m k w) = snd (k a w1).
Proof. intros H. unfold bind. rewrite H. reflexivity. Qed.

Lemma subscript_found (fields : list (string * json)) (k : string) (v : json) (w : world) :
  Py.dict_lookup k fields = Some v ->
  Common.subscript (JObj fields) k w = (Ok v, w).
Proof. intros H. unfold Common.subscript. rewrite H. reflexivity. Qed.

(** ** The deduplication store *)

Section Dedup.

(** The store after [del recent_messages[k]] and the assignment that
    follows it is the store with the one record overwritten. *)
Lemma replace_record (k : pykey) (now : Q) (w : world) :
  set_recent_messages
    (<[k := now]> (recent_messages
                     (set_recent_messages (delete k (recent_messages w)) w)))
    (set_recent_messages (delete k (recent_messages w)) w)
  = set_recent_messages (<[k := now]> (recent_messages w)) w.
Proof.
  unfold set_recent_messages; simpl. f_equal. apply insert_delete_eq.
Qed.

Lemma is_duplicate_novel (message_id : json) (k : pykey) (w : world) :
  Py.hash_key message_id = Some k ->
  novel w k ->
  Common.is_duplicate message_id w = (Ok false, record_seen k w).
Proof.
  intros Hk Hnovel.
  unfold Common.is_duplicate, Common.hash, Common.time_time, bind, gets, novel in *.
  rewrite Hk. simpl.
  destruct (recent_messages w !! k) as [first_seen |] eqn:Hseen.
  - apply Qltb_ge in Hnovel. rewrite Hnovel. simpl.
    unfold modify, ret, record_seen. simpl. f_equal.
    apply replace_record.
  - reflexivity.
Qed.

Lemma is_duplicate_recent (message_id : json) (k : pykey) (first_seen : Q) (w : world) :
  Py.hash_key message_id = Some k ->
  recent_messages w !! k = Some first_seen ->
  (clock w - first_seen < Common.DEDUP_WINDOW)%Q ->
  Common.is_duplicate message_id w = (Ok true, w).
Proof.
  intros Hk Hseen Hlt.
  unfold Common.is_duplicate, Common.hash, Common.time_time, bind, gets.
  rewrite Hk. simpl. rewrite Hseen.
  apply Qltb_lt in Hlt. rewrite Hlt. reflexivity.
Qed.

(** The short-path relay counts the suppressed message, and does the
    same otherwise. *)
Lemma sp_is_duplicate_novel (message_id : json) (k : pykey) (w : world) :
  Py.hash_key message_id = Some k ->
  novel w k ->
  SP.is_duplicate message_id w = (Ok false, record_seen k w).
Proof.
  intros Hk Hnovel.
  unfold SP.is_duplicate, Common.hash, Common.time_time, bind, gets, novel in *.
  rewrite Hk. simpl.
  destruct (recent_messages w !! k) as [first_seen |] eqn:Hseen.
  - apply Qltb_ge in Hnovel. rewrite Hnovel. simpl.
    unfold modify, ret, record_seen. simpl. f_equal.
    apply replace_record.
  - reflexivity.
Qed.

Lemma sp_is_duplicate_recent (message_id : json) (k : pykey) (first_seen : Q) (w : world) :
  Py.hash_key message_id = Some k ->
  recent_messages w !! k = Some first_seen ->
  (clock w - first_seen < Common.DEDUP_WINDOW)%Q ->
  SP.is_duplicate message_id w
  = (Ok true, set_metrics (incr_duplicates (metrics w)) w).
Proof.
  intros Hk Hseen Hlt.
  unfold SP.is_duplicate, Common.hash, Common.time_time, bind, gets.
  rewrite Hk. simpl. rewrite Hseen.
  apply Qltb_lt in Hlt. rewrite Hlt. reflexivity.
Qed.

End Dedup.



(** ** What the statements leave alone *)

Create HintDb relay.
#[local] Hint Unfold
  Common.subscript Common.dict_get Common.hash Common.contains Common.time_time
  Common.emit Common.time_sleep Common.sendto Common.create_message
  Common.simulate_packet_loss Common.simulate_bandwidth Common.is_duplicate
  Common.message_queue_put
  Parallel.is_duplicate Parallel.forward_to_command_station
  Parallel.forward_to_neighbor Parallel.route_one Parallel.respond_to_vehicle
  ChannelChar.is_duplicate ChannelChar.forward_to_command_station
  ChannelChar.forward_to_neighbor ChannelChar.route_one
  ChannelChar.respond_to_vehicle
  Scalable.is_duplicate Scalable.forward_to_command_station
  Scalable.forward_to_neighbor Scalable.route_one Scalable.route_data
  Scalable.send_ack
  SP.is_duplicate SP.send_ack SP.get_next_hop SP.update_routing_table
  SP.forward_to_neighbor SP.forward_message : relay.

(** One step of a proof that a statement preserves an observation: split
    the statement at its outermost construct. *)
Ltac preserves_step :=
  match goal with
  | |- preserves _ (ret _) => apply preserves_ret
  | |- preserves _ (raise _) => apply preserves_raise
  | |- preserves _ (gets _) => apply preserves_gets
  | |- preserves _ (lift_option _ _) => apply preserves_lift_option
  | |- preserves _ (modify _) => apply preserves_modify; intros ?; reflexivity
  | |- preserves _ (bind _ _) => apply preserves_bind; [| intros ?]
  | |- preserves _ (try_except _ _) => apply preserves_try_except; [| intros ?]
  | |- preserves _ (if ?b then _ else _) => destruct b
  | |- preserves _ (match ?x with _ => _ end) => destruct x
  | H : preserves ?f ?m |- preserves ?f ?m => exact H
  end.

Ltac preserves_auto := autounfold with relay; repeat preserves_step.

Section Frames.
Variable E : env.

Lemma sp_neighbor_attempts_table attempts data ip port :
  preserves ROUTING_TABLE (SP.neighbor_attempts E attempts data ip port).
Proof. induction attempts; simpl; preserves_auto. Qed.

Lemma sp_forward_message_table message :
  preserves ROUTING_TABLE (SP.forward_message E message).
Proof.
  pose proof (sp_neighbor_attempts_table) as Hloop.
  preserves_auto; apply Hloop.
Qed.

Lemma sp_send_ack_table addr source :
  preserves ROUTING_TABLE (SP.send_ack E addr source).
Proof. preserves_auto. Qed.

Lemma sp_is_duplicate_table message_id :
  preserves ROUTING_TABLE (SP.is_duplicate message_id).
Proof. preserves_auto. Qed.

Lemma sp_is_duplicate_trace message_id :
  preserves trace (SP.is_duplicate message_id).
Proof. preserves_auto. Qed.

Lemma sp_is_duplicate_sends message_id :
  preserves sends (SP.is_duplicate message_id).
Proof. preserves_auto. Qed.

Lemma is_duplicate_queue message_id :
  preserves message_queue (Common.is_duplicate message_id).
Proof. preserves_auto. Qed.

Lemma parallel_route_one_queue msg destination neighbors :
  preserves message_queue (Parallel.route_one E msg destination neighbors).
Proof. preserves_auto. Qed.

Lemma parallel_respond_queue addr vehicle_id :
  preserves message_queue (Parallel.respond_to_vehicle E addr vehicle_id).
Proof. preserves_auto. Qed.

End Frames.

(** ** The priority queue of the parallel relay under one worker *)

Section ParallelQueue.
Variable E : env.

(** With one worker the queue is empty whenever [route_data] is entered;
    it then holds the new entry alone, whatever its priority, hands it
    back at once and is empty again at the end. *)
Lemma parallel_route_data_alone message neighbors w :
  message_queue w = [] ->
  Parallel.route_data E message neighbors w = route_alone E message neighbors w
  /\ message_queue (snd (Parallel.route_data E message neighbors w)) = [].
Proof.
  intros Hq. destruct w as [c r t q m tr s d]. simpl in Hq. subst q.
  unfold Parallel.route_data, route_alone, Common.message_queue_put, Common.dict_get.
  destruct message as [| b | n | s0 | items | fields];
    try (split; reflexivity).
  cbv beta iota delta [Parallel.route_loop Common.subscript bind ret gets modify
                        Common.pq_insert length
                        lift_option raise set_message_queue message_queue
                        clock recent_messages ROUTING_TABLE metrics trace sends draws
                        default fst snd].
  set (w0 := mkWorld c r t [] m tr s d).
  destruct (Py.dict_lookup "destination" fields) as [dest |]; [| split; reflexivity].
  destruct (Py.dict_lookup "id" fields) as [mid |]; [| split; reflexivity].
  pose proof (is_duplicate_queue mid w0) as Hd.
  unfold Parallel.is_duplicate.
  destruct (Common.is_duplicate mid w0) as [[[|] | e3] w3]; simpl in Hd;
    try (split; [reflexivity | exact Hd]).
  pose proof (parallel_route_one_queue E (JObj fields) dest neighbors w3) as Hr.
  unfold try_except.
  destruct (Parallel.route_one E (JObj fields) dest neighbors w3)
    as [[[] | e4] w4]; simpl in Hr;
    (split; [reflexivity | exact (eq_trans Hr Hd)]).
Qed.

Lemma parallel_queue_stays_empty addr message w :
  message_queue w = [] ->
  message_queue (snd (Parallel.handle_connection E addr message w)) = [].
Proof.
  intros Hq. unfold Parallel.handle_connection, try_except, bind.
  rewrite (subscript_pure message "type" w).
  destruct (fst (Common.subscript message "type" w)) as [ty | e]; [| exact Hq].
  destruct (Py.eq_str ty "data"); [| exact Hq].
  destruct (parallel_route_data_alone message Parallel.NEIGHBORS w Hq) as [_ Hr].
  destruct (Parallel.route_data E message Parallel.NEIGHBORS w) as [[[] | e2] w2];
    simpl in Hr; [| exact Hr].
  rewrite (subscript_pure message "source" w2).
  destruct (fst (Common.subscript message "source" w2)) as [src | e3]; [| exact Hr].
  pose proof (parallel_respond_queue E addr src w2) as Hs.
  destruct (Parallel.respond_to_vehicle E addr src w2) as [[[] | e4] w4];
    simpl in Hs |- *; congruence.
Qed.

(** So the queue is empty every time the one worker takes the next item
    of [connection_queue]. *)
Lemma parallel_worker_queue_empty items w :
  message_queue w = [] ->
  message_queue (snd (Parallel.connection_worker E items w)) = [].
Proof.
  revert w. induction items as [| [addr message] rest IH]; intros w Hq.
  - exact Hq.
  - simpl. unfold bind, try_except, ret.
    pose proof (parallel_queue_stays_empty addr message w Hq) as Hh.
    destruct (Parallel.handle_connection E addr message w) as [[[] | e] w1];
      simpl in Hh.
    + specialize (IH w1 Hh).
      destruct (Parallel.connection_worker E rest w1) as [[n | e] w2]; exact IH.
    + specialize (IH w1 Hh).
      destruct (Parallel.connection_worker E rest w1) as [[n | e'] w2]; exact IH.
Qed.

End ParallelQueue.

(** C5.  The parallel relay does not dispatch by priority.  One worker
    that finds the envelopes of priority 3, 1 and 2 in [connection_queue],
    in that order, forwards them in that order: 3, 1, 2, not 1, 2, 3.
    [route_data] puts each envelope on the priority queue and takes it off
    again before the worker fetches the next one. *)
Theorem parallel_worker_keeps_arrival_order :
  forwarded_priorities
    (trace (snd (Parallel.connection_worker Sample.env_up Sample.three_priorities
                                            Parallel.initial_world)))
  = [JNum 3; JNum 1; JNum 2].
Proof. vm_compute. reflexivity. Qed.

(** ** The retry loops *)

Section Retry.
Variable E : env.

Lemma sendto_fails data ip port p w :
  valid_port port p ->
  net_ok E (sends w) ip p = false ->
  Common.sendto E data ip port w
  = (Raise OSError,
     set_trace (trace w ++ [EvSendFailed data ip port OSError])
               (set_sends (S (sends w)) w)).
Proof.
  intros [Hp [Hlo Hhi]] Hnet. unfold Common.sendto, Common.emit. run.
  rewrite Hp.
  apply Z.leb_le in Hlo, Hhi. rewrite Hlo, Hhi. cbn [andb].
  rewrite Hnet. run. reflexivity.
Qed.

Lemma sendto_goes data ip port p w :
  valid_port port p ->
  net_ok E (sends w) ip p = true ->
  Common.sendto E data ip port w
  = (Ok tt,
     set_trace (trace w ++ [EvSent data ip p]) (set_sends (S (sends w)) w)).
Proof.
  intros [Hp [Hlo Hhi]] Hnet. unfold Common.sendto, Common.emit. run.
  rewrite Hp.
  apply Z.leb_le in Hlo, Hhi. rewrite Hlo, Hhi. cbn [andb].
  rewrite Hnet. run. reflexivity.
Qed.

Lemma command_station_port_valid :
  valid_port (JNum Common.COMMAND_STATION_PORT) Common.COMMAND_STATION_PORT.
Proof. split; [reflexivity | unfold Common.COMMAND_STATION_PORT; lia]. Qed.

Lemma ack_port_valid :
  valid_port (JNum Common.ACK_LISTEN_PORT) Common.ACK_LISTEN_PORT.
Proof. split; [reflexivity | unfold Common.ACK_LISTEN_PORT; lia]. Qed.

(** *** [forward_to_neighbor] of the short-path relay *)

Lemma sp_attempts_fail attempts data ip port p w :
  valid_port port p ->
  (forall i, (i < length attempts)%nat -> net_ok E (sends w + i) ip p = false) ->
  SP.neighbor_attempts E attempts data ip port w
  = (Ok false,
     Nat.iter (length attempts)
              (after_failed_attempt (bandwidth_delay E data) [SP.ISL_DELAY]
                                    data ip port) w).
Proof.
  intros Hport. revert w.
  induction attempts as [| attempt rest IH]; intros w Hnet.
  - reflexivity.
  - cbn [SP.neighbor_attempts length].
    rewrite Nat.iter_succ_r.
    unfold Common.simulate_bandwidth, Common.time_sleep, Common.emit.
    run.
    erewrite sendto_fails; [| exact Hport |].
    2: { world_simpl. specialize (Hnet 0%nat). rewrite Nat.add_0_r in Hnet.
         apply Hnet. cbn. lia. }
    run.
    rewrite IH.
    + f_equal. f_equal. unfold after_failed_attempt, failed_attempt_events.
      world_simpl. cbn [fold_left map app]. f_equal.
      rewrite <- !app_assoc. reflexivity.
    + intros i Hi. world_simpl. specialize (Hnet (S i)).
      rewrite Nat.add_succ_r in Hnet. apply Hnet. cbn. lia.
Qed.

Lemma sp_attempts_then_sent attempts k data ip port p w :
  valid_port port p ->
  (k < length attempts)%nat ->
  (forall i, (i < k)%nat -> net_ok E (sends w + i) ip p = false) ->
  net_ok E (sends w + k) ip p = true ->
  SP.neighbor_attempts E attempts data ip port w
  = (Ok true,
     after_sent_attempt (bandwidth_delay E data) [SP.ISL_DELAY] data ip p
       (Nat.iter k (after_failed_attempt (bandwidth_delay E data) [SP.ISL_DELAY]
                                        data ip port) w)).
Proof.
  intros Hport. revert k w.
  induction attempts as [| attempt rest IH]; intros k w Hk Hfail Hgo.
  - cbn in Hk. lia.
  - cbn [SP.neighbor_attempts].
    unfold Common.simulate_bandwidth, Common.time_sleep, Common.emit.
    destruct k as [| k].
    + run. rewrite Nat.add_0_r in Hgo.
      erewrite sendto_goes; [| exact Hport | world_simpl; exact Hgo].
      run. cbn [Nat.iter nat_rect]. unfold after_sent_attempt. world_simpl.
      cbn [fold_left map app]. rewrite <- !app_assoc. reflexivity.
    + run.
      erewrite sendto_fails; [| exact Hport |].
      2: { world_simpl. specialize (Hfail 0%nat). rewrite Nat.add_0_r in Hfail.
           apply Hfail. lia. }
      run. rewrite Nat.iter_succ_r.
      rewrite (IH k).
      * f_equal. f_equal. f_equal.
        unfold after_failed_attempt, failed_attempt_events. world_simpl.
        cbn [fold_left map app]. f_equal. rewrite <- !app_assoc. reflexivity.
      * cbn in Hk. lia.
      * intros i Hi. world_simpl. specialize (Hfail (S i)).
        rewrite Nat.add_succ_r in Hfail. apply Hfail. lia.
      * world_simpl. rewrite Nat.add_succ_r in Hgo. exact Hgo.
Qed.

(** *** [forward_to_command_station] of the scalable relay *)

Lemma scalable_attempts_fail attempts data w :
  (forall i, (i < length attempts)%nat ->
             net_ok E (sends w + i) Common.COMMAND_STATION_IP
                    Common.COMMAND_STATION_PORT = false) ->
  Scalable.command_station_attempts E attempts data w
  = (Ok false,
     Nat.iter (length attempts)
              (after_failed_attempt (bandwidth_delay E data) [] data
                 Common.COMMAND_STATION_IP (JNum Common.COMMAND_STATION_PORT)) w).
Proof.
  revert w.
  induction attempts as [| attempt rest IH]; intros w Hnet.
  - reflexivity.
  - cbn [Scalable.command_station_attempts length].
    rewrite Nat.iter_succ_r.
    unfold Common.simulate_bandwidth, Common.time_sleep, Common.emit.
    run.
    erewrite sendto_fails; [| exact command_station_port_valid |].
    2: { world_simpl. specialize (Hnet 0%nat). rewrite Nat.add_0_r in Hnet.
         apply Hnet. cbn. lia. }
    run.
    rewrite IH.
    + f_equal. f_equal. unfold after_failed_attempt, failed_attempt_events.
      world_simpl. cbn [fold_left map app]. f_equal.
      rewrite <- !app_assoc. reflexivity.
    + intros i Hi. world_simpl. specialize (Hnet (S i)).
      rewrite Nat.add_succ_r in Hnet. apply Hnet. cbn. lia.
Qed.

Lemma scalable_attempts_then_sent attempts k data w :
  (k < length attempts)%nat ->
  (forall i, (i < k)%nat ->
             net_ok E (sends w + i) Common.COMMAND_STATION_IP
                    Common.COMMAND_STATION_PORT = false) ->
  net_ok E (sends w + k) Common.COMMAND_STATION_IP Common.COMMAND_STATION_PORT = true ->
  Scalable.command_station_attempts E attempts data w
  = (Ok true,
     after_sent_attempt (bandwidth_delay E data) [] data
       Common.COMMAND_STATION_IP Common.COMMAND_STATION_PORT
       (Nat.iter k (after_failed_attempt (bandwidth_delay E data) [] data
                      Common.COMMAND_STATION_IP (JNum Common.COMMAND_STATION_PORT)) w)).
Proof.
  revert k w.
  induction attempts as [| attempt rest IH]; intros k w Hk Hfail Hgo.
  - cbn in Hk. lia.
  - cbn [Scalable.command_station_attempts].
    unfold Common.simulate_bandwidth, Common.time_sleep, Common.emit.
    destruct k as [| k].
    + run. rewrite Nat.add_0_r in Hgo.
      erewrite sendto_goes;
        [| exact command_station_port_valid | world_simpl; exact Hgo].
      run. cbn [Nat.iter nat_rect]. unfold after_sent_attempt. world_simpl.
      cbn [fold_left map app]. rewrite <- !app_assoc. reflexivity.
    + run.
      erewrite sendto_fails; [| exact command_station_port_valid |].
      2: { world_simpl. specialize (Hfail 0%nat). rewrite Nat.add_0_r in Hfail.
           apply Hfail. lia. }
      run. rewrite Nat.iter_succ_r.
      rewrite (IH k).
      * f_equal. f_equal. f_equal.
        unfold after_failed_attempt, failed_attempt_events. world_simpl.
        cbn [fold_left map app]. f_equal. rewrite <- !app_assoc. reflexivity.
      * cbn in Hk. lia.
      * intros i Hi. world_simpl. specialize (Hfail (S i)).
        rewrite Nat.add_succ_r in Hfail. apply Hfail. lia.
      * world_simpl. rewrite Nat.add_succ_r in Hgo. exact Hgo.
Qed.

(** *** The world after [n] failed attempts *)

Lemma trace_after_failed_attempts n bw isl data ip port w :
  trace (Nat.iter n (after_failed_attempt bw isl data ip port) w)
  = (trace w
     ++ concat (repeat (failed_attempt_events bw isl data ip port OSError) n))%list.
Proof.
  revert w. induction n as [| n IH]; intros w.
  - cbn. rewrite app_nil_r. reflexivity.
  - rewrite Nat.iter_succ_r, IH. cbn [repeat concat after_failed_attempt trace].
    rewrite <- app_assoc. reflexivity.
Qed.

Lemma metrics_after_failed_attempts n bw isl data ip port w :
  metrics (Nat.iter n (after_failed_attempt bw isl data ip port) w) = metrics w.
Proof.
  revert w. induction n as [| n IH]; intros w; [reflexivity |].
  rewrite Nat.iter_succ_r, IH. reflexivity.
Qed.

Lemma sends_after_failed_attempts n bw isl data ip port w :
  sends (Nat.iter n (after_failed_attempt bw isl data ip port) w)
  = (sends w + n)%nat.
Proof.
  revert w. induction n as [| n IH]; intros w; [cbn; lia |].
  rewrite Nat.iter_succ_r, IH. cbn. lia.
Qed.

Lemma backoff_after_sleeps isl tail :
  backoff_waits (map EvSleep isl ++ tail) = backoff_waits tail.
Proof. induction isl as [| d isl IH]; [reflexivity | exact IH]. Qed.

Lemma backoff_after_failed_attempt bw isl data ip port tail :
  backoff_waits (failed_attempt_events bw isl data ip port OSError ++ tail)
  = ((1 # 2)%Q :: backoff_waits tail).
Proof.
  unfold failed_attempt_events. cbn [app backoff_waits].
  rewrite <- app_assoc, backoff_after_sleeps. reflexivity.
Qed.

Lemma backoff_after_failed_attempts n bw isl data ip port rest :
  backoff_waits
    (concat (repeat (failed_attempt_events bw isl data ip port OSError) n) ++ rest)
  = (repeat (1 # 2)%Q n ++ backoff_waits rest)%list.
Proof.
  induction n as [| n IH]; [reflexivity |].
  cbn [repeat concat]. rewrite <- app_assoc.
  rewrite backoff_after_failed_attempt, IH. reflexivity.
Qed.

Lemma backoff_of_retry_events bw isl data ip port p k :
  backoff_waits (retry_events bw isl data ip port p k) = repeat (1 # 2)%Q k.
Proof.
  unfold retry_events. rewrite backoff_after_failed_attempts.
  destruct (k <? 3)%nat.
  - cbn [backoff_waits]. rewrite backoff_after_sleeps. cbn. apply app_nil_r.
  - cbn. apply app_nil_r.
Qed.

End Retry.

(** ** The same envelope twice *)

Section Duplicates.
Variable E : env.
Variables (addr : string * Z) (fields : list (string * json))
          (message_id : json) (kid : pykey) (first_seen : Q) (w : world).
Hypothesis Hid : Py.dict_lookup "id" fields = Some message_id.
Hypothesis Hkid : Py.hash_key message_id = Some kid.
Hypothesis Hseen : recent_messages w !! kid = Some first_seen.
Hypothesis Hrecent : (clock w - first_seen < Common.DEDUP_WINDOW)%Q.

(** The short-path relay ends the handling of a duplicate at the dedup
    check: nothing is sent, forwarded or acknowledged. *)
Lemma sp_duplicate_is_suppressed :
  SP.handle_connection E addr (JObj fields) w
  = (Ok tt, set_metrics (incr_duplicates (metrics w)) w).
Proof.
  unfold SP.handle_connection. run. cbn [Common.subscript]. rewrite Hid. run.
  rewrite (sp_is_duplicate_recent message_id kid first_seen w Hkid Hseen Hrecent).
  reflexivity.
Qed.

(** The parallel relay skips the forwarding of a duplicate and goes on to
    [respond_to_vehicle]: the duplicate is acknowledged. *)
Lemma parallel_duplicate_gets_ack ty destination source :
  Py.dict_lookup "type" fields = Some ty ->
  Py.eq_str ty "data" = true ->
  Py.dict_lookup "destination" fields = Some destination ->
  Py.dict_lookup "source" fields = Some source ->
  message_queue w = [] ->
  net_ok E (sends w) (fst addr) Common.ACK_LISTEN_PORT = true ->
  trace (snd (Parallel.handle_connection E addr (JObj fields) w))
  = (trace w ++ [EvSent (ack_datagram E source (clock w)) (fst addr)
                        Common.ACK_LISTEN_PORT])%list.
Proof.
  intros Hty Hdata Hdest Hsrc Hq Hnet.
  unfold Parallel.handle_connection. run. cbn [Common.subscript]. rewrite Hty. run.
  rewrite Hdata.
  destruct (parallel_route_data_alone E (JObj fields) Parallel.NEIGHBORS w Hq) as [Hr _].
  rewrite Hr. unfold route_alone, Common.dict_get. run. cbn [Common.subscript].
  rewrite Hdest. run. rewrite Hid. unfold Parallel.is_duplicate.
  rewrite (is_duplicate_recent message_id kid first_seen w Hkid Hseen Hrecent).
  rewrite Hsrc.
  unfold Parallel.respond_to_vehicle, Common.create_message, Common.time_time. run.
  erewrite sendto_goes; [| exact ack_port_valid | exact Hnet].
  reflexivity.
Qed.
End Duplicates.


Section SPStore.
Variable E : env.

Lemma sp_neighbor_attempts_recent attempts data ip port :
  preserves recent_messages (SP.neighbor_attempts E attempts data ip port).
Proof. induction attempts; simpl; preserves_auto. Qed.

Lemma sp_after_dedup_recent addr message ty :
  preserves recent_messages
    ((if Py.eq_str ty "data" then
        SP.forward_message E message >>
        let! source := Common.subscript message "source" in
        SP.send_ack E addr source
      else if Py.eq_str ty "announcement" then
        SP.update_routing_table message addr
      else ret tt) >>
     modify (fun w => set_metrics (incr_received (metrics w)) w)).
Proof.
  pose proof sp_neighbor_attempts_recent as Hloop.
  preserves_auto; apply Hloop.
Qed.

(** After the short-path relay has handled a message whose id was novel,
    the store holds the id with the clock at which the handling began. *)
Lemma sp_handled_is_recorded addr fields message_id kid w :
  Py.dict_lookup "id" fields = Some message_id ->
  Py.hash_key message_id = Some kid ->
  novel w kid ->
  recent_messages (snd (SP.handle_connection E addr (JObj fields) w))
  = <[kid := clock w]> (recent_messages w).
Proof.
  intros Hid Hkid Hnovel.
  unfold SP.handle_connection.
  rewrite snd_try_except_logged.
  erewrite snd_bind_ok by (apply subscript_found; exact Hid).
  erewrite snd_bind_ok by (apply sp_is_duplicate_novel; eassumption).
  cbv iota.
  destruct (Py.dict_lookup "type" fields) as [ty |] eqn:Hty.
  - erewrite snd_bind_ok by (apply subscript_found; exact Hty).
    rewrite (sp_after_dedup_recent addr (JObj fields) ty (record_seen kid w)).
    reflexivity.
  - unfold bind, Common.subscript. rewrite Hty. reflexivity.
Qed.

(** Dedup idempotence in the short-path relay: when a message with a novel
    id has been handled at clock [clock w], a message with the same id
    handled at a clock [later] less than ten seconds after it is stopped
    at the dedup check; it adds nothing to the trace and only the
    duplicate counter moves. *)
Lemma sp_dedup_idempotence addr1 addr2 fields1 fields2 message_id kid later w :
  Py.dict_lookup "id" fields1 = Some message_id ->
  Py.dict_lookup "id" fields2 = Some message_id ->
  Py.hash_key message_id = Some kid ->
  novel w kid ->
  (later - clock w < Common.DEDUP_WINDOW)%Q ->
  SP.handle_connection E addr2 (JObj fields2)
    (set_clock later (snd (SP.handle_connection E addr1 (JObj fields1) w)))
  = (Ok tt,
     set_metrics
       (incr_duplicates (metrics (snd (SP.handle_connection E addr1 (JObj fields1) w))))
       (set_clock later (snd (SP.handle_connection E addr1 (JObj fields1) w)))).
Proof.
  intros Hid1 Hid2 Hkid Hnovel Hlater.
  rewrite (sp_duplicate_is_suppressed E addr2 fields2 message_id kid (clock w));
    [reflexivity | exact Hid2 | exact Hkid | | exact Hlater].
  cbn [set_clock recent_messages].
  rewrite (sp_handled_is_recorded addr1 fields1 message_id kid w Hid1 Hkid Hnovel).
  apply lookup_insert_eq.
Qed.
End SPStore.

(** The short-path relay, given the same envelope at second 0 and at
    second 1, forwards once and acknowledges once. *)
Example sp_same_envelope_twice :
  count_sent "data" (trace Sample.sp_after_second) = 1%nat
  /\ count_sent "ack" (trace Sample.sp_after_second) = 1%nat.
Proof. vm_compute. split; reflexivity. Qed.

(** C1.  The parallel relay acknowledges a duplicate.  The same data
    envelope handled at second 0 and again at second 1 is forwarded once,
    and two ACK datagrams leave for the vehicle: [handle_connection] calls
    [respond_to_vehicle] after [route_data] whatever [route_data] did. *)
Theorem parallel_duplicate_is_acknowledged :
  count_sent "data" (trace Sample.parallel_after_second) = 1%nat
  /\ count_sent "ack" (trace Sample.parallel_after_second) = 2%nat.
Proof. vm_compute. split; reflexivity. Qed.

(** ** What a retried forwarding leaves in the trace *)

Section RetryOutcome.
Variable E : env.

Lemma sp_forward_to_neighbor_trace data ip port p k w :
  valid_port port p -> (k <= 3)%nat ->
  (forall i, (i < k)%nat -> net_ok E (sends w + i) ip p = false) ->
  ((k < 3)%nat -> net_ok E (sends w + k) ip p = true) ->
  trace (snd (SP.forward_to_neighbor E data ip port w))
  = (trace w ++ retry_events (bandwidth_delay E data) [SP.ISL_DELAY] data ip port p k)%list.
Proof.
  intros Hport Hk Hfail Hgo. unfold SP.forward_to_neighbor, retry_events.
  destruct (Nat.ltb_spec k 3) as [Hlt | Hge].
  - unfold bind at 1.
    rewrite (sp_attempts_then_sent E _ k data ip port p w Hport); auto.
    cbn [snd ret after_sent_attempt trace].
    rewrite trace_after_failed_attempts, <- app_assoc. reflexivity.
  - assert (k = 3)%nat as -> by lia.
    unfold bind at 1.
    rewrite (sp_attempts_fail E _ data ip port p w Hport).
    + unfold modify. cbn [snd set_metrics trace]. cbn [SP.MAX_RETRIES length seq].
      rewrite trace_after_failed_attempts. reflexivity.
    + exact Hfail.
Qed.

Lemma scalable_forward_to_command_station_trace data k w :
  (k <= 3)%nat ->
  (forall i, (i < k)%nat ->
     net_ok E (sends w + i) Common.COMMAND_STATION_IP Common.COMMAND_STATION_PORT = false) ->
  ((k < 3)%nat ->
     net_ok E (sends w + k) Common.COMMAND_STATION_IP Common.COMMAND_STATION_PORT = true) ->
  trace (snd (Scalable.forward_to_command_station E data w))
  = (trace w ++ retry_events (bandwidth_delay E data) [] data
                 Common.COMMAND_STATION_IP (JNum Common.COMMAND_STATION_PORT)
                 Common.COMMAND_STATION_PORT k)%list.
Proof.
  intros Hk Hfail Hgo. unfold Scalable.forward_to_command_station, retry_events.
  destruct (Nat.ltb_spec k 3) as [Hlt | Hge].
  - unfold bind at 1.
    rewrite (scalable_attempts_then_sent E _ k data w); auto.
    cbn [snd ret after_sent_attempt trace].
    rewrite trace_after_failed_attempts, <- app_assoc. reflexivity.
  - assert (k = 3)%nat as -> by lia.
    unfold bind at 1.
    rewrite (scalable_attempts_fail E _ data w).
    + unfold modify. cbn [snd set_metrics trace]. cbn [Scalable.MAX_RETRIES length seq].
      rewrite trace_after_failed_attempts. reflexivity.
    + exact Hfail.
Qed.
End RetryOutcome.

(** C7.  The wait between two attempts of a retried forwarding is the
    constant half second of the handler, whatever the number of the
    attempt.  When the first [k] attempts of [forward_to_neighbor]
    (short-path relay) or of [forward_to_command_station] (scalable relay)
    fail and, for [k] below 3, the next one goes through, the trace gains
    [k] times the events of a failed attempt, then those of the successful
    one, and the sleeps that follow the failed calls are [k] times 1/2. *)
Theorem retry_wait_is_constant (E : env) (data : json) (w : world) :
  (forall ip port p k,
     valid_port port p -> (k <= 3)%nat ->
     (forall i, (i < k)%nat -> net_ok E (sends w + i) ip p = false) ->
     ((k < 3)%nat -> net_ok E (sends w + k) ip p = true) ->
     trace (snd (SP.forward_to_neighbor E data ip port w))
     = (trace w ++ retry_events (bandwidth_delay E data) [SP.ISL_DELAY] data ip port p k)%list
     /\ backoff_waits (retry_events (bandwidth_delay E data) [SP.ISL_DELAY] data ip port p k)
        = repeat (1 # 2)%Q k)
  /\ (forall k,
        (k <= 3)%nat ->
        (forall i, (i < k)%nat ->
           net_ok E (sends w + i) Common.COMMAND_STATION_IP
                  Common.COMMAND_STATION_PORT = false) ->
        ((k < 3)%nat ->
           net_ok E (sends w + k) Common.COMMAND_STATION_IP
                  Common.COMMAND_STATION_PORT = true) ->
        trace (snd (Scalable.forward_to_command_station E data w))
        = (trace w ++ retry_events (bandwidth_delay E data) [] data
                       Common.COMMAND_STATION_IP (JNum Common.COMMAND_STATION_PORT)
                       Common.COMMAND_STATION_PORT k)%list
        /\ backoff_waits (retry_events (bandwidth_delay E data) [] data
                            Common.COMMAND_STATION_IP (JNum Common.COMMAND_STATION_PORT)
                            Common.COMMAND_STATION_PORT k)
           = repeat (1 # 2)%Q k).
Proof.
  split.
  - intros ip port p k Hport Hk Hfail Hgo. split.
    + apply sp_forward_to_neighbor_trace; assumption.
    + apply backoff_of_retry_events.
  - intros k Hk Hfail Hgo. split.
    + apply scalable_forward_to_command_station_trace; assumption.
    + apply backoff_of_retry_events.
Qed.

(** The command station out of reach: three failed attempts, three waits
    of half a second. *)
Lemma retry_wait_is_constant_witness :
  trace (snd (Scalable.forward_to_command_station Sample.env_sink_down Sample.twice
                                                  Scalable.initial_world))
  = (trace Scalable.initial_world
     ++ retry_events (bandwidth_delay Sample.env_sink_down Sample.twice) [] Sample.twice
          Common.COMMAND_STATION_IP (JNum Common.COMMAND_STATION_PORT)
          Common.COMMAND_STATION_PORT 3)%list
  /\ backoff_waits (retry_events (bandwidth_delay Sample.env_sink_down Sample.twice) []
                      Sample.twice Common.COMMAND_STATION_IP
                      (JNum Common.COMMAND_STATION_PORT) Common.COMMAND_STATION_PORT 3)
     = repeat (1 # 2)%Q 3.
Proof.
  apply (proj2 (retry_wait_is_constant Sample.env_sink_down Sample.twice
                                       Scalable.initial_world) 3%nat).
  - lia.
  - intros i Hi. reflexivity.
  - lia.
Defined.

(** The waits of the same run are no [base * 2 ^ attempt]: the first two
    are equal. *)
Lemma retry_wait_not_exponential :
  ~ exists base : Q,
      forall attempt : nat,
        (attempt < 3)%nat ->
        (nth attempt
             (backoff_waits
                (trace (snd (SP.forward_to_neighbor
                               Sample.env_sink_down Sample.twice
                               Common.COMMAND_STATION_IP (JNum Common.COMMAND_STATION_PORT)
                               SP.initial_world))))
             0
         == base * 2 ^ Z.of_nat attempt)%Q.
Proof.
  intros [base H].
  assert (Hwaits :
            backoff_waits
              (trace (snd (SP.forward_to_neighbor
                             Sample.env_sink_down Sample.twice
                             Common.COMMAND_STATION_IP (JNum Common.COMMAND_STATION_PORT)
                             SP.initial_world)))
            = [(1 # 2)%Q; (1 # 2)%Q; (1 # 2)%Q])
    by (vm_compute; reflexivity).
  rewrite Hwaits in H.
  pose proof (H 0%nat ltac:(lia)) as H0.
  pose proof (H 1%nat ltac:(lia)) as H1.
  change (1 # 2 == base * 1)%Q in H0. change (1 # 2 == base * 2)%Q in H1. lra.
Qed.

(** ** A destination that the routing table does not know *)

Section Unknown.
Variable E : env.
Variables (fields : list (string * json)) (destination message_id : json)
          (k kid : pykey) (w : world).
Hypothesis Hdest : Py.dict_lookup "destination" fields = Some destination.
Hypothesis Hk : Py.hash_key destination = Some k.
Hypothesis Hroute : ROUTING_TABLE w !! k = None.
Hypothesis Hid : Py.dict_lookup "id" fields = Some message_id.
Hypothesis Hkid : Py.hash_key message_id = Some kid.
Hypothesis Hnovel : novel w kid.
Hypothesis Hq : message_queue w = [].

Lemma channelchar_unknown_destination :
  trace (snd (ChannelChar.route_data E (JObj fields) ChannelChar.NEIGHBORS w))
  = (trace w ++ [EvSleep (bandwidth_delay E (JObj fields));
                 sink_attempt E (JObj fields) w])%list.
Proof.
  unfold ChannelChar.route_data, Common.dict_get, Common.message_queue_put.
  destruct w as [c r t q m tr s d]. simpl in *. subst q.
  run. cbn [Common.pq_insert]. run. cbn [length ChannelChar.route_loop]. run.
  cbn [Common.subscript]. rewrite Hdest. run. rewrite Hid.
  unfold ChannelChar.is_duplicate.
  erewrite is_duplicate_novel by eauto.
  unfold ChannelChar.route_one, Common.hash. rewrite Hk. run.
  rewrite Hroute.
  unfold ChannelChar.forward_to_command_station, Common.simulate_bandwidth,
    Common.time_sleep, Common.emit, Common.sendto, sink_attempt.
  run. cbn.
  destruct (net_ok E s Common.COMMAND_STATION_IP Common.COMMAND_STATION_PORT);
    cbn; rewrite <- app_assoc; reflexivity.
Qed.

Lemma parallel_unknown_destination :
  trace (snd (Parallel.route_data E (JObj fields) Parallel.NEIGHBORS w)) = trace w.
Proof.
  unfold Parallel.route_data, Common.dict_get, Common.message_queue_put.
  destruct w as [c r t q m tr s d]. simpl in *. subst q.
  run. cbn [Common.pq_insert]. run. cbn [length Parallel.route_loop]. run.
  cbn [Common.subscript]. rewrite Hdest. run. rewrite Hid.
  unfold Parallel.is_duplicate.
  erewrite is_duplicate_novel by eauto.
  unfold Parallel.route_one, Common.hash. rewrite Hk. run.
  rewrite Hroute. reflexivity.
Qed.

Lemma sp_unknown_destination :
  SP.forward_message E (JObj fields) w
  = (Ok tt, set_metrics (incr_dropped (metrics w)) w).
Proof.
  unfold SP.forward_message, SP.get_next_hop, Common.hash.
  run. cbn [Common.subscript]. rewrite Hdest. run. rewrite Hk. run. rewrite Hroute.
  reflexivity.
Qed.

Lemma scalable_unknown_destination n :
  (n <= 3)%nat ->
  (forall i, (i < n)%nat ->
     net_ok E (sends w + i) Common.COMMAND_STATION_IP Common.COMMAND_STATION_PORT = false) ->
  ((n < 3)%nat ->
     net_ok E (sends w + n) Common.COMMAND_STATION_IP Common.COMMAND_STATION_PORT = true) ->
  trace (snd (Scalable.route_data E (JObj fields) w))
  = (trace w ++ retry_events (bandwidth_delay E (JObj fields)) [] (JObj fields)
                 Common.COMMAND_STATION_IP (JNum Common.COMMAND_STATION_PORT)
                 Common.COMMAND_STATION_PORT n)%list.
Proof.
  intros Hn Hfail Hgo.
  unfold Scalable.route_data. run. cbn [Common.subscript].
  rewrite Hdest. run. rewrite Hid.
  unfold Scalable.is_duplicate.
  erewrite is_duplicate_novel by eauto.
  unfold Scalable.route_one, Common.hash. rewrite Hk. run.
  rewrite Hroute.
  pose proof (scalable_forward_to_command_station_trace E (JObj fields) n
                (record_seen kid w) Hn Hfail Hgo) as Ht.
  destruct (Scalable.forward_to_command_station E (JObj fields) (record_seen kid w))
    as [[[] | e] w1]; exact Ht.
Qed.
End Unknown.

(** C2.  What becomes of a data envelope whose destination is not a key of
    the routing table depends on the relay.  [route_data] of the
    channel-characteristics relay and of the scalable relay fall back to
    the command station: the one makes a single [sendto] to its endpoint,
    the other retries it up to three times.  [forward_message] of the
    short-path relay sends nothing and counts the envelope as dropped, and
    [route_data] of the parallel relay sends nothing either. *)
Theorem unknown_destination_by_variant
    (E : env) (message : json) (fields : list (string * json))
    (destination message_id : json) (k kid : pykey) (w : world) :
  message = JObj fields ->
  Py.dict_lookup "destination" fields = Some destination ->
  Py.hash_key destination = Some k ->
  ROUTING_TABLE w !! k = None ->
  Py.dict_lookup "id" fields = Some message_id ->
  Py.hash_key message_id = Some kid ->
  novel w kid ->
  message_queue w = [] ->
  trace (snd (ChannelChar.route_data E message ChannelChar.NEIGHBORS w))
  = (trace w ++ [EvSleep (bandwidth_delay E message); sink_attempt E message w])%list
  /\ (forall n,
        (n <= 3)%nat ->
        (forall i, (i < n)%nat ->
           net_ok E (sends w + i) Common.COMMAND_STATION_IP
                  Common.COMMAND_STATION_PORT = false) ->
        ((n < 3)%nat ->
           net_ok E (sends w + n) Common.COMMAND_STATION_IP
                  Common.COMMAND_STATION_PORT = true) ->
        trace (snd (Scalable.route_data E message w))
        = (trace w ++ retry_events (bandwidth_delay E message) [] message
                       Common.COMMAND_STATION_IP (JNum Common.COMMAND_STATION_PORT)
                       Common.COMMAND_STATION_PORT n)%list)
  /\ SP.forward_message E message w
     = (Ok tt, set_metrics (incr_dropped (metrics w)) w)
  /\ trace (snd (Parallel.route_data E message Parallel.NEIGHBORS w)) = trace w.
Proof.
  intros -> Hdest Hk Hroute Hid Hkid Hnovel Hq.
  split; [| split; [| split]].
  - eapply channelchar_unknown_destination; eauto.
  - intros n Hn Hfail Hgo. eapply scalable_unknown_destination; eauto.
  - eapply sp_unknown_destination; eauto.
  - eapply parallel_unknown_destination; eauto.
Qed.

(** The envelope for ["unknown_xyz"], in the initial world of the
    channel-characteristics relay. *)
Lemma unknown_destination_by_variant_witness :
  trace (snd (ChannelChar.route_data Sample.env_up Sample.to_unknown
                                     ChannelChar.NEIGHBORS ChannelChar.initial_world))
  = [EvSleep (bandwidth_delay Sample.env_up Sample.to_unknown);
     EvSent Sample.to_unknown Common.COMMAND_STATION_IP Common.COMMAND_STATION_PORT]
  /\ SP.forward_message Sample.env_up Sample.to_unknown ChannelChar.initial_world
     = (Ok tt, set_metrics (incr_dropped (metrics ChannelChar.initial_world))
                           ChannelChar.initial_world).
Proof.
  pose proof (unknown_destination_by_variant
                Sample.env_up Sample.to_unknown _
                (JStr "unknown_xyz") (JStr "vehicle_1234-2")
                (KStr "unknown_xyz") (KStr "vehicle_1234-2")
                ChannelChar.initial_world
                eq_refl eq_refl eq_refl eq_refl eq_refl eq_refl I eq_refl)
    as [Hcc [_ [Hsp _]]].
  split; [exact Hcc | exact Hsp].
Defined.

(** The short-path relay, given the envelope for ["unknown_xyz"], makes no
    [sendto] of a data datagram and counts one dropped packet. *)
Lemma sp_unknown_destination_is_dropped :
  ROUTING_TABLE SP.initial_world !! KStr "unknown_xyz" = None
  /\ count_attempts "data"
       (trace (snd (SP.handle_connection Sample.env_up Sample.vehicle_addr
                                         Sample.to_unknown SP.initial_world)))
     = 0%nat
  /\ total_packets_dropped
       (metrics (snd (SP.handle_connection Sample.env_up Sample.vehicle_addr
                                           Sample.to_unknown SP.initial_world)))
     = 1.
Proof. vm_compute. repeat split; reflexivity. Qed.

(** ** A data envelope that the short-path relay cannot forward *)

Section SPData.
Variable E : env.

Lemma sp_get_next_hop_reads_table destination w w1 :
  ROUTING_TABLE w1 = ROUTING_TABLE w ->
  SP.get_next_hop destination w1 = (fst (SP.get_next_hop destination w), w1).
Proof.
  intros Ht. unfold SP.get_next_hop, Common.hash.
  destruct (Py.hash_key destination) as [k |]; [| reflexivity].
  run. rewrite Ht.
  destruct (ROUTING_TABLE w !! k) as [entry |]; [| reflexivity].
  destruct (SP.has_endpoint entry); [reflexivity |].
  destruct (next_hop entry) as [hop |]; [| reflexivity].
  destruct (SP.truthy (Some hop)); [| reflexivity].
  destruct (ROUTING_TABLE w !! KStr hop) as [e2 |]; [| reflexivity].
  destruct (SP.has_endpoint e2); reflexivity.
Qed.

Lemma sp_exhausted_retries
    addr message fields message_id kid ty destination entry hop_ip hop_port p source w :
  message = JObj fields ->
  Py.dict_lookup "id" fields = Some message_id ->
  Py.hash_key message_id = Some kid ->
  novel w kid ->
  Py.dict_lookup "type" fields = Some ty ->
  Py.eq_str ty "data" = true ->
  Py.dict_lookup "destination" fields = Some destination ->
  fst (SP.get_next_hop destination w) = Ok (Some entry) ->
  ip entry = Some hop_ip ->
  port entry = Some hop_port ->
  valid_port hop_port p ->
  (forall i, (i < 3)%nat -> net_ok E (sends w + i) hop_ip p = false) ->
  Py.dict_lookup "source" fields = Some source ->
  net_ok E (sends w + 3) (fst addr) Common.ACK_LISTEN_PORT = true ->
  exists now,
    trace (snd (SP.handle_connection E addr message w))
    = (trace w
       ++ concat (repeat (failed_attempt_events (bandwidth_delay E message)
                            [SP.ISL_DELAY] message hop_ip hop_port OSError) 3)
       ++ [EvSent (ack_datagram E source now) (fst addr) Common.ACK_LISTEN_PORT])%list
    /\ metrics (snd (SP.handle_connection E addr message w))
       = incr_received (incr_acks_sent (incr_dropped (metrics w))).
Proof.
  intros -> Hid Hkid Hnovel Hty Hdata Hdest Hhop Hip Hport Hvalid Hfail Hsrc Hack.
  unfold SP.handle_connection. run. cbn [Common.subscript].
  rewrite Hid. run.
  rewrite (sp_is_duplicate_novel message_id kid w Hkid Hnovel).
  rewrite Hty. run. rewrite Hdata.
  unfold SP.forward_message. run. cbn [Common.subscript]. rewrite Hdest. run.
  rewrite (sp_get_next_hop_reads_table destination w (record_seen kid w) eq_refl).
  rewrite Hhop. rewrite Hip, Hport. run.
  unfold SP.forward_to_neighbor. run.
  rewrite (sp_attempts_fail E (seq 0 SP.MAX_RETRIES) (JObj fields) hop_ip hop_port p
                            (record_seen kid w) Hvalid Hfail).
  run. cbn [SP.MAX_RETRIES seq length].
  set (w3 := Nat.iter 3 _ _).
  rewrite Hsrc.
  unfold SP.send_ack, Common.create_message, Common.time_time. run.
  erewrite sendto_goes; [| exact ack_port_valid |].
  2: { world_simpl. subst w3. rewrite sends_after_failed_attempts. exact Hack. }
  run. exists (clock w3). split.
  - subst w3. rewrite trace_after_failed_attempts. rewrite <- app_assoc. reflexivity.
  - subst w3. rewrite metrics_after_failed_attempts. reflexivity.
Qed.
End SPData.

(** C3.  In the short-path relay, a data envelope whose three forwarding
    attempts all fail costs exactly [MAX_RETRIES] (3) calls of [sendto] on
    it and one increment of the dropped counter, made after the last
    attempt; no packet is counted as forwarded.  [handle_connection] then
    calls [send_ack] all the same: when that datagram goes through, one
    ACK leaves for the sender and the ACK counter grows by one. *)
Theorem exhausted_retries_still_acknowledged
    (E : env) (addr : string * Z) (message : json) (fields : list (string * json))
    (message_id : json) (kid : pykey) (ty destination : json) (entry : route_entry)
    (hop_ip : string) (hop_port : json) (p : Z) (source : json) (w : world) :
  message = JObj fields ->
  Py.dict_lookup "id" fields = Some message_id ->
  Py.hash_key message_id = Some kid ->
  novel w kid ->
  Py.dict_lookup "type" fields = Some ty ->
  Py.eq_str ty "data" = true ->
  Py.dict_lookup "destination" fields = Some destination ->
  fst (SP.get_next_hop destination w) = Ok (Some entry) ->
  ip entry = Some hop_ip ->
  port entry = Some hop_port ->
  valid_port hop_port p ->
  (forall i, (i < 3)%nat -> net_ok E (sends w + i) hop_ip p = false) ->
  Py.dict_lookup "source" fields = Some source ->
  net_ok E (sends w + 3) (fst addr) Common.ACK_LISTEN_PORT = true ->
  exists now,
    trace (snd (SP.handle_connection E addr message w))
    = (trace w
       ++ concat (repeat (failed_attempt_events (bandwidth_delay E message)
                            [SP.ISL_DELAY] message hop_ip hop_port OSError) 3)
       ++ [EvSent (ack_datagram E source now) (fst addr) Common.ACK_LISTEN_PORT])%list
    /\ metrics (snd (SP.handle_connection E addr message w))
       = incr_received (incr_acks_sent (incr_dropped (metrics w))).
Proof. apply sp_exhausted_retries. Qed.

(** The command station out of reach of the short-path relay. *)
Lemma exhausted_retries_still_acknowledged_witness :
  exists now,
    trace (snd (SP.handle_connection Sample.env_sink_down Sample.vehicle_addr
                                     Sample.to_sink SP.initial_world))
    = (trace SP.initial_world
       ++ concat (repeat (failed_attempt_events
                            (bandwidth_delay Sample.env_sink_down Sample.to_sink)
                            [SP.ISL_DELAY] Sample.to_sink Common.COMMAND_STATION_IP
                            (JNum Common.COMMAND_STATION_PORT) OSError) 3)
       ++ [EvSent (ack_datagram Sample.env_sink_down (JStr "vehicle_1234") now)
                  (fst Sample.vehicle_addr) Common.ACK_LISTEN_PORT])%list
    /\ metrics (snd (SP.handle_connection Sample.env_sink_down Sample.vehicle_addr
                                          Sample.to_sink SP.initial_world))
       = incr_received (incr_acks_sent (incr_dropped (metrics SP.initial_world))).
Proof.
  apply (exhausted_retries_still_acknowledged
           Sample.env_sink_down Sample.vehicle_addr Sample.to_sink _
           (JStr "vehicle_1234-1") (KStr "vehicle_1234-1") (JStr "data")
           (JStr "command_station")
           (mkEntry (Some "command_station") (Some Common.COMMAND_STATION_IP)
                    (Some (JNum Common.COMMAND_STATION_PORT)))
           Common.COMMAND_STATION_IP (JNum Common.COMMAND_STATION_PORT)
           Common.COMMAND_STATION_PORT (JStr "vehicle_1234") SP.initial_world eq_refl);
    try reflexivity.
  split; [reflexivity | unfold Common.COMMAND_STATION_PORT; lia].
Defined.

(** With the command station out of reach, the three attempts of the
    short-path relay on the data envelope fail, the dropped counter reads
    one, and one ACK has left for the vehicle: not zero. *)
Lemma exhausted_retries_one_ack :
  count_attempts "data"
    (trace (snd (SP.handle_connection Sample.env_sink_down Sample.vehicle_addr
                                      Sample.to_sink SP.initial_world)))
  = 3%nat
  /\ count_sent "data"
       (trace (snd (SP.handle_connection Sample.env_sink_down Sample.vehicle_addr
                                         Sample.to_sink SP.initial_world)))
     = 0%nat
  /\ total_packets_dropped
       (metrics (snd (SP.handle_connection Sample.env_sink_down Sample.vehicle_addr
                                           Sample.to_sink SP.initial_world)))
     = 1
  /\ count_sent "ack"
       (trace (snd (SP.handle_connection Sample.env_sink_down Sample.vehicle_addr
                                         Sample.to_sink SP.initial_world)))
     = 1%nat
  /\ total_acks_sent
       (metrics (snd (SP.handle_connection Sample.env_sink_down Sample.vehicle_addr
                                           Sample.to_sink SP.initial_world)))
     = 1.
Proof. vm_compute. repeat split; reflexivity. Qed.

(** ** Learning a route from an announcement *)

Section Learning.
Lemma sp_update_routing_table_learns message fields s payload_fields p addr w :
  message = JObj fields ->
  Py.dict_lookup "source" fields = Some (JStr s) ->
  Py.dict_lookup "payload" fields = Some (JObj payload_fields) ->
  Py.dict_lookup "port" payload_fields = Some p ->
  SP.update_routing_table message addr w
  = (Ok tt,
     set_metrics (incr_path_updates (metrics w))
       (set_ROUTING_TABLE (<[KStr s := learned (fst addr) p]> (ROUTING_TABLE w)) w)).
Proof.
  intros -> Hsrc Hpayload Hport.
  unfold SP.update_routing_table, Common.contains, Common.hash.
  run. cbn [Common.subscript]. rewrite Hsrc. run. rewrite Hpayload. run.
  rewrite Hport. cbn [bool_decide decide_rel]. 
  case_bool_decide as Hsome; [| exfalso; apply Hsome; eauto].
  run. cbn [Common.subscript]. rewrite Hport. reflexivity.
Qed.

Lemma sp_get_next_hop_direct destination k entry w :
  Py.hash_key destination = Some k ->
  ROUTING_TABLE w !! k = Some entry ->
  SP.has_endpoint entry = true ->
  SP.get_next_hop destination w = (Ok (Some entry), w).
Proof.
  intros Hk Hentry Hend. unfold SP.get_next_hop, Common.hash.
  rewrite Hk. run. rewrite Hentry, Hend. reflexivity.
Qed.
End Learning.

Section Announcement.
Variable E : env.

(** An announcement that passes the dedup check of the short-path relay
    has its endpoint written to the routing table. *)
Lemma sp_handle_announcement addr fields message_id kid ty s payload_fields p w :
  Py.dict_lookup "id" fields = Some message_id ->
  Py.hash_key message_id = Some kid ->
  novel w kid ->
  Py.dict_lookup "type" fields = Some ty ->
  Py.eq_str ty "data" = false ->
  Py.eq_str ty "announcement" = true ->
  Py.dict_lookup "source" fields = Some (JStr s) ->
  Py.dict_lookup "payload" fields = Some (JObj payload_fields) ->
  Py.dict_lookup "port" payload_fields = Some p ->
  SP.handle_connection E addr (JObj fields) w
  = (Ok tt,
     set_metrics (incr_received (incr_path_updates (metrics w)))
       (set_ROUTING_TABLE (<[KStr s := learned (fst addr) p]> (ROUTING_TABLE w))
          (record_seen kid w))).
Proof.
  intros Hid Hkid Hnovel Hty Hdata Hann Hsrc Hpayload Hport.
  unfold SP.handle_connection. run. cbn [Common.subscript]. rewrite Hid. run.
  rewrite (sp_is_duplicate_novel message_id kid w Hkid Hnovel).
  rewrite Hty. run. rewrite Hdata, Hann.
  rewrite (sp_update_routing_table_learns (JObj fields) fields s payload_fields p addr
             (record_seen kid w) eq_refl Hsrc Hpayload Hport).
  reflexivity.
Qed.
End Announcement.


(** ** Failures stay in the handler *)

Section Containment.
Variable E : env.

Lemma sp_handle_connection_contained addr message w :
  fst (SP.handle_connection E addr message w) = Ok tt.
Proof. apply contained_unit, contained_try_except. Qed.

Lemma parallel_handle_connection_contained addr message w :
  fst (Parallel.handle_connection E addr message w) = Ok tt.
Proof. apply contained_unit, contained_try_except. Qed.

Lemma sp_connection_worker_runs items w :
  SP.connection_worker E items w
  = (Ok (length items), handle_all (SP.handle_connection E) items w).
Proof.
  revert w. induction items as [| [addr message] rest IH]; intros w.
  - reflexivity.
  - cbn [SP.connection_worker handle_all fold_left length fst snd].
    pose proof (sp_handle_connection_contained addr message w) as Hc.
    run.
    destruct (SP.handle_connection E addr message w) as [[[] | e] w1];
      cbn in Hc; [| discriminate].
    world_simpl. rewrite IH. reflexivity.
Qed.

Lemma parallel_connection_worker_runs items w :
  Parallel.connection_worker E items w
  = (Ok (length items), handle_all (Parallel.handle_connection E) items w).
Proof.
  revert w. induction items as [| [addr message] rest IH]; intros w.
  - reflexivity.
  - cbn [Parallel.connection_worker handle_all fold_left length fst snd].
    pose proof (parallel_handle_connection_contained addr message w) as Hc.
    run.
    destruct (Parallel.handle_connection E addr message w) as [[[] | e] w1];
      cbn in Hc; [| discriminate].
    world_simpl. rewrite IH. reflexivity.
Qed.

Lemma handle_all_app handle before after w :
  handle_all handle (before ++ after) w = handle_all handle after (handle_all handle before w).
Proof. unfold handle_all. apply fold_left_app. Qed.

Lemma sp_malformed_id addr message e w :
  fst (Common.subscript message "id" w) = Raise e ->
  SP.handle_connection E addr message w = (Ok tt, w).
Proof.
  intros H. unfold SP.handle_connection. run.
  rewrite (subscript_pure message "id" w), H. reflexivity.
Qed.

Lemma parallel_malformed_type addr message e w :
  fst (Common.subscript message "type" w) = Raise e ->
  Parallel.handle_connection E addr message w = (Ok tt, w).
Proof.
  intros H. unfold Parallel.handle_connection. run.
  rewrite (subscript_pure message "type" w), H. reflexivity.
Qed.
End Containment.

(** C8.  In the short-path and the parallel relay no failure leaves
    [handle_connection]: it returns normally on every address, message and
    world.  [connection_worker] therefore reaches [task_done] for every
    item it is handed, and what it does with the items behind an item is
    [connection_worker] run on them from the world that item left.  An
    item that fails on its first field access (no ["id"], no ["type"], or
    no dict at all) leaves the world as it was, and the priority queue of
    the parallel relay, empty when an item is taken up, is empty again when
    the item is done, failed or not. *)
Theorem failures_are_contained (E : env) :
  (forall addr message w, fst (SP.handle_connection E addr message w) = Ok tt)
  /\ (forall addr message w, fst (Parallel.handle_connection E addr message w) = Ok tt)
  /\ (forall items w, fst (SP.connection_worker E items w) = Ok (length items))
  /\ (forall items w, fst (Parallel.connection_worker E items w) = Ok (length items))
  /\ (forall before addr message after w,
        snd (SP.connection_worker E (before ++ (addr, message) :: after) w)
        = snd (SP.connection_worker E after
                 (snd (SP.handle_connection E addr message
                         (snd (SP.connection_worker E before w))))))
  /\ (forall before addr message after w,
        snd (Parallel.connection_worker E (before ++ (addr, message) :: after) w)
        = snd (Parallel.connection_worker E after
                 (snd (Parallel.handle_connection E addr message
                         (snd (Parallel.connection_worker E before w))))))
  /\ (forall addr message e w,
        fst (Common.subscript message "id" w) = Raise e ->
        SP.handle_connection E addr message w = (Ok tt, w))
  /\ (forall addr message e w,
        fst (Common.subscript message "type" w) = Raise e ->
        Parallel.handle_connection E addr message w = (Ok tt, w))
  /\ (forall addr message w,
        message_queue w = [] ->
        message_queue (snd (Parallel.handle_connection E addr message w)) = []).
Proof.
  repeat split.
  - apply sp_handle_connection_contained.
  - apply parallel_handle_connection_contained.
  - intros. rewrite sp_connection_worker_runs. reflexivity.
  - intros. rewrite parallel_connection_worker_runs. reflexivity.
  - intros. rewrite !sp_connection_worker_runs. cbn [snd].
    rewrite handle_all_app. reflexivity.
  - intros. rewrite !parallel_connection_worker_runs. cbn [snd].
    rewrite handle_all_app. reflexivity.
  - intros. eapply sp_malformed_id; eauto.
  - intros. eapply parallel_malformed_type; eauto.
  - intros. apply parallel_queue_stays_empty. assumption.
Qed.

(** A datagram that decodes to the number 5. *)
Lemma failures_are_contained_witness :
  SP.handle_connection Sample.env_up Sample.vehicle_addr (JNum 5) SP.initial_world
  = (Ok tt, SP.initial_world).
Proof.
  exact (proj1 (proj2 (proj2 (proj2 (proj2 (proj2 (proj2
           (failures_are_contained Sample.env_up)))))))
           Sample.vehicle_addr (JNum 5) TypeError SP.initial_world eq_refl).
Defined.

(** ** Messages that are neither data nor announcement *)

Section Silent.
Variable E : env.
Variables (addr : string * Z) (fields : list (string * json)) (ty : json) (w : world).
Hypothesis Hty : Py.dict_lookup "type" fields = Some ty.
Hypothesis Hdata : Py.eq_str ty "data" = false.
Hypothesis Hann : Py.eq_str ty "announcement" = false.

Lemma parallel_other_type :
  Parallel.handle_connection E addr (JObj fields) w = (Ok tt, w).
Proof.
  unfold Parallel.handle_connection. run. cbn [Common.subscript].
  rewrite Hty. run. rewrite Hdata. reflexivity.
Qed.

Lemma channelchar_other_type :
  ChannelChar.handle_connection E addr (JObj fields) w = (Ok tt, w).
Proof.
  unfold ChannelChar.handle_connection. run. cbn [Common.subscript].
  rewrite Hty. run. rewrite Hdata. reflexivity.
Qed.

Lemma scalable_other_type :
  Scalable.handle_connection E addr (JObj fields) w = (Ok tt, w).
Proof.
  unfold Scalable.handle_connection. run. cbn [Common.subscript].
  rewrite Hty. run. rewrite Hdata. reflexivity.
Qed.

Lemma sp_other_type :
  trace (snd (SP.handle_connection E addr (JObj fields) w)) = trace w
  /\ sends (snd (SP.handle_connection E addr (JObj fields) w)) = sends w.
Proof.
  unfold SP.handle_connection. run. cbn [Common.subscript].
  destruct (Py.dict_lookup "id" fields) as [mid |]; [| split; reflexivity].
  run.
  pose proof (sp_is_duplicate_trace mid w) as Ht.
  pose proof (sp_is_duplicate_sends mid w) as Hs.
  destruct (SP.is_duplicate mid w) as [[[|] | e] w1]; cbn [snd] in *;
    try (split; assumption).
  rewrite Hty. run. rewrite Hdata, Hann. run. split; assumption.
Qed.
End Silent.

(** C9.  A message whose ["type"] is neither ["data"] nor
    ["announcement"] makes no relay call [sendto]: after
    [handle_connection] of the parallel, channel-characteristics,
    short-path and scalable relays the trace and the count of [sendto]
    calls are what they were. *)
Theorem other_types_are_silent
    (E : env) (addr : string * Z) (message : json) (fields : list (string * json))
    (ty : json) (w : world) :
  message = JObj fields ->
  Py.dict_lookup "type" fields = Some ty ->
  Py.eq_str ty "data" = false ->
  Py.eq_str ty "announcement" = false ->
  (trace (snd (Parallel.handle_connection E addr message w)) = trace w
   /\ sends (snd (Parallel.handle_connection E addr message w)) = sends w)
  /\ (trace (snd (ChannelChar.handle_connection E addr message w)) = trace w
      /\ sends (snd (ChannelChar.handle_connection E addr message w)) = sends w)
  /\ (trace (snd (SP.handle_connection E addr message w)) = trace w
      /\ sends (snd (SP.handle_connection E addr message w)) = sends w)
  /\ (trace (snd (Scalable.handle_connection E addr message w)) = trace w
      /\ sends (snd (Scalable.handle_connection E addr message w)) = sends w).
Proof.
  intros -> Hty Hdata Hann.
  rewrite (parallel_other_type E addr fields ty w Hty Hdata).
  rewrite (channelchar_other_type E addr fields ty w Hty Hdata).
  rewrite (scalable_other_type E addr fields ty w Hty Hdata).
  pose proof (sp_other_type E addr fields ty w Hty Hdata Hann).
  tauto.
Qed.

(** A stray ACK. *)
Lemma other_types_are_silent_witness :
  (trace (snd (Parallel.handle_connection Sample.env_up Sample.vehicle_addr Sample.stray_ack Parallel.initial_world)) = []
   /\ sends (snd (Parallel.handle_connection Sample.env_up Sample.vehicle_addr Sample.stray_ack Parallel.initial_world)) = 0%nat)
  /\ (trace (snd (ChannelChar.handle_connection Sample.env_up Sample.vehicle_addr Sample.stray_ack Parallel.initial_world)) = []
      /\ sends (snd (ChannelChar.handle_connection Sample.env_up Sample.vehicle_addr Sample.stray_ack Parallel.initial_world)) = 0%nat)
  /\ (trace (snd (SP.handle_connection Sample.env_up Sample.vehicle_addr Sample.stray_ack Parallel.initial_world)) = []
      /\ sends (snd (SP.handle_connection Sample.env_up Sample.vehicle_addr Sample.stray_ack Parallel.initial_world)) = 0%nat)
  /\ (trace (snd (Scalable.handle_connection Sample.env_up Sample.vehicle_addr Sample.stray_ack Parallel.initial_world)) = []
      /\ sends (snd (Scalable.handle_connection Sample.env_up Sample.vehicle_addr Sample.stray_ack Parallel.initial_world)) = 0%nat).
Proof.
  exact (other_types_are_silent Sample.env_up Sample.vehicle_addr Sample.stray_ack _
           (JStr "ack") Parallel.initial_world eq_refl eq_refl eq_refl eq_refl).
Defined.

(** ** Announcements that declare no port *)

Section NoPort.
Variable E : env.

Lemma sp_update_without_port message addr :
  declares_port message = false ->
  preserves ROUTING_TABLE (SP.update_routing_table message addr).
Proof.
  intros Hno w. unfold SP.update_routing_table, Common.contains, Common.hash.
  destruct message as [| b | n | s0 | items | fields]; try reflexivity.
  run. cbn [Common.subscript].
  destruct (Py.dict_lookup "source" fields) as [source |]; [| reflexivity].
  destruct (Py.dict_lookup "payload" fields) as [payload |] eqn:Hpayload;
    [| reflexivity].
  destruct payload as [| b | n | s0 | items | payload_fields]; try reflexivity.
  - run. destruct (Py.is_substring "port" s0); reflexivity.
  - run. destruct (existsb _ items); reflexivity.
  - run. cbn [declares_port] in Hno. rewrite Hpayload in Hno.
    destruct (Py.dict_lookup "port" payload_fields) as [p |] eqn:Hport.
    + discriminate.
    + reflexivity.
Qed.

Lemma sp_handle_without_port message addr :
  declares_port message = false ->
  preserves ROUTING_TABLE (SP.handle_connection E addr message).
Proof.
  intros Hno. pose proof (sp_update_without_port message addr Hno) as Hupd.
  unfold SP.handle_connection.
  apply preserves_try_except; [| intros e; apply preserves_ret].
  apply preserves_bind; [unfold Common.subscript; repeat preserves_step |].
  intros mid. apply preserves_bind; [apply sp_is_duplicate_table |].
  intros [|]; [apply preserves_ret |].
  apply preserves_bind; [unfold Common.subscript; repeat preserves_step |].
  intros ty. apply preserves_bind; [| intros; repeat preserves_step].
  destruct (Py.eq_str ty "data").
  - apply preserves_bind; [apply sp_forward_message_table |].
    intros _. apply preserves_bind; [unfold Common.subscript; repeat preserves_step |].
    intros source. apply sp_send_ack_table.
  - destruct (Py.eq_str ty "announcement"); [exact Hupd | apply preserves_ret].
Qed.
End NoPort.

(** C10.  In the short-path relay, a message whose payload is no dict with
    a ["port"] key leaves the routing table as it was, through
    [update_routing_table] and through [handle_connection]. *)
Theorem announcement_without_port
    (E : env) (addr : string * Z) (message : json) (w : world) :
  declares_port message = false ->
  ROUTING_TABLE (snd (SP.update_routing_table message addr w)) = ROUTING_TABLE w
  /\ ROUTING_TABLE (snd (SP.handle_connection E addr message w)) = ROUTING_TABLE w.
Proof.
  intros Hno. split.
  - apply sp_update_without_port, Hno.
  - apply sp_handle_without_port, Hno.
Qed.

(** An announcement that declares no port. *)
Lemma announcement_without_port_witness :
  ROUTING_TABLE (snd (SP.update_routing_table Sample.portless_announcement
                                              ("10.0.0.5", 33002) SP.initial_world))
  = ROUTING_TABLE SP.initial_world
  /\ ROUTING_TABLE (snd (SP.handle_connection Sample.env_up ("10.0.0.5", 33002)
                                              Sample.portless_announcement
                                              SP.initial_world))
     = ROUTING_TABLE SP.initial_world.
Proof.
  exact (announcement_without_port Sample.env_up ("10.0.0.5", 33002)
           Sample.portless_announcement SP.initial_world eq_refl).
Defined.

(** * Further properties of the relays *)

(** ** What [sendto] does to the world *)

Section SendTo.
Variable E : env.

(** A call of [sendto] leaves one event in the trace, counts one call, and
    touches nothing else; it returns when the datagram left and raises
    otherwise. *)
Lemma sendto_outcome data ip port w :
  exists o ev,
    Common.sendto E data ip port w
    = (o, set_trace (trace w ++ [ev]) (set_sends (S (sends w)) w))
    /\ ((o = Ok tt /\ exists p, ev = EvSent data ip p)
        \/ (exists e, o = Raise e /\ ev = EvSendFailed data ip port e)).
Proof.
  unfold Common.sendto, Common.emit. run.
  destruct (Py.as_int port) as [p |].
  - destruct ((0 <=? p) && (p <=? 65535))%Z.
    + destruct (net_ok E (sends w) ip p); run; eauto 10.
    + run; eauto 10.
  - run; eauto 10.
Qed.

(** The port of a datagram that left is the integer that was given. *)
Lemma sendto_outcome_int data ip port w :
  exists o ev,
    Common.sendto E data ip port w
    = (o, set_trace (trace w ++ [ev]) (set_sends (S (sends w)) w))
    /\ ((o = Ok tt /\ exists p, Py.as_int port = Some p /\ ev = EvSent data ip p)
        \/ (exists e, o = Raise e /\ ev = EvSendFailed data ip port e)).
Proof.
  unfold Common.sendto, Common.emit. run.
  destruct (Py.as_int port) as [p |].
  - destruct ((0 <=? p) && (p <=? 65535))%Z.
    + destruct (net_ok E (sends w) ip p); run; eauto 10.
    + run; eauto 10.
  - run; eauto 10.
Qed.

End SendTo.

(** ** Every forwarding is counted once *)

Section Accounting.
Variable E : env.

Lemma sp_neighbor_attempts_account attempts data ip port w :
  exists b,
    fst (SP.neighbor_attempts E attempts data ip port w) = Ok b
    /\ metrics (snd (SP.neighbor_attempts E attempts data ip port w))
       = (if b then incr_forwarded (metrics w) else metrics w)
    /\ (if b
        then (sends w < sends (snd (SP.neighbor_attempts E attempts data ip port w))
              <= sends w + length attempts)%nat
        else sends (snd (SP.neighbor_attempts E attempts data ip port w))
             = (sends w + length attempts)%nat).
Proof.
  revert w. induction attempts as [| attempt rest IH]; intros w.
  - exists false. cbn. repeat split; lia.
  - cbn [SP.neighbor_attempts length].
    unfold Common.simulate_bandwidth, Common.time_sleep, Common.emit. run.
    match goal with
    | |- context [Common.sendto E data ip port ?w0] =>
        destruct (sendto_outcome E data ip port w0) as (o & ev & Hsend & Hcase);
        rewrite Hsend
    end.
    destruct Hcase as [[-> _] | [e [-> _]]]; run.
    + exists true. repeat split; lia.
    + match goal with
      | |- context [SP.neighbor_attempts E rest data ip port ?w1] =>
          destruct (IH w1) as (b & Hb & Hm & Hs)
      end.
      revert Hb Hm Hs. world_simpl. intros Hb Hm Hs.
      destruct (SP.neighbor_attempts E rest data ip port _) as [[b' | e'] w2];
        cbn [fst snd] in *; [| discriminate].
      injection Hb as ->. exists b.
      destruct b; repeat split; try assumption; lia.
Qed.

Lemma sp_forward_to_neighbor_account data ip port w :
  fst (SP.forward_to_neighbor E data ip port w) = Ok tt
  /\ counted_once (metrics w) (metrics (snd (SP.forward_to_neighbor E data ip port w)))
  /\ (sends w < sends (snd (SP.forward_to_neighbor E data ip port w))
      <= sends w + 3)%nat.
Proof.
  unfold SP.forward_to_neighbor, bind.
  destruct (sp_neighbor_attempts_account (seq 0 SP.MAX_RETRIES) data ip port w)
    as (b & Hb & Hm & Hs).
  destruct (SP.neighbor_attempts E (seq 0 SP.MAX_RETRIES) data ip port w)
    as [[b' | e] w1]; cbn [fst snd] in *; [| discriminate].
  injection Hb as ->. cbn [SP.MAX_RETRIES seq length] in *.
  destruct b; cbn [fst snd ret modify set_metrics metrics sends].
  - split; [reflexivity |]. split; [left; exact Hm | lia].
  - split; [reflexivity |]. split; [right; rewrite Hm; reflexivity | lia].
Qed.

(** [get_next_hop] reads the table and changes nothing; a hop that it
    hands out is an entry of the table that has an address. *)
Lemma sp_get_next_hop_cases destination k w :
  Py.hash_key destination = Some k ->
  (exists entry k',
      SP.get_next_hop destination w = (Ok (Some entry), w)
      /\ SP.has_endpoint entry = true
      /\ ROUTING_TABLE w !! k' = Some entry)
  \/ SP.get_next_hop destination w = (Ok None, w).
Proof.
  intros Hh. unfold SP.get_next_hop, Common.hash. rewrite Hh. run.
  destruct (ROUTING_TABLE w !! k) as [entry |] eqn:Hk; [| right; eauto].
  destruct (SP.has_endpoint entry) eqn:He; [left; eauto |].
  destruct (next_hop entry) as [hop |]; [| right; eauto].
  destruct (SP.truthy (Some hop)); [| right; eauto].
  destruct (ROUTING_TABLE w !! KStr hop) as [entry' |] eqn:Hk';
    [| right; eauto].
  destruct (SP.has_endpoint entry') eqn:He'; [left; eauto | right; eauto].
Qed.

Lemma sp_get_next_hop_unhashable destination w :
  Py.hash_key destination = None ->
  SP.get_next_hop destination w = (Raise TypeError, w).
Proof.
  intros Hh. unfold SP.get_next_hop, Common.hash. rewrite Hh. reflexivity.
Qed.

Lemma has_endpoint_fields entry :
  SP.has_endpoint entry = true ->
  exists a p, ip entry = Some a /\ port entry = Some p.
Proof.
  unfold SP.has_endpoint. intros H. apply andb_prop in H as [Ha Hp].
  apply bool_decide_eq_true in Ha as [a Ha].
  apply bool_decide_eq_true in Hp as [p Hp]. eauto.
Qed.

Lemma sp_forward_message_account message w :
  match destination_key message with
  | None => exists e, SP.forward_message E message w = (Raise e, w)
  | Some _ =>
      fst (SP.forward_message E message w) = Ok tt
      /\ counted_once (metrics w) (metrics (snd (SP.forward_message E message w)))
      /\ (sends w <= sends (snd (SP.forward_message E message w)) <= sends w + 3)%nat
  end.
Proof.
  unfold SP.forward_message, destination_key.
  destruct message as [| | | | | fields];
    try (exists TypeError; reflexivity).
  cbn [Common.subscript].
  destruct (Py.dict_lookup "destination" fields) as [destination |];
    [| exists KeyError; reflexivity].
  run.
  destruct (Py.hash_key destination) as [k |] eqn:Hh.
  - destruct (sp_get_next_hop_cases destination k w Hh)
      as [(entry & k' & Hg & He & _) | Hg]; rewrite Hg.
    + destruct (has_endpoint_fields _ He) as (a & p & Ha & Hp).
      rewrite Ha, Hp.
      destruct (sp_forward_to_neighbor_account (JObj fields) a p w)
        as (Hok & Hm & Hs).
      repeat split; try assumption; lia.
    + cbn [fst snd metrics sends set_metrics].
      repeat split; [right; reflexivity | lia | lia].
  - rewrite (sp_get_next_hop_unhashable destination w Hh).
    exists TypeError. reflexivity.
Qed.

End Accounting.

(** X1.  [forward_to_neighbor] of the short-path relay, for every datagram,
    address, port (valid or not) and behaviour of the network: the call
    returns normally, it makes at least one and at most [MAX_RETRIES] = 3
    calls of [sendto], and exactly one of [total_packets_forwarded] and
    [total_packets_dropped] goes up, by one. *)
Theorem sp_forward_to_neighbor_counts_once
    (E : env) (data : json) (ip : string) (port : json) (w : world) :
  fst (SP.forward_to_neighbor E data ip port w) = Ok tt
  /\ counted_once (metrics w) (metrics (snd (SP.forward_to_neighbor E data ip port w)))
  /\ (sends w < sends (snd (SP.forward_to_neighbor E data ip port w))
      <= sends w + 3)%nat.
Proof. apply sp_forward_to_neighbor_account. Qed.

(** X2.  [forward_message] of the short-path relay is all or nothing.  A
    message that has no hashable ["destination"] (no dict, key missing,
    a list or a dict as destination) makes it raise and leaves the world
    as it was; every other message makes it return with exactly one of
    the forwarded and dropped counters one higher, after at most three
    calls of [sendto]. *)
Theorem sp_forward_message_all_or_nothing (E : env) (message : json) (w : world) :
  match destination_key message with
  | None => exists e, SP.forward_message E message w = (Raise e, w)
  | Some _ =>
      fst (SP.forward_message E message w) = Ok tt
      /\ counted_once (metrics w) (metrics (snd (SP.forward_message E message w)))
      /\ (sends w <= sends (snd (SP.forward_message E message w)) <= sends w + 3)%nat
  end.
Proof. apply sp_forward_message_account. Qed.

(** X3.  [get_next_hop] never changes the world, raises nothing but the
    TypeError of an unhashable destination, and a hop it returns is an
    entry of the routing table that holds both an ["ip"] and a
    ["port"]. *)
Theorem sp_get_next_hop_sound (destination : json) (w : world) :
  snd (SP.get_next_hop destination w) = w
  /\ match fst (SP.get_next_hop destination w) with
     | Ok (Some entry) =>
         SP.has_endpoint entry = true
         /\ exists k, ROUTING_TABLE w !! k = Some entry
     | Ok None => is_Some (Py.hash_key destination)
     | Raise e => e = TypeError /\ Py.hash_key destination = None
     end.
Proof.
  destruct (Py.hash_key destination) as [k |] eqn:Hh.
  - destruct (sp_get_next_hop_cases destination k w Hh)
      as [(entry & k' & Hg & He & Hk) | Hg]; rewrite Hg; cbn [fst snd]; eauto.
  - rewrite (sp_get_next_hop_unhashable destination w Hh). cbn [fst snd]. eauto.
Qed.

(** X4.  The short-path relay follows one ["next_hop"] link and no more.
    When the entry of the destination has no address and the entry that
    its ["next_hop"] names has none either, [forward_message] sends
    nothing and counts the message as dropped, whatever a longer chain of
    links would reach. *)
Theorem sp_route_follows_one_link
    (E : env) (fields : list (string * json)) (destination : json) (k : pykey)
    (entry : route_entry) (hop : string) (w : world) :
  Py.dict_lookup "destination" fields = Some destination ->
  Py.hash_key destination = Some k ->
  ROUTING_TABLE w !! k = Some entry ->
  SP.has_endpoint entry = false ->
  next_hop entry = Some hop ->
  (forall entry', ROUTING_TABLE w !! KStr hop = Some entry' ->
                  SP.has_endpoint entry' = false) ->
  SP.forward_message E (JObj fields) w
  = (Ok tt, set_metrics (incr_dropped (metrics w)) w).
Proof.
  intros Hd Hh Hk He Hhop Hnext.
  unfold SP.forward_message. cbn [Common.subscript]. rewrite Hd. run.
  unfold SP.get_next_hop, Common.hash. rewrite Hh. run.
  rewrite Hk, He, Hhop.
  destruct (SP.truthy (Some hop)); [| reflexivity].
  destruct (ROUTING_TABLE w !! KStr hop) as [entry' |] eqn:Hk'; [| reflexivity].
  rewrite (Hnext entry' eq_refl). reflexivity.
Qed.

(** In the table the relay starts with, ["sat_4"] names ["sat_5"], which
    names the command station; data for ["sat_4"] is dropped. *)
Lemma sp_route_follows_one_link_witness :
  SP.forward_message Sample.env_up
    (Sample.data_envelope "vehicle_1234" "sat_4" "vehicle_1234-1") SP.initial_world
  = (Ok tt, set_metrics (incr_dropped (metrics SP.initial_world)) SP.initial_world).
Proof.
  apply (sp_route_follows_one_link Sample.env_up _ (JStr "sat_4") (KStr "sat_4")
           (mkEntry (Some "sat_5") None None) "sat_5").
  - reflexivity.
  - reflexivity.
  - reflexivity.
  - reflexivity.
  - reflexivity.
  - intros entry' H. vm_compute in H. injection H as <-. reflexivity.
Defined.

(** ** The retry loops of the scalable relay, and the single try of the
       channel-characteristics relay *)

Section MoreAccounting.
Variable E : env.

Lemma scalable_command_station_attempts_account attempts data w :
  exists b,
    fst (Scalable.command_station_attempts E attempts data w) = Ok b
    /\ metrics (snd (Scalable.command_station_attempts E attempts data w))
       = (if b then incr_forwarded (metrics w) else metrics w)
    /\ (if b
        then (sends w < sends (snd (Scalable.command_station_attempts E attempts data w))
              <= sends w + length attempts)%nat
        else sends (snd (Scalable.command_station_attempts E attempts data w))
             = (sends w + length attempts)%nat).
Proof.
  revert w. induction attempts as [| attempt rest IH]; intros w.
  - exists false. cbn. repeat split; lia.
  - cbn [Scalable.command_station_attempts length].
    unfold Common.simulate_bandwidth, Common.time_sleep, Common.emit. run.
    match goal with
    | |- context [Common.sendto E data ?ip ?port ?w0] =>
        destruct (sendto_outcome E data ip port w0) as (o & ev & Hsend & Hcase);
        rewrite Hsend
    end.
    destruct Hcase as [[-> _] | [e [-> _]]]; run.
    + exists true. repeat split; lia.
    + match goal with
      | |- context [Scalable.command_station_attempts E rest data ?w1] =>
          destruct (IH w1) as (b & Hb & Hm & Hs)
      end.
      revert Hb Hm Hs. world_simpl. intros Hb Hm Hs.
      destruct (Scalable.command_station_attempts E rest data _) as [[b' | e'] w2];
        cbn [fst snd] in *; [| discriminate].
      injection Hb as ->. exists b.
      destruct b; repeat split; try assumption; lia.
Qed.

Lemma scalable_neighbor_attempts_account attempts message nb w :
  exists b,
    fst (Scalable.neighbor_attempts E attempts message nb w) = Ok b
    /\ metrics (snd (Scalable.neighbor_attempts E attempts message nb w))
       = (if b then incr_forwarded (metrics w) else metrics w)
    /\ (if b
        then (sends w < sends (snd (Scalable.neighbor_attempts E attempts message nb w))
              <= sends w + length attempts)%nat
        else sends (snd (Scalable.neighbor_attempts E attempts message nb w))
             = (sends w + length attempts)%nat).
Proof.
  revert w. induction attempts as [| attempt rest IH]; intros w.
  - exists false. cbn. repeat split; lia.
  - cbn [Scalable.neighbor_attempts length].
    unfold Common.simulate_bandwidth, Common.time_sleep, Common.emit. run.
    match goal with
    | |- context [Common.sendto E message ?ip ?port ?w0] =>
        destruct (sendto_outcome E message ip port w0) as (o & ev & Hsend & Hcase);
        rewrite Hsend
    end.
    destruct Hcase as [[-> _] | [e [-> _]]]; run.
    + exists true. repeat split; lia.
    + match goal with
      | |- context [Scalable.neighbor_attempts E rest message nb ?w1] =>
          destruct (IH w1) as (b & Hb & Hm & Hs)
      end.
      revert Hb Hm Hs. world_simpl. intros Hb Hm Hs.
      destruct (Scalable.neighbor_attempts E rest message nb _) as [[b' | e'] w2];
        cbn [fst snd] in *; [| discriminate].
      injection Hb as ->. exists b.
      destruct b; repeat split; try assumption; lia.
Qed.

Lemma scalable_forward_to_command_station_account data w :
  fst (Scalable.forward_to_command_station E data w) = Ok tt
  /\ counted_once (metrics w)
       (metrics (snd (Scalable.forward_to_command_station E data w)))
  /\ (sends w < sends (snd (Scalable.forward_to_command_station E data w))
      <= sends w + 3)%nat.
Proof.
  unfold Scalable.forward_to_command_station, bind.
  destruct (scalable_command_station_attempts_account
              (seq 0 Scalable.MAX_RETRIES) data w) as (b & Hb & Hm & Hs).
  destruct (Scalable.command_station_attempts E (seq 0 Scalable.MAX_RETRIES) data w)
    as [[b' | e] w1]; cbn [fst snd] in *; [| discriminate].
  injection Hb as ->. cbn [Scalable.MAX_RETRIES seq length] in *.
  destruct b; cbn [fst snd ret modify set_metrics metrics sends].
  - split; [reflexivity |]. split; [left; exact Hm | lia].
  - split; [reflexivity |]. split; [right; rewrite Hm; reflexivity | lia].
Qed.

Lemma scalable_forward_to_neighbor_account message nb w :
  fst (Scalable.forward_to_neighbor E message nb w) = Ok tt
  /\ counted_once (metrics w)
       (metrics (snd (Scalable.forward_to_neighbor E message nb w)))
  /\ (sends w < sends (snd (Scalable.forward_to_neighbor E message nb w))
      <= sends w + 3)%nat.
Proof.
  unfold Scalable.forward_to_neighbor, bind.
  destruct (scalable_neighbor_attempts_account
              (seq 0 Scalable.MAX_RETRIES) message nb w) as (b & Hb & Hm & Hs).
  destruct (Scalable.neighbor_attempts E (seq 0 Scalable.MAX_RETRIES) message nb w)
    as [[b' | e] w1]; cbn [fst snd] in *; [| discriminate].
  injection Hb as ->. cbn [Scalable.MAX_RETRIES seq length] in *.
  destruct b; cbn [fst snd ret modify set_metrics metrics sends].
  - split; [reflexivity |]. split; [left; exact Hm | lia].
  - split; [reflexivity |]. split; [right; rewrite Hm; reflexivity | lia].
Qed.

End MoreAccounting.

(** X5.  Both retry loops of the scalable relay, [forward_to_command_station]
    and [forward_to_neighbor], return normally for every datagram and every
    behaviour of the network, after one to three calls of [sendto], and
    with exactly one of the forwarded and dropped counters one higher. *)
Theorem scalable_forwarding_counts_once
    (E : env) (data : json) (nb : neighbor) (w : world) :
  (fst (Scalable.forward_to_command_station E data w) = Ok tt
   /\ counted_once (metrics w)
        (metrics (snd (Scalable.forward_to_command_station E data w)))
   /\ (sends w < sends (snd (Scalable.forward_to_command_station E data w))
       <= sends w + 3)%nat)
  /\ (fst (Scalable.forward_to_neighbor E data nb w) = Ok tt
      /\ counted_once (metrics w)
           (metrics (snd (Scalable.forward_to_neighbor E data nb w)))
      /\ (sends w < sends (snd (Scalable.forward_to_neighbor E data nb w))
          <= sends w + 3)%nat).
Proof.
  split.
  - apply scalable_forward_to_command_station_account.
  - apply scalable_forward_to_neighbor_account.
Qed.

(** X6.  [forward_to_neighbor] of the channel-characteristics relay never
    raises and tries once.  When the simulated loss strikes, the packet is
    counted as dropped and [sendto] is not called.  Otherwise [sendto] is
    called once: the packet is counted as forwarded when the datagram
    left, and in neither counter when the call failed. *)
Theorem channelchar_forward_to_neighbor_outcomes
    (E : env) (message : json) (nb : neighbor) (w : world) :
  let w' := snd (ChannelChar.forward_to_neighbor E message nb w) in
  fst (ChannelChar.forward_to_neighbor E message nb w) = Ok tt
  /\ draws w' = S (draws w)
  /\ if packet_lost E (draws w)
     then metrics w' = incr_dropped (metrics w)
          /\ sends w' = sends w
          /\ trace w' = (trace w ++ [EvSleep ChannelChar.ISL_DELAY])%list
     else sends w' = S (sends w)
          /\ ((metrics w' = incr_forwarded (metrics w)
               /\ exists p,
                   trace w' = (trace w ++ [EvSleep ChannelChar.ISL_DELAY;
                                           EvSleep (bandwidth_delay E message);
                                           EvSent message (n_ip nb) p])%list)
              \/ (metrics w' = metrics w
                  /\ exists e,
                      trace w' = (trace w ++ [EvSleep ChannelChar.ISL_DELAY;
                                              EvSleep (bandwidth_delay E message);
                                              EvSendFailed message (n_ip nb)
                                                           (JNum (n_port nb)) e])%list)).
Proof.
  cbv zeta.
  unfold ChannelChar.forward_to_neighbor, Common.simulate_packet_loss,
    Common.simulate_bandwidth, Common.time_sleep, Common.emit. run.
  destruct (packet_lost E (draws w)); run.
  - repeat split; reflexivity.
  - match goal with
    | |- context [Common.sendto E message ?ip ?port ?w0] =>
        destruct (sendto_outcome E message ip port w0) as (o & ev & Hsend & Hcase);
        rewrite Hsend
    end.
    destruct Hcase as [[-> [p ->]] | [e [-> ->]]]; run.
    + repeat split; try reflexivity. left. split; [reflexivity |].
      exists p. rewrite <- !app_assoc. reflexivity.
    + repeat split; try reflexivity. right. split; [reflexivity |].
      exists e. rewrite <- !app_assoc. reflexivity.
Qed.

(** ** Statements that move the world along a preorder *)

Section Keeps.
Context (R : world -> world -> Prop) `{!PreOrder R}.

Lemma keeps_ret {A} (a : A) : keeps R (ret a).
Proof. intros w. reflexivity. Qed.

Lemma keeps_raise {A} (e : exn) : keeps R (raise (A := A) e).
Proof. intros w. reflexivity. Qed.

Lemma keeps_gets {A} (g : world -> A) : keeps R (gets g).
Proof. intros w. reflexivity. Qed.

Lemma keeps_lift_option {A} (e : exn) (o : option A) : keeps R (lift_option e o).
Proof. destruct o; intros w; reflexivity. Qed.

Lemma keeps_modify (g : world -> world) :
  (forall w, R w (g w)) -> keeps R (modify g).
Proof. intros H w. apply H. Qed.

Lemma keeps_bind {A B} (m : M A) (k : A -> M B) :
  keeps R m -> (forall a, keeps R (k a)) -> keeps R (bind m k).
Proof.
  intros Hm Hk w. unfold bind. specialize (Hm w).
  destruct (m w) as [[a | e] w1]; cbn [snd] in *.
  - etransitivity; [exact Hm | apply Hk].
  - exact Hm.
Qed.

Lemma keeps_try_except {A} (m : M A) (h : exn -> M A) :
  keeps R m -> (forall e, keeps R (h e)) -> keeps R (try_except m h).
Proof.
  intros Hm Hh w. unfold try_except. specialize (Hm w).
  destruct (m w) as [[a | e] w1]; cbn [snd] in *.
  - exact Hm.
  - etransitivity; [exact Hm | apply Hh].
Qed.

(** A statement that leaves [f] alone keeps every relation that looks at
    [f] only. *)
Lemma keeps_of_preserves {A X} (f : world -> X) (m : M A) :
  (forall w w', f w' = f w -> R w w') -> preserves f m -> keeps R m.
Proof. intros HR Hm w. apply HR, Hm. Qed.

Lemma keeps_handle_all (handle : string * Z -> json -> M unit) items :
  (forall addr message, keeps R (handle addr message)) ->
  forall w, R w (handle_all handle items w).
Proof.
  intros Hh. unfold handle_all.
  induction items as [| item rest IH]; intros w; cbn [fold_left].
  - reflexivity.
  - etransitivity; [apply Hh | apply IH].
Qed.

End Keeps.

(** One step of a proof that a statement keeps a relation; what a
    [modify] does is left to the caller. *)
Ltac keeps_step :=
  match goal with
  | H : keeps ?R ?m |- keeps ?R ?m => exact H
  | H : _ |- keeps _ _ => solve [apply H]
  | |- keeps _ (ret _) => apply keeps_ret; exact _
  | |- keeps _ (raise _) => apply keeps_raise; exact _
  | |- keeps _ (gets _) => apply keeps_gets; exact _
  | |- keeps _ (lift_option _ _) => apply keeps_lift_option; exact _
  | |- keeps _ (bind _ _) => apply keeps_bind; [exact _ | | intros ?]
  | |- keeps _ (try_except _ _) => apply keeps_try_except; [exact _ | | intros ?]
  | |- keeps _ (if ?b then _ else _) => destruct b
  | |- keeps _ (match ?x with _ => _ end) => destruct x
  end.

(** The statements of the relays, the duplicate checks and the loops set
    aside. *)
Create HintDb relay_ops.
#[local] Hint Unfold
  Common.subscript Common.dict_get Common.hash Common.contains Common.time_time
  Common.emit Common.time_sleep Common.create_message
  Common.simulate_packet_loss Common.simulate_bandwidth
  Common.message_queue_put
  Parallel.forward_to_command_station
  Parallel.forward_to_neighbor Parallel.route_one Parallel.respond_to_vehicle
  Parallel.route_data Parallel.handle_connection
  ChannelChar.forward_to_command_station
  ChannelChar.forward_to_neighbor ChannelChar.route_one
  ChannelChar.respond_to_vehicle ChannelChar.route_data ChannelChar.handle_connection
  Scalable.forward_to_command_station
  Scalable.forward_to_neighbor Scalable.route_one Scalable.route_data
  Scalable.send_ack Scalable.handle_connection
  SP.send_ack SP.get_next_hop SP.update_routing_table
  SP.forward_to_neighbor SP.forward_message SP.handle_connection : relay_ops.

Ltac keeps_with leaf :=
  repeat (autounfold with relay_ops; first [keeps_step | apply keeps_modify; leaf]).

(** ** The deduplication store never forgets *)

#[local] Instance remembers_preorder : PreOrder remembers.
Proof.
  split.
  - intros w k H. exact H.
  - intros w1 w2 w3 H12 H23 k H. apply H23, H12, H.
Qed.

Ltac remembers_leaf :=
  intros ? ? ?; world_simpl; assumption.

Lemma insert_remembers (k : pykey) (now : Q) (r : gmap pykey Q) (k' : pykey) :
  is_Some (r !! k') -> is_Some (<[k := now]> r !! k').
Proof.
  intros H. destruct (decide (k = k')) as [-> | Hne].
  - rewrite lookup_insert_eq. eauto.
  - rewrite lookup_insert_ne by exact Hne. exact H.
Qed.

Lemma replace_remembers (k : pykey) (now : Q) (r : gmap pykey Q) (k' : pykey) :
  is_Some (r !! k') -> is_Some (<[k := now]> (delete k r) !! k').
Proof.
  intros H. destruct (decide (k = k')) as [-> | Hne].
  - rewrite lookup_insert_eq. eauto.
  - rewrite lookup_insert_ne, lookup_delete_ne by exact Hne. exact H.
Qed.

Lemma is_duplicate_remembers message_id :
  keeps remembers (Common.is_duplicate message_id).
Proof.
  intros w k' Hk'.
  unfold Common.is_duplicate, Common.time_time, Common.hash.
  destruct (Py.hash_key message_id) as [k |]; run; [| exact Hk'].
  destruct (recent_messages w !! k) as [first_seen |]; run.
  - destruct (Common.Qltb (clock w - first_seen) Common.DEDUP_WINDOW); run.
    + exact Hk'.
    + apply replace_remembers, Hk'.
  - apply insert_remembers, Hk'.
Qed.

Lemma sp_is_duplicate_remembers message_id :
  keeps remembers (SP.is_duplicate message_id).
Proof.
  intros w k' Hk'.
  unfold SP.is_duplicate, Common.time_time, Common.hash.
  destruct (Py.hash_key message_id) as [k |]; run; [| exact Hk'].
  destruct (recent_messages w !! k) as [first_seen |]; run.
  - destruct (Common.Qltb (clock w - first_seen) Common.DEDUP_WINDOW); run.
    + exact Hk'.
    + apply replace_remembers, Hk'.
  - apply insert_remembers, Hk'.
Qed.

Section Remembers.
Variable E : env.

Lemma sendto_remembers data ip port : keeps remembers (Common.sendto E data ip port).
Proof. unfold Common.sendto. keeps_with remembers_leaf. Qed.

Lemma sp_neighbor_attempts_remembers attempts data ip port :
  keeps remembers (SP.neighbor_attempts E attempts data ip port).
Proof.
  pose proof (sendto_remembers) as Hsend.
  induction attempts; cbn [SP.neighbor_attempts]; keeps_with remembers_leaf.
Qed.

Lemma sp_handle_connection_remembers addr message :
  keeps remembers (SP.handle_connection E addr message).
Proof.
  pose proof (sendto_remembers) as Hsend.
  pose proof (sp_neighbor_attempts_remembers) as Hloop.
  pose proof (sp_is_duplicate_remembers) as Hdup.
  keeps_with remembers_leaf.
Qed.

End Remembers.

Section RemembersOthers.
Variable E : env.

Lemma scalable_command_station_attempts_remembers attempts data :
  keeps remembers (Scalable.command_station_attempts E attempts data).
Proof.
  pose proof (sendto_remembers E) as Hsend.
  induction attempts; cbn [Scalable.command_station_attempts];
    keeps_with remembers_leaf.
Qed.

Lemma scalable_neighbor_attempts_remembers attempts message nb :
  keeps remembers (Scalable.neighbor_attempts E attempts message nb).
Proof.
  pose proof (sendto_remembers E) as Hsend.
  induction attempts; cbn [Scalable.neighbor_attempts];
    keeps_with remembers_leaf.
Qed.

Lemma scalable_handle_connection_remembers addr message :
  keeps remembers (Scalable.handle_connection E addr message).
Proof.
  pose proof (sendto_remembers E) as Hsend.
  pose proof (scalable_command_station_attempts_remembers) as Hsink.
  pose proof (scalable_neighbor_attempts_remembers) as Hloop.
  pose proof (is_duplicate_remembers) as Hdup.
  keeps_with remembers_leaf.
Qed.

Lemma parallel_route_loop_remembers fuel neighbors :
  keeps remembers (Parallel.route_loop E fuel neighbors).
Proof.
  pose proof (sendto_remembers E) as Hsend.
  pose proof (is_duplicate_remembers) as Hdup.
  induction fuel; cbn [Parallel.route_loop]; keeps_with remembers_leaf.
Qed.

Lemma parallel_handle_connection_remembers addr message :
  keeps remembers (Parallel.handle_connection E addr message).
Proof.
  pose proof (sendto_remembers E) as Hsend.
  pose proof (parallel_route_loop_remembers) as Hloop.
  keeps_with remembers_leaf.
Qed.

Lemma channelchar_route_loop_remembers fuel neighbors :
  keeps remembers (ChannelChar.route_loop E fuel neighbors).
Proof.
  pose proof (sendto_remembers E) as Hsend.
  pose proof (is_duplicate_remembers) as Hdup.
  induction fuel; cbn [ChannelChar.route_loop]; keeps_with remembers_leaf.
Qed.

Lemma channelchar_handle_connection_remembers addr message :
  keeps remembers (ChannelChar.handle_connection E addr message).
Proof.
  pose proof (sendto_remembers E) as Hsend.
  pose proof (channelchar_route_loop_remembers) as Hloop.
  keeps_with remembers_leaf.
Qed.

End RemembersOthers.



(** X8.  No relay ever removes an id from [recent_messages]: whatever
    items a worker handles, every id that had a record before still has
    one afterwards.  (An expired record is deleted only to be written anew
    by the next statement; nothing prunes the store.) *)
Theorem dedup_store_never_forgets
    (E : env) (items : list ((string * Z) * json)) (k : pykey) (w : world) :
  is_Some (recent_messages w !! k) ->
  is_Some (recent_messages (handle_all (SP.handle_connection E) items w) !! k)
  /\ is_Some (recent_messages (handle_all (Parallel.handle_connection E) items w) !! k)
  /\ is_Some (recent_messages (handle_all (ChannelChar.handle_connection E) items w) !! k)
  /\ is_Some (recent_messages (handle_all (Scalable.handle_connection E) items w) !! k).
Proof.
  intros Hk. repeat split.
  - apply (keeps_handle_all remembers _ items (sp_handle_connection_remembers E) w k Hk).
  - apply (keeps_handle_all remembers _ items (parallel_handle_connection_remembers E) w k Hk).
  - apply (keeps_handle_all remembers _ items (channelchar_handle_connection_remembers E) w k Hk).
  - apply (keeps_handle_all remembers _ items (scalable_handle_connection_remembers E) w k Hk).
Qed.

Lemma dedup_store_never_forgets_witness :
  is_Some (recent_messages
             (handle_all (SP.handle_connection Sample.env_up)
                         [(Sample.vehicle_addr, Sample.twice);
                          (Sample.vehicle_addr, Sample.to_unknown)]
                         Sample.world_seen_11s_ago)
           !! KStr "vehicle_1234-5").
Proof.
  refine (proj1 (dedup_store_never_forgets Sample.env_up _ (KStr "vehicle_1234-5")
                   Sample.world_seen_11s_ago _)).
  exists 0%Q. reflexivity.
Defined.

(** ** What a relay puts on the wire *)

#[local] Instance extends_with_preorder (P : event -> Prop) : PreOrder (extends_with P).
Proof.
  split.
  - intros w. exists []. split; [symmetry; apply app_nil_r | constructor].
  - intros w1 w2 w3 (a12 & H12 & P12) (a23 & H23 & P23).
    exists (a12 ++ a23)%list. split.
    + rewrite H23, H12, app_assoc. reflexivity.
    + apply Forall_app. split; assumption.
Qed.

Ltac emits_leaf :=
  intros ?; unfold extends_with; world_simpl;
  first [ exists []; split; [symmetry; apply app_nil_r | constructor]
        | eexists [_]; split; [reflexivity | constructor; [auto | constructor]] ].

Section Emits.
Variable E : env.
Variable P : event -> Prop.

Lemma sendto_emits data ip port :
  (forall p, Py.as_int port = Some p -> P (EvSent data ip p)) ->
  (forall e, P (EvSendFailed data ip port e)) ->
  keeps (extends_with P) (Common.sendto E data ip port).
Proof.
  intros Hsent Hfailed w.
  unfold Common.sendto, Common.emit. run.
  destruct (Py.as_int port) as [p |] eqn:Hp.
  - destruct ((0 <=? p) && (p <=? 65535))%Z.
    + destruct (net_ok E (sends w) ip p); run.
      * eexists [_]. split; [reflexivity |]. constructor; [auto | constructor].
      * eexists [_]. split; [reflexivity |]. constructor; [auto | constructor].
    + run. eexists [_]. split; [reflexivity |]. constructor; [auto | constructor].
  - run. eexists [_]. split; [reflexivity |]. constructor; [auto | constructor].
Qed.

(** Something that touches no trace emits nothing. *)
Lemma silent_emits {A} (m : M A) : preserves trace m -> keeps (extends_with P) m.
Proof.
  intros H. apply (keeps_of_preserves _ trace); [| exact H].
  intros w w' Heq. exists []. split; [rewrite Heq, app_nil_r; reflexivity | constructor].
Qed.

Lemma keeps_subscript {B} (R : world -> world -> Prop) `{!PreOrder R}
    (message : json) (key : string) (f : json -> M B) :
  (forall fields v, message = JObj fields -> Py.dict_lookup key fields = Some v ->
                    keeps R (f v)) ->
  keeps R (bind (Common.subscript message key) f).
Proof.
  intros Hf w. unfold bind, Common.subscript.
  destruct message as [| | | | | fields]; try reflexivity.
  destruct (Py.dict_lookup key fields) as [v |] eqn:Hv; [| reflexivity].
  cbn [lift_option ret]. apply (Hf fields v eq_refl Hv).
Qed.

Hypothesis sleeps_allowed : forall d, P (EvSleep d).

Lemma sp_neighbor_attempts_emits attempts data ip port :
  (forall p, P (EvSent data ip p)) ->
  (forall e, P (EvSendFailed data ip port e)) ->
  keeps (extends_with P) (SP.neighbor_attempts E attempts data ip port).
Proof.
  intros Hsent Hfailed.
  pose proof (sendto_emits data ip port (fun p _ => Hsent p) Hfailed) as Hsend.
  induction attempts; cbn [SP.neighbor_attempts]; keeps_with emits_leaf.
Qed.

Lemma sp_forward_message_emits message :
  (forall ip p, P (EvSent message ip p)) ->
  (forall ip port e, P (EvSendFailed message ip port e)) ->
  keeps (extends_with P) (SP.forward_message E message).
Proof.
  intros Hsent Hfailed.
  assert (Hloop : forall attempts ip port,
             keeps (extends_with P) (SP.neighbor_attempts E attempts message ip port)).
  { intros. apply sp_neighbor_attempts_emits; auto. }
  keeps_with emits_leaf.
Qed.

Lemma scalable_route_one_emits message destination :
  (forall ip p, P (EvSent message ip p)) ->
  (forall ip port e, P (EvSendFailed message ip port e)) ->
  keeps (extends_with P) (Scalable.route_one E message destination).
Proof.
  intros Hsent Hfailed.
  assert (Hsend : forall ip port,
             keeps (extends_with P) (Common.sendto E message ip port)).
  { intros. apply sendto_emits; auto. }
  assert (Hsink : forall attempts,
             keeps (extends_with P) (Scalable.command_station_attempts E attempts message)).
  { induction attempts; cbn [Scalable.command_station_attempts];
      keeps_with emits_leaf. }
  assert (Hloop : forall attempts nb,
             keeps (extends_with P) (Scalable.neighbor_attempts E attempts message nb)).
  { induction attempts; intros nb; cbn [Scalable.neighbor_attempts];
      keeps_with emits_leaf. }
  keeps_with emits_leaf.
Qed.

Lemma sp_send_ack_emits addr source :
  (forall now, P (EvSent (ack_datagram E source now) (fst addr) Common.ACK_LISTEN_PORT)) ->
  (forall now e, P (EvSendFailed (ack_datagram E source now) (fst addr)
                                 (JNum Common.ACK_LISTEN_PORT) e)) ->
  keeps (extends_with P) (SP.send_ack E addr source).
Proof.
  intros Hsent Hfailed w.
  assert (Hrest : keeps (extends_with P)
            (Common.sendto E (ack_datagram E source (clock w)) (fst addr)
                           (JNum Common.ACK_LISTEN_PORT) >>
             modify (fun w => set_metrics (incr_acks_sent (metrics w)) w))).
  { apply keeps_bind; [exact _ | | intros _; apply keeps_modify; emits_leaf].
    apply sendto_emits; [| apply Hfailed].
    intros p Hp. injection Hp as <-. apply Hsent. }
  exact (Hrest w).
Qed.

Lemma scalable_send_ack_emits addr source :
  (forall now, P (EvSent (ack_datagram E source now) (fst addr) Common.ACK_LISTEN_PORT)) ->
  (forall now e, P (EvSendFailed (ack_datagram E source now) (fst addr)
                                 (JNum Common.ACK_LISTEN_PORT) e)) ->
  keeps (extends_with P) (Scalable.send_ack E addr source).
Proof.
  intros Hsent Hfailed w.
  assert (Hrest : keeps (extends_with P)
            (Common.sendto E (ack_datagram E source (clock w)) (fst addr)
                           (JNum Common.ACK_LISTEN_PORT) >>
             modify (fun w => set_metrics (incr_acks_sent (metrics w)) w))).
  { apply keeps_bind; [exact _ | | intros _; apply keeps_modify; emits_leaf].
    apply sendto_emits; [| apply Hfailed].
    intros p Hp. injection Hp as <-. apply Hsent. }
  exact (Hrest w).
Qed.

End Emits.

Section RelayEvents.
Variable E : env.

Lemma relay_event_ack fields source now :
  Py.dict_lookup "source" fields = Some source ->
  exists now', ack_datagram E source now
               = ack_datagram E (message_field "source" (JObj fields)) now'.
Proof.
  intros Hs. unfold message_field. rewrite Hs. exists now. reflexivity.
Qed.

Lemma sp_handle_connection_emits addr message :
  keeps (extends_with (relay_event E addr message)) (SP.handle_connection E addr message).
Proof.
  unfold SP.handle_connection.
  apply keeps_try_except; [exact _ | | intros; apply keeps_ret; exact _].
  apply keeps_bind; [exact _ | apply silent_emits; preserves_auto | intros message_id].
  apply keeps_bind; [exact _ | apply silent_emits, sp_is_duplicate_trace | intros dup].
  destruct dup; [apply keeps_ret; exact _ |].
  apply keeps_bind; [exact _ | apply silent_emits; preserves_auto | intros ty].
  apply keeps_bind; [exact _ | | intros; apply keeps_modify; emits_leaf].
  destruct (Py.eq_str ty "data").
  - apply keeps_bind; [exact _ | | intros _].
    + apply sp_forward_message_emits.
      * intros d. exact I.
      * intros ip p. left. reflexivity.
      * intros ip port e. left. reflexivity.
    + apply keeps_subscript; [exact _ |]. intros fields source -> Hs.
      apply sp_send_ack_emits.
      * intros now. right. split; [| split; reflexivity].
        apply (relay_event_ack fields source now Hs).
      * intros now e. right. split; [| split; reflexivity].
        apply (relay_event_ack fields source now Hs).
  - destruct (Py.eq_str ty "announcement").
    + apply silent_emits. preserves_auto.
    + apply keeps_ret. exact _.
Qed.

Lemma scalable_handle_connection_emits addr message :
  keeps (extends_with (relay_event E addr message))
        (Scalable.handle_connection E addr message).
Proof.
  unfold Scalable.handle_connection.
  apply keeps_try_except; [exact _ | | intros; apply keeps_ret; exact _].
  apply keeps_bind; [exact _ | apply silent_emits; preserves_auto | intros ty].
  destruct (Py.eq_str ty "data"); [| apply keeps_ret; exact _].
  apply keeps_bind; [exact _ | | intros _].
  - unfold Scalable.route_data.
    apply keeps_bind; [exact _ | apply silent_emits; preserves_auto | intros destination].
    apply keeps_bind; [exact _ | apply silent_emits; preserves_auto | intros message_id].
    apply keeps_bind; [exact _ | apply silent_emits; preserves_auto | intros dup].
    destruct dup; [apply keeps_ret; exact _ |].
    apply keeps_try_except; [exact _ | | intros; apply keeps_ret; exact _].
    apply scalable_route_one_emits.
    + intros d. exact I.
    + intros ip p. left. reflexivity.
    + intros ip port e. left. reflexivity.
  - apply keeps_subscript; [exact _ |]. intros fields source -> Hs.
    apply scalable_send_ack_emits.
    + intros now. right. split; [| split; reflexivity].
      apply (relay_event_ack fields source now Hs).
    + intros now e. right. split; [| split; reflexivity].
      apply (relay_event_ack fields source now Hs).
Qed.

End RelayEvents.

(** X9.  While it handles a message, the short-path relay and the scalable
    relay put nothing on the wire but the message itself, as it came, and
    acknowledgements addressed to the message's ["source"], sent to port
    33020 of the host the message came from.  This holds for every
    message, whether the sends go through or fail. *)
Theorem relay_sends_the_message_or_an_ack
    (E : env) (addr : string * Z) (message : json) (w : world) :
  extends_with (relay_event E addr message) w
               (snd (SP.handle_connection E addr message w))
  /\ extends_with (relay_event E addr message) w
                  (snd (Scalable.handle_connection E addr message w)).
Proof.
  split.
  - apply sp_handle_connection_emits.
  - apply scalable_handle_connection_emits.
Qed.

(** ** What the parallel relay puts on the wire *)

Section ParallelEvents.
Variable E : env.

Lemma parallel_respond_emits (P : event -> Prop) addr vehicle_id :
  (forall now, P (EvSent (ack_datagram E vehicle_id now) (fst addr)
                         Common.ACK_LISTEN_PORT)) ->
  (forall now e, P (EvSendFailed (ack_datagram E vehicle_id now) (fst addr)
                                 (JNum Common.ACK_LISTEN_PORT) e)) ->
  keeps (extends_with P) (Parallel.respond_to_vehicle E addr vehicle_id).
Proof.
  intros Hsent Hfailed w.
  assert (Hrest : keeps (extends_with P)
            (try_except
               (Common.sendto E (ack_datagram E vehicle_id (clock w)) (fst addr)
                              (JNum Common.ACK_LISTEN_PORT))
               (fun _ => ret tt))).
  { apply keeps_try_except; [exact _ | | intros _; apply keeps_ret; exact _].
    apply sendto_emits; [| apply Hfailed].
    intros p Hp. injection Hp as <-. apply Hsent. }
  exact (Hrest w).
Qed.

Lemma parallel_route_alone_emits addr message :
  keeps (extends_with (relay_event E addr message))
        (route_alone E message Parallel.NEIGHBORS).
Proof.
  assert (Hsend : forall ip port,
             keeps (extends_with (relay_event E addr message))
                   (Common.sendto E message ip port)).
  { intros. apply sendto_emits; intros; left; reflexivity. }
  assert (Hdup : forall message_id,
             keeps (extends_with (relay_event E addr message))
                   (Parallel.is_duplicate message_id)).
  { intros. apply silent_emits. preserves_auto. }
  unfold route_alone.
  keeps_with ltac:(emits_leaf; exact I).
Qed.

Lemma parallel_handle_connection_alone addr message w :
  message_queue w = [] ->
  Parallel.handle_connection E addr message w
  = try_except
      (let! ty := Common.subscript message "type" in
       if Py.eq_str ty "data" then
         route_alone E message Parallel.NEIGHBORS >>
         let! source := Common.subscript message "source" in
         Parallel.respond_to_vehicle E addr source
       else ret tt)
      (fun _ => ret tt) w.
Proof.
  intros Hq. unfold Parallel.handle_connection, try_except, bind.
  rewrite (subscript_pure message "type" w).
  destruct (fst (Common.subscript message "type" w)) as [ty | e]; [| reflexivity].
  destruct (Py.eq_str ty "data"); [| reflexivity].
  rewrite (proj1 (parallel_route_data_alone E message Parallel.NEIGHBORS w Hq)).
  reflexivity.
Qed.

End ParallelEvents.

(** X10.  With one worker, so that the priority queue is empty when a
    message comes in, the parallel relay puts nothing on the wire while it
    handles a message but the message itself, as it came, and
    acknowledgements addressed to the message's ["source"], sent to port
    33020 of the host the message came from. *)
Theorem parallel_relay_sends_the_message_or_an_ack
    (E : env) (addr : string * Z) (message : json) (w : world) :
  message_queue w = [] ->
  extends_with (relay_event E addr message) w
               (snd (Parallel.handle_connection E addr message w)).
Proof.
  intros Hq. rewrite (parallel_handle_connection_alone E addr message w Hq).
  revert w Hq. 
  assert (H : keeps (extends_with (relay_event E addr message))
            (try_except
               (let! ty := Common.subscript message "type" in
                if Py.eq_str ty "data" then
                  route_alone E message Parallel.NEIGHBORS >>
                  let! source := Common.subscript message "source" in
                  Parallel.respond_to_vehicle E addr source
                else ret tt)
               (fun _ => ret tt))).
  { apply keeps_try_except; [exact _ | | intros; apply keeps_ret; exact _].
    apply keeps_bind; [exact _ | apply silent_emits; preserves_auto | intros ty].
    destruct (Py.eq_str ty "data"); [| apply keeps_ret; exact _].
    apply keeps_bind; [exact _ | apply parallel_route_alone_emits | intros _].
    apply keeps_subscript; [exact _ |]. intros fields source -> Hs.
    apply parallel_respond_emits.
    - intros now. right. split; [| split; reflexivity].
      apply (relay_event_ack E fields source now Hs).
    - intros now e. right. split; [| split; reflexivity].
      apply (relay_event_ack E fields source now Hs). }
  intros w _. apply H.
Qed.

Lemma parallel_relay_sends_the_message_or_an_ack_witness :
  extends_with (relay_event Sample.env_up Sample.vehicle_addr Sample.twice)
               Parallel.initial_world
               (snd (Parallel.handle_connection Sample.env_up Sample.vehicle_addr
                                                Sample.twice Parallel.initial_world)).
Proof.
  apply (parallel_relay_sends_the_message_or_an_ack Sample.env_up Sample.vehicle_addr
           Sample.twice Parallel.initial_world).
  reflexivity.
Defined.

(** ** The routing table *)

#[local] Instance unchanged_preorder {X} (f : world -> X) : PreOrder (unchanged f).
Proof.
  split.
  - intros w. reflexivity.
  - intros w1 w2 w3 H12 H23. unfold unchanged in *. congruence.
Qed.

#[local] Instance still_routes_preorder : PreOrder still_routes.
Proof.
  split.
  - intros w k H. exact H.
  - intros w1 w2 w3 H12 H23 k H. apply H23, H12, H.
Qed.

Ltac unchanged_leaf := intros ?; reflexivity.

Lemma insert_keeps_keys {V} (k k' : pykey) (v : V) (m : gmap pykey V) :
  is_Some (m !! k') -> is_Some (<[k := v]> m !! k').
Proof.
  intros H. destruct (decide (k = k')) as [-> | Hne].
  - rewrite lookup_insert_eq. eauto.
  - rewrite lookup_insert_ne by exact Hne. exact H.
Qed.

Ltac still_routes_leaf :=
  intros ? ? ?; world_simpl;
  first [assumption | apply insert_keeps_keys; assumption].

Section Tables.
Variable E : env.

Lemma is_duplicate_table_unchanged message_id :
  keeps (unchanged ROUTING_TABLE) (Common.is_duplicate message_id).
Proof.
  unfold Common.is_duplicate. keeps_with unchanged_leaf.
Qed.

Lemma sendto_table_unchanged data ip port :
  keeps (unchanged ROUTING_TABLE) (Common.sendto E data ip port).
Proof. unfold Common.sendto. keeps_with unchanged_leaf. Qed.

Lemma parallel_handle_connection_table addr message :
  keeps (unchanged ROUTING_TABLE) (Parallel.handle_connection E addr message).
Proof.
  pose proof (sendto_table_unchanged) as Hsend.
  pose proof (is_duplicate_table_unchanged) as Hdup.
  assert (Hloop : forall fuel neighbors,
             keeps (unchanged ROUTING_TABLE) (Parallel.route_loop E fuel neighbors)).
  { induction fuel; intros neighbors; cbn [Parallel.route_loop];
      keeps_with unchanged_leaf. }
  keeps_with unchanged_leaf.
Qed.

Lemma channelchar_handle_connection_table addr message :
  keeps (unchanged ROUTING_TABLE) (ChannelChar.handle_connection E addr message).
Proof.
  pose proof (sendto_table_unchanged) as Hsend.
  pose proof (is_duplicate_table_unchanged) as Hdup.
  assert (Hloop : forall fuel neighbors,
             keeps (unchanged ROUTING_TABLE) (ChannelChar.route_loop E fuel neighbors)).
  { induction fuel; intros neighbors; cbn [ChannelChar.route_loop];
      keeps_with unchanged_leaf. }
  keeps_with unchanged_leaf.
Qed.

Lemma scalable_handle_connection_table addr message :
  keeps (unchanged ROUTING_TABLE) (Scalable.handle_connection E addr message).
Proof.
  pose proof (sendto_table_unchanged) as Hsend.
  pose proof (is_duplicate_table_unchanged) as Hdup.
  assert (Hsink : forall attempts data,
             keeps (unchanged ROUTING_TABLE)
                   (Scalable.command_station_attempts E attempts data)).
  { induction attempts; intros data; cbn [Scalable.command_station_attempts];
      keeps_with unchanged_leaf. }
  assert (Hloop : forall attempts data nb,
             keeps (unchanged ROUTING_TABLE)
                   (Scalable.neighbor_attempts E attempts data nb)).
  { induction attempts; intros data nb; cbn [Scalable.neighbor_attempts];
      keeps_with unchanged_leaf. }
  keeps_with unchanged_leaf.
Qed.

Lemma sp_is_duplicate_still_routes message_id :
  keeps still_routes (SP.is_duplicate message_id).
Proof.
  apply (keeps_of_preserves _ ROUTING_TABLE); [| apply sp_is_duplicate_table].
  intros w w' Heq k. rewrite Heq. auto.
Qed.

Lemma sp_handle_connection_still_routes addr message :
  keeps still_routes (SP.handle_connection E addr message).
Proof.
  pose proof (sp_is_duplicate_still_routes) as Hdup.
  assert (Hsend : forall data ip port,
             keeps still_routes (Common.sendto E data ip port)).
  { intros. unfold Common.sendto. keeps_with still_routes_leaf. }
  assert (Hloop : forall attempts data ip port,
             keeps still_routes (SP.neighbor_attempts E attempts data ip port)).
  { induction attempts; intros data ip port; cbn [SP.neighbor_attempts];
      keeps_with still_routes_leaf. }
  keeps_with still_routes_leaf.
Qed.

Lemma sp_not_announcement_table addr message :
  Py.eq_str (message_field "type" message) "announcement" = false ->
  keeps (unchanged ROUTING_TABLE) (SP.handle_connection E addr message).
Proof.
  intros Hty.
  assert (Hdup : forall message_id,
             keeps (unchanged ROUTING_TABLE) (SP.is_duplicate message_id)).
  { intros. apply sp_is_duplicate_table. }
  assert (Hfwd : keeps (unchanged ROUTING_TABLE) (SP.forward_message E message)).
  { apply sp_forward_message_table. }
  assert (Hsend : forall data ip port,
             keeps (unchanged ROUTING_TABLE) (Common.sendto E data ip port)).
  { apply sendto_table_unchanged. }
  unfold SP.handle_connection.
  apply keeps_try_except; [exact _ | | intros; apply keeps_ret; exact _].
  apply keeps_bind; [exact _ | keeps_with unchanged_leaf | intros message_id].
  apply keeps_bind; [exact _ | apply Hdup | intros dup].
  destruct dup; [apply keeps_ret; exact _ |].
  apply keeps_subscript; [exact _ |]. intros fields ty -> Hlookup.
  unfold message_field in Hty. rewrite Hlookup in Hty. cbn [from_option id] in Hty.
  rewrite Hty.
  apply keeps_bind; [exact _ | | intros; apply keeps_modify; unchanged_leaf].
  destruct (Py.eq_str ty "data"); [| apply keeps_ret; exact _].
  apply keeps_bind; [exact _ | exact Hfwd | intros _].
  unfold SP.send_ack. keeps_with unchanged_leaf.
Qed.

End Tables.

(** X11.  The routing table of the parallel, channel-characteristics and
    scalable relays is constant: whatever items a worker handles,
    announcements included, the table afterwards is the table before. *)
Theorem static_routing_table_is_constant
    (E : env) (items : list ((string * Z) * json)) (w : world) :
  ROUTING_TABLE (handle_all (Parallel.handle_connection E) items w) = ROUTING_TABLE w
  /\ ROUTING_TABLE (handle_all (ChannelChar.handle_connection E) items w) = ROUTING_TABLE w
  /\ ROUTING_TABLE (handle_all (Scalable.handle_connection E) items w) = ROUTING_TABLE w.
Proof.
  repeat split.
  - apply (keeps_handle_all (unchanged ROUTING_TABLE) _ items
             (parallel_handle_connection_table E) w).
  - apply (keeps_handle_all (unchanged ROUTING_TABLE) _ items
             (channelchar_handle_connection_table E) w).
  - apply (keeps_handle_all (unchanged ROUTING_TABLE) _ items
             (scalable_handle_connection_table E) w).
Qed.

(** X12.  The routing table of the short-path relay only grows and only
    announcements write to it: no item that a worker handles removes a
    destination from the table, and a message whose ["type"] is not
    ["announcement"] leaves the table as it was. *)
Theorem sp_routing_table_only_learns
    (E : env) (addr : string * Z) (message : json)
    (items : list ((string * Z) * json)) (w : world) :
  (forall k, is_Some (ROUTING_TABLE w !! k) ->
             is_Some (ROUTING_TABLE (handle_all (SP.handle_connection E) items w) !! k))
  /\ (Py.eq_str (message_field "type" message) "announcement" = false ->
      ROUTING_TABLE (snd (SP.handle_connection E addr message w)) = ROUTING_TABLE w).
Proof.
  split.
  - apply (keeps_handle_all still_routes _ items
             (sp_handle_connection_still_routes E) w).
  - intros Hty. apply (sp_not_announcement_table E addr message Hty w).
Qed.

Lemma sp_routing_table_only_learns_witness :
  ROUTING_TABLE (snd (SP.handle_connection Sample.env_up Sample.vehicle_addr
                                           Sample.to_sink SP.initial_world))
  = ROUTING_TABLE SP.initial_world.
Proof.
  refine (proj2 (sp_routing_table_only_learns Sample.env_up Sample.vehicle_addr
                   Sample.to_sink [] SP.initial_world) _).
  reflexivity.
Defined.

(** X13.  An announcement rewires every route that leads through its
    source.  When the short-path relay handles an announcement from the
    source [s], received from the address [addr] and declaring the port
    [p], every destination whose own entry has no address and names [s]
    as its ["next_hop"] is routed to [(addr[0], p)] from then on.  The
    relay does not check who announces: a datagram that claims the source
    ["command_station"] takes over the routes of ["satellite"] and
    ["sat_5"]. *)
Theorem announcement_captures_dependent_routes
    (E : env) (addr : string * Z) (fields : list (string * json))
    (message_id : json) (kid : pykey) (ty : json) (s : string)
    (payload_fields : list (string * json)) (p : json)
    (destination : json) (k : pykey) (entry : route_entry) (w : world) :
  Py.dict_lookup "id" fields = Some message_id ->
  Py.hash_key message_id = Some kid ->
  novel w kid ->
  Py.dict_lookup "type" fields = Some ty ->
  Py.eq_str ty "announcement" = true ->
  Py.dict_lookup "source" fields = Some (JStr s) ->
  Py.dict_lookup "payload" fields = Some (JObj payload_fields) ->
  Py.dict_lookup "port" payload_fields = Some p ->
  Py.hash_key destination = Some k ->
  k <> KStr s ->
  ROUTING_TABLE w !! k = Some entry ->
  SP.has_endpoint entry = false ->
  next_hop entry = Some s ->
  s <> EmptyString ->
  let w' := snd (SP.handle_connection E addr (JObj fields) w) in
  SP.get_next_hop destination w' = (Ok (Some (learned (fst addr) p)), w').
Proof.
  intros Hid Hkid Hnovel Hty Hann Hsrc Hpayload Hport Hk Hne Hentry Hend Hhop Hs w'.
  assert (Hdata : Py.eq_str ty "data" = false).
  { destruct ty as [| | | t | |]; try reflexivity.
    cbn [Py.eq_str] in *. apply String.eqb_eq in Hann. subst t. reflexivity. }
  subst w'.
  rewrite (sp_handle_announcement E addr fields message_id kid ty s payload_fields p w
             Hid Hkid Hnovel Hty Hdata Hann Hsrc Hpayload Hport).
  cbn [snd]. unfold SP.get_next_hop, Common.hash. rewrite Hk. run.
  rewrite lookup_insert_ne by congruence.
  rewrite Hentry, Hend, Hhop.
  assert (Htruthy : SP.truthy (Some s) = true).
  { cbn [SP.truthy]. apply negb_true_iff, String.eqb_neq, Hs. }
  rewrite Htruthy, lookup_insert_eq. reflexivity.
Qed.

(** A host at 10.66.6.6 announces itself as ["command_station"]; data for
    ["satellite"] goes to it from then on. *)
Lemma announcement_captures_dependent_routes_witness :
  SP.get_next_hop (JStr "satellite")
    (snd (SP.handle_connection Sample.env_up ("10.66.6.6", 9999%Z)
            (Sample.announcement "command_station" 9999) SP.initial_world))
  = (Ok (Some (learned "10.66.6.6" (JNum 9999))),
     snd (SP.handle_connection Sample.env_up ("10.66.6.6", 9999%Z)
            (Sample.announcement "command_station" 9999) SP.initial_world)).
Proof.
  unfold Sample.announcement.
  apply (announcement_captures_dependent_routes Sample.env_up ("10.66.6.6", 9999%Z)
           _ (JStr "command_station-1") (KStr "command_station-1")
           (JStr "announcement") "command_station"
           [("port", JNum 9999)] (JNum 9999)
           (JStr "satellite") (KStr "satellite")
           (mkEntry (Some "command_station") None None) SP.initial_world);
    first [reflexivity | discriminate | exact I].
Defined.

(** ** How long a forwarding holds a worker *)

Lemma bandwidth_delay_nonneg (E : env) (data : json) :
  (0 <= bandwidth_delay E data)%Q.
Proof.
  unfold bandwidth_delay, Qle. cbn [Qnum Qden]. lia.
Qed.

Ltac next_sendto E :=
  match goal with
  | |- context [Common.sendto E ?data ?ip ?port ?w0] =>
      let o := fresh "o" in
      let ev := fresh "ev" in
      let Hsend := fresh "Hsend" in
      let Hcase := fresh "Hcase" in
      destruct (sendto_outcome E data ip port w0) as (o & ev & Hsend & Hcase);
      rewrite Hsend; clear Hsend;
      destruct Hcase as [[-> _] | [? [-> _]]]; run
  end.

(** X14.  [forward_to_neighbor] of the short-path relay sleeps a bounded
    time.  With [bw] the bandwidth delay of the datagram (its length over
    5000): when the datagram is counted as forwarded the sleeps of the
    call have moved the clock on by at least [bw + 0.2] and at most
    [3 * bw + 1.6] seconds, and when it is counted as dropped the three
    attempts have slept [3 * (bw + 0.7)] seconds exactly. *)
Theorem sp_forwarding_latency
    (E : env) (data : json) (ip : string) (port : json) (w : world) :
  let bw := bandwidth_delay E data in
  let w' := snd (SP.forward_to_neighbor E data ip port w) in
  (metrics w' = incr_forwarded (metrics w)
   /\ (clock w + (bw + (1 # 5)) <= clock w')%Q
   /\ (clock w' <= clock w + (3 * bw + (8 # 5)))%Q)
  \/ (metrics w' = incr_dropped (metrics w)
      /\ (clock w' == clock w + 3 * (bw + (7 # 10)))%Q).
Proof.
  cbv zeta. pose proof (bandwidth_delay_nonneg E data) as Hbw.
  unfold SP.forward_to_neighbor. cbn [SP.MAX_RETRIES seq SP.neighbor_attempts].
  unfold Common.simulate_bandwidth, Common.time_sleep, Common.emit, SP.ISL_DELAY.
  fold (bandwidth_delay E data).
  set (bw := bandwidth_delay E data) in *. run.
  next_sendto E; [left; repeat split; lra |].
  next_sendto E; [left; repeat split; lra |].
  next_sendto E; [left; repeat split; lra |].
  right. split; [reflexivity | lra].
Qed.

(** ** The counters of the short-path relay *)

Ltac metrics_simpl :=
  cbn [total_packets_received total_packets_forwarded total_packets_dropped
       total_acks_sent duplicate_messages shortest_path_updates
       incr_received incr_forwarded incr_dropped incr_acks_sent
       incr_duplicates incr_path_updates] in *.

Ltac accounted_solve :=
  unfold accounted, counted_once in *; world_simpl;
  repeat match goal with
         | H : _ \/ _ |- _ => destruct H
         | H : _ /\ _ |- _ => destruct H
         end;
  repeat match goal with
         | H : metrics _ = _ |- _ => rewrite H in *; clear H
         end;
  metrics_simpl; lia.

Section Counters.
Variable E : env.

Lemma sp_is_duplicate_metrics message_id w :
  SP.is_duplicate message_id w
  = (Ok true, set_metrics (incr_duplicates (metrics w)) w)
  \/ (exists w1, SP.is_duplicate message_id w = (Ok false, w1)
                 /\ metrics w1 = metrics w)
  \/ (exists e, SP.is_duplicate message_id w = (Raise e, w)).
Proof.
  unfold SP.is_duplicate, Common.time_time, Common.hash.
  destruct (Py.hash_key message_id) as [k |]; run; [| right; right; eauto].
  destruct (recent_messages w !! k) as [first_seen |]; run.
  - destruct (Common.Qltb (clock w - first_seen) Common.DEDUP_WINDOW); run.
    + left. reflexivity.
    + right. left. eexists. split; reflexivity.
  - right. left. eexists. split; reflexivity.
Qed.

Lemma sp_send_ack_metrics addr source w :
  (fst (SP.send_ack E addr source w) = Ok tt
   /\ metrics (snd (SP.send_ack E addr source w)) = incr_acks_sent (metrics w))
  \/ ((exists e, fst (SP.send_ack E addr source w) = Raise e)
      /\ metrics (snd (SP.send_ack E addr source w)) = metrics w).
Proof.
  unfold SP.send_ack, Common.create_message, Common.time_time. run.
  match goal with
  | |- context [Common.sendto E ?data ?ip ?port ?w0] =>
      destruct (sendto_outcome E data ip port w0) as (o & ev & Hsend & Hcase);
      rewrite Hsend; clear Hsend
  end.
  destruct Hcase as [[-> _] | [e [-> _]]]; run.
  - left. split; reflexivity.
  - right. split; [eauto | reflexivity].
Qed.

Lemma sp_update_routing_table_metrics message addr w :
  (fst (SP.update_routing_table message addr w) = Ok tt
   /\ (metrics (snd (SP.update_routing_table message addr w))
       = incr_path_updates (metrics w)
       \/ metrics (snd (SP.update_routing_table message addr w)) = metrics w))
  \/ ((exists e, fst (SP.update_routing_table message addr w) = Raise e)
      /\ metrics (snd (SP.update_routing_table message addr w)) = metrics w).
Proof.
  unfold SP.update_routing_table, bind.
  rewrite (subscript_pure message "source" w).
  destruct (fst (Common.subscript message "source" w)) as [source | e];
    [| right; cbn; eauto].
  rewrite (subscript_pure message "payload" w).
  destruct (fst (Common.subscript message "payload" w)) as [payload | e];
    [| right; cbn; eauto].
  unfold Common.contains.
  destruct payload as [| | | t | items | payload_fields]; run;
    try (right; cbn; eauto; fail).
  - destruct (Py.is_substring "port" t); [| left; cbn; eauto].
    right. cbn. eauto.
  - destruct (existsb (fun x => Py.eq_str x "port") items); [| left; cbn; eauto].
    right. cbn. eauto.
  - destruct (bool_decide (is_Some (Py.dict_lookup "port" payload_fields)));
      [| left; cbn; eauto].
    cbn [Common.subscript].
    destruct (Py.dict_lookup "port" payload_fields) as [declared |]; run;
      [| right; eauto].
    unfold Common.hash.
    destruct (Py.hash_key source); run; [left; eauto | right; eauto].
Qed.

Lemma sp_handle_connection_accounted addr message w :
  accounted 1 (metrics w) (metrics (snd (SP.handle_connection E addr message w))).
Proof.
  unfold SP.handle_connection, try_except, bind.
  rewrite (subscript_pure message "id" w).
  destruct (fst (Common.subscript message "id" w)) as [message_id | e];
    [| cbn [snd ret]; accounted_solve].
  destruct (sp_is_duplicate_metrics message_id w)
    as [Hdup | [(w1 & Hdup & Hm1) | (e & Hdup)]]; rewrite Hdup;
    [cbn [snd ret]; accounted_solve | | cbn [snd ret]; accounted_solve].
  rewrite (subscript_pure message "type" w1).
  destruct (fst (Common.subscript message "type" w1)) as [ty | e];
    [| cbn [snd ret]; accounted_solve].
  destruct (Py.eq_str ty "data").
  - pose proof (sp_forward_message_account E message w1) as Hfwd.
    destruct (destination_key message).
    + destruct Hfwd as (Hok & Hcount & _).
      destruct (SP.forward_message E message w1) as [[[] | e] w2];
        cbn [fst snd] in *; [| discriminate].
      rewrite (subscript_pure message "source" w2).
      destruct (fst (Common.subscript message "source" w2)) as [source | e];
        [| cbn [snd ret]; accounted_solve].
      destruct (sp_send_ack_metrics addr source w2) as [[Hack Hm3] | [[e Hack] Hm3]];
        destruct (SP.send_ack E addr source w2) as [[[] | e'] w3];
        cbn [fst snd] in *; try discriminate;
        cbn [snd ret modify]; accounted_solve.
    + destruct Hfwd as [e Hfwd]. rewrite Hfwd. cbn [snd ret]. accounted_solve.
  - destruct (Py.eq_str ty "announcement").
    + destruct (sp_update_routing_table_metrics message addr w1)
        as [[Hok Hm2] | [[e Hraise] Hm2]];
        destruct (SP.update_routing_table message addr w1) as [[[] | e'] w2];
        cbn [fst snd] in *; try discriminate;
        cbn [snd ret modify]; accounted_solve.
    + cbn [snd ret modify]. accounted_solve.
Qed.

Lemma accounted_add n1 n2 m0 m1 m2 :
  accounted n1 m0 m1 -> accounted n2 m1 m2 -> accounted (n1 + n2) m0 m2.
Proof. unfold accounted. cbv zeta. lia. Qed.

End Counters.

(** X15.  The counters of the short-path relay stay consistent over every
    run of a worker.  After [n] items: no counter has gone down; received
    plus duplicates is at most [n], and so is forwarded plus dropped plus
    duplicates; every acknowledgement and every route update counted
    belongs to an item counted as received; and no more acknowledgements
    are counted than forwardings (done or dropped). *)
Theorem sp_counters_stay_consistent
    (E : env) (items : list ((string * Z) * json)) (w : world) :
  accounted (Z.of_nat (length items))
            (metrics w) (metrics (handle_all (SP.handle_connection E) items w)).
Proof.
  revert w. induction items as [| [addr message] rest IH]; intros w.
  - unfold handle_all, accounted. cbn. lia.
  - change (handle_all (SP.handle_connection E) ((addr, message) :: rest) w)
      with (handle_all (SP.handle_connection E) rest
              (snd (SP.handle_connection E addr message w))).
    replace (Z.of_nat (length ((addr, message) :: rest)))
      with (1 + Z.of_nat (length rest)) by (cbn [length]; lia).
    eapply accounted_add; [apply sp_handle_connection_accounted | apply IH].
Qed.

(** ** Data that cannot be routed *)

(** X16.  A data message whose ["destination"] is unhashable (a list or a
    dict) is treated differently by the relays.  The short-path relay
    records its id and does nothing else: the TypeError leaves
    [forward_message], so nothing is sent, no acknowledgement included,
    and no counter moves.  The scalable relay catches the error inside
    [route_data] and goes on to acknowledge: it makes exactly one call of
    [sendto], for the acknowledgement, and counts the message neither as
    forwarded nor as dropped. *)
Theorem unhashable_destination_by_variant
    (E : env) (addr : string * Z) (fields : list (string * json))
    (message_id : json) (kid : pykey) (ty destination source : json) (w : world) :
  Py.dict_lookup "id" fields = Some message_id ->
  Py.hash_key message_id = Some kid ->
  novel w kid ->
  Py.dict_lookup "type" fields = Some ty ->
  Py.eq_str ty "data" = true ->
  Py.dict_lookup "destination" fields = Some destination ->
  Py.hash_key destination = None ->
  Py.dict_lookup "source" fields = Some source ->
  SP.handle_connection E addr (JObj fields) w = (Ok tt, record_seen kid w)
  /\ (let w' := snd (Scalable.handle_connection E addr (JObj fields) w) in
      sends w' = S (sends w)
      /\ total_packets_forwarded (metrics w') = total_packets_forwarded (metrics w)
      /\ total_packets_dropped (metrics w') = total_packets_dropped (metrics w)
      /\ (trace w' = (trace w ++ [EvSent (ack_datagram E source (clock w)) (fst addr)
                                         Common.ACK_LISTEN_PORT])%list
          \/ exists e,
              trace w' = (trace w ++ [EvSendFailed (ack_datagram E source (clock w))
                                        (fst addr) (JNum Common.ACK_LISTEN_PORT) e])%list)).
Proof.
  intros Hid Hkid Hnovel Hty Hdata Hdest Hunhashable Hsource. split.
  - unfold SP.handle_connection. run. cbn [Common.subscript]. rewrite Hid. run.
    rewrite (sp_is_duplicate_novel message_id kid w Hkid Hnovel).
    rewrite Hty. run. rewrite Hdata.
    unfold SP.forward_message. run. cbn [Common.subscript]. rewrite Hdest. run.
    rewrite (sp_get_next_hop_unhashable destination _ Hunhashable). reflexivity.
  - cbv zeta.
    unfold Scalable.handle_connection. run. cbn [Common.subscript]. rewrite Hty. run.
    rewrite Hdata.
    unfold Scalable.route_data. run. cbn [Common.subscript]. rewrite Hdest, Hid. run.
    unfold Scalable.is_duplicate.
    rewrite (is_duplicate_novel message_id kid w Hkid Hnovel).
    unfold Scalable.route_one, Common.hash. rewrite Hunhashable. run.
    rewrite Hsource. run.
    unfold Scalable.send_ack, Common.create_message, Common.time_time. run.
    match goal with
    | |- context [Common.sendto E ?data ?ip ?port ?w0] =>
        destruct (sendto_outcome_int E data ip port w0) as (o & ev & Hsend & Hcase);
        rewrite Hsend; clear Hsend
    end.
    destruct Hcase as [[-> (p & Hp & ->)] | [e [-> ->]]]; run.
    + injection Hp as <-. repeat split. left. reflexivity.
    + repeat split. right. exists e. reflexivity.
Qed.

Lemma unhashable_destination_by_variant_witness :
  SP.handle_connection Sample.env_up Sample.vehicle_addr
    (JObj [("type", JStr "data"); ("source", JStr "vehicle_1234");
           ("destination", JArr [JStr "sat_1"; JStr "sat_2"]);
           ("id", JStr "vehicle_1234-1")])
    SP.initial_world
  = (Ok tt, record_seen (KStr "vehicle_1234-1") SP.initial_world).
Proof.
  refine (proj1 (unhashable_destination_by_variant Sample.env_up Sample.vehicle_addr
                   [("type", JStr "data"); ("source", JStr "vehicle_1234");
                    ("destination", JArr [JStr "sat_1"; JStr "sat_2"]);
                    ("id", JStr "vehicle_1234-1")]
                   (JStr "vehicle_1234-1") (KStr "vehicle_1234-1") (JStr "data")
                   (JArr [JStr "sat_1"; JStr "sat_2"]) (JStr "vehicle_1234")
                   SP.initial_world eq_refl eq_refl I eq_refl eq_refl eq_refl
                   eq_refl eq_refl)).
Defined.

(** ** [broadcast_presence] *)

Lemma sleeps_app (t1 t2 : list event) :
  sleeps (t1 ++ t2) = (sleeps t1 ++ sleeps t2)%list.
Proof.
  induction t1 as [| e t1 IH]; [reflexivity |].
  destruct e; cbn [sleeps app]; rewrite IH; reflexivity.
Qed.

Lemma broadcast_port_valid :
  valid_port (JNum ParallelBeacon.BROADCAST_PORT) ParallelBeacon.BROADCAST_PORT.
Proof. split; [reflexivity | unfold ParallelBeacon.BROADCAST_PORT; lia]. Qed.

Section ParallelBeaconFacts.
Variable E : env.

Lemma parallel_broadcast_turn_sent interval w :
  net_ok E (sends w) ParallelBeacon.broadcast_address ParallelBeacon.BROADCAST_PORT
  = true ->
  ParallelBeacon.broadcast_turn E interval w
  = (Ok (Z.min (interval + 1) 30),
     mkWorld (clock w + inject_Z (Z.min (interval + 1) 30))%Q
             (recent_messages w) (ROUTING_TABLE w) (message_queue w) (metrics w)
             (trace w ++ [EvSent (announcement_datagram E (clock w))
                                 ParallelBeacon.broadcast_address
                                 ParallelBeacon.BROADCAST_PORT;
                          EvSleep (inject_Z (Z.min (interval + 1) 30))])
             (S (sends w)) (draws w)).
Proof.
  intros Hnet.
  unfold ParallelBeacon.broadcast_turn, Common.create_message, Common.time_time. run.
  rewrite (sendto_goes E _ _ _ _ w broadcast_port_valid Hnet).
  unfold Common.time_sleep, Common.emit. run.
  rewrite <- app_assoc. reflexivity.
Qed.

Lemma parallel_broadcast_turn_failed interval w :
  net_ok E (sends w) ParallelBeacon.broadcast_address ParallelBeacon.BROADCAST_PORT
  = false ->
  ParallelBeacon.broadcast_turn E interval w
  = (Ok interval,
     set_trace (trace w ++ [EvSendFailed (announcement_datagram E (clock w))
                              ParallelBeacon.broadcast_address
                              (JNum ParallelBeacon.BROADCAST_PORT) OSError])
               (set_sends (S (sends w)) w)).
Proof.
  intros Hnet.
  unfold ParallelBeacon.broadcast_turn, Common.create_message, Common.time_time. run.
  rewrite (sendto_fails E _ _ _ _ w broadcast_port_valid Hnet). reflexivity.
Qed.

Lemma parallel_broadcast_turns_up turns interval w :
  interval <= 30 ->
  (forall i, (i < turns)%nat ->
             net_ok E (sends w + i) ParallelBeacon.broadcast_address
                    ParallelBeacon.BROADCAST_PORT = true) ->
  fst (ParallelBeacon.broadcast_turns E turns interval w)
  = Ok (Z.min (interval + Z.of_nat turns) 30)
  /\ sleeps (trace (snd (ParallelBeacon.broadcast_turns E turns interval w)))
     = (sleeps (trace w)
        ++ map (fun k => inject_Z (Z.min (interval + Z.of_nat k) 30)) (seq 1 turns))%list
  /\ sends (snd (ParallelBeacon.broadcast_turns E turns interval w))
     = (sends w + turns)%nat.
Proof.
  revert interval w. induction turns as [| turns IH]; intros interval w Hle Hnet.
  - cbn [ParallelBeacon.broadcast_turns ret fst snd seq map].
    rewrite app_nil_r. split; [f_equal; lia |]. split; [reflexivity | lia].
  - cbn [ParallelBeacon.broadcast_turns]. unfold bind.
    rewrite parallel_broadcast_turn_sent
      by (rewrite <- (Hnet 0%nat) by lia; f_equal; lia).
    match goal with
    | |- context [ParallelBeacon.broadcast_turns E turns ?i ?w1] =>
        destruct (IH i w1) as (Hres & Hsleeps & Hsends)
    end.
    { lia. }
    { intros i Hi. world_simpl. rewrite <- (Hnet (S i)) by lia. f_equal. lia. }
    rewrite Hres, Hsleeps, Hsends. world_simpl.
    split; [f_equal; lia |]. split; [| lia].
    rewrite sleeps_app. cbn [sleeps]. rewrite <- app_assoc. f_equal.
    cbn [seq map app]. f_equal.
    rewrite <- (seq_shift turns 1), map_map. apply map_ext. intros k. f_equal. lia.
Qed.

Lemma parallel_broadcast_turns_down turns interval w :
  (forall i, (i < turns)%nat ->
             net_ok E (sends w + i) ParallelBeacon.broadcast_address
                    ParallelBeacon.BROADCAST_PORT = false) ->
  fst (ParallelBeacon.broadcast_turns E turns interval w) = Ok interval
  /\ clock (snd (ParallelBeacon.broadcast_turns E turns interval w)) = clock w
  /\ sleeps (trace (snd (ParallelBeacon.broadcast_turns E turns interval w)))
     = sleeps (trace w)
  /\ sends (snd (ParallelBeacon.broadcast_turns E turns interval w))
     = (sends w + turns)%nat.
Proof.
  revert w. induction turns as [| turns IH]; intros w Hnet.
  - cbn [ParallelBeacon.broadcast_turns ret fst snd].
    split; [reflexivity |]. split; [reflexivity |]. split; [reflexivity | lia].
  - cbn [ParallelBeacon.broadcast_turns]. unfold bind.
    rewrite parallel_broadcast_turn_failed
      by (rewrite <- (Hnet 0%nat) by lia; f_equal; lia).
    match goal with
    | |- context [ParallelBeacon.broadcast_turns E turns interval ?w1] =>
        destruct (IH w1) as (Hres & Hclock & Hsleeps & Hsends)
    end.
    { intros i Hi. world_simpl. rewrite <- (Hnet (S i)) by lia. f_equal. lia. }
    rewrite Hres, Hclock, Hsleeps, Hsends. world_simpl.
    split; [reflexivity |]. split; [reflexivity |]. split; [| lia].
    rewrite sleeps_app. cbn [sleeps]. apply app_nil_r.
Qed.

End ParallelBeaconFacts.

(** X17.  While its broadcasts go through, the parallel relay announces
    itself at growing intervals: the wait after the [k]-th broadcast is
    [min(5 + k, 30)] seconds, so 6, 7, ... up to 30 and 30 from then on
    ([BROADCAST_INTERVAL] itself is never waited), and after [n] turns the
    local [interval] is [min(5 + n, 30)]. *)
Theorem parallel_broadcast_backs_off (E : env) (turns : nat) (w : world) :
  (forall i, (i < turns)%nat ->
             net_ok E (sends w + i) ParallelBeacon.broadcast_address
                    ParallelBeacon.BROADCAST_PORT = true) ->
  fst (ParallelBeacon.broadcast_presence E turns w)
  = Ok (Z.min (5 + Z.of_nat turns) 30)
  /\ sleeps (trace (snd (ParallelBeacon.broadcast_presence E turns w)))
     = (sleeps (trace w)
        ++ map (fun k => inject_Z (Z.min (5 + Z.of_nat k) 30)) (seq 1 turns))%list
  /\ sends (snd (ParallelBeacon.broadcast_presence E turns w)) = (sends w + turns)%nat.
Proof.
  intros Hnet. unfold ParallelBeacon.broadcast_presence.
  apply (parallel_broadcast_turns_up E turns ParallelBeacon.BROADCAST_INTERVAL w);
    [unfold ParallelBeacon.BROADCAST_INTERVAL; lia | exact Hnet].
Qed.

Lemma parallel_broadcast_backs_off_witness :
  sleeps (trace (snd (ParallelBeacon.broadcast_presence Sample.env_up 3
                                                        Parallel.initial_world)))
  = [6; 7; 8]%Q.
Proof.
  refine (proj1 (proj2 (parallel_broadcast_backs_off Sample.env_up 3
                          Parallel.initial_world _))).
  intros i Hi. reflexivity.
Defined.

(** X18.  While its broadcasts fail, the parallel relay does not wait at
    all: the [sleep] sits inside the [try], behind the [sendto], so a
    failed turn goes straight to the next one.  After any number of
    failed turns the clock has not moved, nothing was slept, one [sendto]
    was tried per turn and [interval] is still 5. *)
Theorem parallel_broadcast_spins_when_down (E : env) (turns : nat) (w : world) :
  (forall i, (i < turns)%nat ->
             net_ok E (sends w + i) ParallelBeacon.broadcast_address
                    ParallelBeacon.BROADCAST_PORT = false) ->
  fst (ParallelBeacon.broadcast_presence E turns w) = Ok 5
  /\ clock (snd (ParallelBeacon.broadcast_presence E turns w)) = clock w
  /\ sleeps (trace (snd (ParallelBeacon.broadcast_presence E turns w)))
     = sleeps (trace w)
  /\ sends (snd (ParallelBeacon.broadcast_presence E turns w)) = (sends w + turns)%nat.
Proof.
  intros Hnet. unfold ParallelBeacon.broadcast_presence.
  apply (parallel_broadcast_turns_down E turns ParallelBeacon.BROADCAST_INTERVAL w Hnet).
Qed.

Lemma parallel_broadcast_spins_when_down_witness :
  clock (snd (ParallelBeacon.broadcast_presence
                (mkEnv 33001 (fun _ => "{}") (fun _ => "2024-01-01T00:00:00Z")
                       (fun _ _ _ => false) (fun _ => false))
                100 Parallel.initial_world))
  = 0%Q.
Proof.
  refine (proj1 (proj2 (parallel_broadcast_spins_when_down _ 100
                          Parallel.initial_world _))).
  intros i Hi. reflexivity.
Defined.

Section BeaconFacts.
Variable E : env.

Lemma lossy_broadcast_turn_cases w :
  fst (Beacon.broadcast_turn E w) = Ok tt
  /\ draws (snd (Beacon.broadcast_turn E w)) = S (draws w)
  /\ total_packets_forwarded (metrics (snd (Beacon.broadcast_turn E w)))
     = total_packets_forwarded (metrics w)
  /\ if packet_lost E (draws w)
     then metrics (snd (Beacon.broadcast_turn E w)) = incr_dropped (metrics w)
          /\ sends (snd (Beacon.broadcast_turn E w)) = sends w
          /\ clock (snd (Beacon.broadcast_turn E w)) = (clock w + 5)%Q
          /\ trace (snd (Beacon.broadcast_turn E w)) = (trace w ++ [EvSleep 5])%list
     else metrics (snd (Beacon.broadcast_turn E w)) = metrics w
          /\ sends (snd (Beacon.broadcast_turn E w)) = S (sends w)
          /\ ((clock (snd (Beacon.broadcast_turn E w))
               = (clock w + bandwidth_delay E (announcement_datagram E (clock w)) + 5)%Q
               /\ trace (snd (Beacon.broadcast_turn E w))
                  = (trace w
                     ++ [EvSleep (bandwidth_delay E (announcement_datagram E (clock w)));
                         EvSent (announcement_datagram E (clock w))
                                Beacon.broadcast_address Beacon.BROADCAST_PORT;
                         EvSleep 5])%list)
              \/ (clock (snd (Beacon.broadcast_turn E w))
                  = (clock w + bandwidth_delay E (announcement_datagram E (clock w)))%Q
                  /\ exists e,
                      trace (snd (Beacon.broadcast_turn E w))
                      = (trace w
                         ++ [EvSleep (bandwidth_delay E (announcement_datagram E (clock w)));
                             EvSendFailed (announcement_datagram E (clock w))
                                          Beacon.broadcast_address
                                          (JNum Beacon.BROADCAST_PORT) e])%list)).
Proof.
  unfold Beacon.broadcast_turn, Common.create_message, Common.time_time,
    Common.simulate_packet_loss, Common.simulate_bandwidth, Common.time_sleep,
    Common.emit. run.
  destruct (packet_lost E (draws w)); run.
  - repeat split; reflexivity.
  - match goal with
    | |- context [Common.sendto E ?data ?ip ?port ?w0] =>
        destruct (sendto_outcome_int E data ip port w0) as (o & ev & Hsend & Hcase);
        rewrite Hsend; clear Hsend
    end.
    destruct Hcase as [[-> (p & Hp & ->)] | [e [-> ->]]]; run.
    + injection Hp as <-. repeat split; try reflexivity. left.
      split; [reflexivity |]. rewrite <- !app_assoc. reflexivity.
    + repeat split; try reflexivity. right.
      split; [reflexivity |]. exists e. rewrite <- !app_assoc. reflexivity.
Qed.

End BeaconFacts.

(** X19.  One turn of [broadcast_presence] of the channel-characteristics,
    scalable and short-path relays never raises and draws one random
    number.  When the simulated loss strikes, the announcement is counted
    in [total_packets_dropped], no [sendto] is made and the relay sleeps
    [BROADCAST_INTERVAL] = 5 seconds.  Otherwise [sendto] is called once,
    to 255.255.255.255:34000 and after the bandwidth delay, and no counter
    moves; when the datagram left the relay sleeps 5 seconds, and when the
    call failed it does not sleep: the next turn starts at once. *)
Theorem lossy_broadcast_turn_outcomes (E : env) (w : world) :
  let w' := snd (Beacon.broadcast_turn E w) in
  let message := announcement_datagram E (clock w) in
  let bw := bandwidth_delay E message in
  fst (Beacon.broadcast_turn E w) = Ok tt
  /\ draws w' = S (draws w)
  /\ total_packets_forwarded (metrics w') = total_packets_forwarded (metrics w)
  /\ if packet_lost E (draws w)
     then metrics w' = incr_dropped (metrics w)
          /\ sends w' = sends w
          /\ clock w' = (clock w + 5)%Q
          /\ trace w' = (trace w ++ [EvSleep 5])%list
     else metrics w' = metrics w
          /\ sends w' = S (sends w)
          /\ ((clock w' = (clock w + bw + 5)%Q
               /\ trace w' = (trace w ++ [EvSleep bw;
                                          EvSent message Beacon.broadcast_address
                                                 Beacon.BROADCAST_PORT;
                                          EvSleep 5])%list)
              \/ (clock w' = (clock w + bw)%Q
                  /\ exists e,
                      trace w' = (trace w ++ [EvSleep bw;
                                              EvSendFailed message Beacon.broadcast_address
                                                           (JNum Beacon.BROADCAST_PORT) e])%list)).
Proof. cbv zeta. apply lossy_broadcast_turn_cases. Qed.

(** X20.  Over any number of turns of [broadcast_presence] of these three
    relays, every turn draws one random number and either calls [sendto]
    once or counts one drop, never both and never neither: the number of
    [sendto] calls and [total_packets_dropped] grow by the number of turns
    together, and [total_packets_forwarded] does not move. *)
Theorem lossy_broadcast_sends_or_drops (E : env) (turns : nat) (w : world) :
  let w' := snd (Beacon.broadcast_presence E turns w) in
  fst (Beacon.broadcast_presence E turns w) = Ok tt
  /\ draws w' = (draws w + turns)%nat
  /\ total_packets_forwarded (metrics w') = total_packets_forwarded (metrics w)
  /\ Z.of_nat (sends w') + total_packets_dropped (metrics w')
     = Z.of_nat (sends w) + total_packets_dropped (metrics w) + Z.of_nat turns.
Proof.
  cbv zeta. revert w. induction turns as [| turns IH]; intros w.
  - cbn [Beacon.broadcast_presence ret fst snd]. repeat split; lia.
  - cbn [Beacon.broadcast_presence]. unfold bind.
    destruct (lossy_broadcast_turn_cases E w) as (Hok & Hdraws & Hfwd & Hcase).
    destruct (Beacon.broadcast_turn E w) as [[[] | e] w1];
      cbn [fst snd] in *; [| discriminate].
    destruct (IH w1) as (Hok' & Hdraws' & Hfwd' & Hsum').
    rewrite Hok', Hdraws', Hfwd', Hsum', Hdraws, Hfwd.
    split; [reflexivity |]. split; [lia |]. split; [reflexivity |].
    destruct (packet_lost E (draws w)).
    + destruct Hcase as (Hm & Hs & _). rewrite Hm, Hs.
      cbn [total_packets_dropped incr_dropped]. lia.
    + destruct Hcase as (Hm & Hs & _). rewrite Hm, Hs. lia.
Qed.

(** X21.  What a relay broadcasts is what the short-path relay learns
    from.  The announcement that [broadcast_presence] of a relay with the
    port [SATELLITE_PORT] builds at any clock [now], handled by a
    short-path relay that receives it from the address [addr] and has not
    seen its id in the last ten seconds, puts the route
    [satellite_<port> -> (addr[0], port)] in the table, and [get_next_hop]
    of [satellite_<port>] returns it. *)
Theorem broadcast_teaches_short_path_relay
    (E_sat E_relay : env) (addr : string * Z) (now : Q) (w : world) :
  novel w (KStr (Common.satellite_name E_sat +:+ "-" +:+ pretty (Common.time_ns now))) ->
  let w' := snd (SP.handle_connection E_relay addr (announcement_datagram E_sat now) w) in
  ROUTING_TABLE w' !! KStr (Common.satellite_name E_sat)
  = Some (learned (fst addr) (JNum (SATELLITE_PORT E_sat)))
  /\ SP.get_next_hop (JStr (Common.satellite_name E_sat)) w'
     = (Ok (Some (learned (fst addr) (JNum (SATELLITE_PORT E_sat)))), w').
Proof.
  intros Hnovel w'.
  assert (Hw' : ROUTING_TABLE w' !! KStr (Common.satellite_name E_sat)
                = Some (learned (fst addr) (JNum (SATELLITE_PORT E_sat)))).
  { subst w'. unfold announcement_datagram.
    rewrite (sp_handle_announcement E_relay addr _
               (JStr (Common.satellite_name E_sat +:+ "-" +:+ pretty (Common.time_ns now)))
               (KStr (Common.satellite_name E_sat +:+ "-" +:+ pretty (Common.time_ns now)))
               (JStr "announcement") (Common.satellite_name E_sat)
               [("port", JNum (SATELLITE_PORT E_sat))] (JNum (SATELLITE_PORT E_sat)) w);
      [| first [exact Hnovel | reflexivity] ..].
    cbn [snd]. world_simpl. apply lookup_insert_eq. }
  split; [exact Hw' |].
  apply (sp_get_next_hop_direct _ (KStr (Common.satellite_name E_sat)));
    [reflexivity | exact Hw' | reflexivity].
Qed.

Lemma broadcast_teaches_short_path_relay_witness :
  fst (SP.get_next_hop (JStr "satellite_33001")
         (snd (SP.handle_connection Sample.env_up ("10.0.0.9", 33001%Z)
                 (announcement_datagram Sample.env_up 7) SP.initial_world)))
  = Ok (Some (learned "10.0.0.9" (JNum 33001))).
Proof.
  refine (f_equal fst (proj2 (broadcast_teaches_short_path_relay
                                Sample.env_up Sample.env_up ("10.0.0.9", 33001%Z) 7
                                SP.initial_world _))).
  exact I.
Defined.

(** ** The command station *)

Lemma count_arrivals_cons (f : datagram -> bool) (d : datagram) (rest : list datagram) :
  count_arrivals f (d :: rest) = Z.b2z (f d) + count_arrivals f rest.
Proof.
  unfold count_arrivals. cbn [List.filter].
  destruct (f d); cbn [length Z.b2z]; lia.
Qed.

Lemma count_arrivals_nonneg (f : datagram -> bool) (arrivals : list datagram) :
  0 <= count_arrivals f arrivals.
Proof. unfold count_arrivals. lia. Qed.

Lemma station_track_source source m :
  match Py.hash_key source with
  | Some k =>
      Station.track_source source m
      = (Ok tt, Station.set_sources
                  (<[k := from_option id 0 (Station.sources m !! k) + 1]>
                     (Station.sources m)) m)
  | None => Station.track_source source m = (Raise TypeError, m)
  end.
Proof.
  unfold Station.track_source.
  destruct (Py.hash_key source) as [k |]; [| reflexivity].
  destruct (Station.sources m !! k) as [n |] eqn:Hk.
  - rewrite bool_decide_eq_true_2 by eauto. rewrite Hk. reflexivity.
  - rewrite bool_decide_eq_false_2 by (intros [? ?]; discriminate).
    rewrite lookup_insert_eq, insert_insert_eq. reflexivity.
Qed.

(** What one turn of the main loop does to each counter. *)
Lemma station_main_turn d m :
  Station.total_messages_received (Station.main_turn d m)
  = Station.total_messages_received m + Z.b2z (is_decoded d)
  /\ Station.malformed_messages_received (Station.main_turn d m)
     = Station.malformed_messages_received m + Z.b2z (is_not_json d)
  /\ Station.control_messages_received (Station.main_turn d m)
     = Station.control_messages_received m + Z.b2z (classed "control" d)
  /\ Station.data_messages_received (Station.main_turn d m)
     = Station.data_messages_received m + Z.b2z (classed "data" d)
  /\ Station.unknown_messages_received (Station.main_turn d m)
     = Station.unknown_messages_received m + Z.b2z (classed "unknown" d)
  /\ forall k,
       Station.sources (Station.main_turn d m) !! k
       = if from_source k d
         then Some (from_option id 0 (Station.sources m !! k) + 1)
         else Station.sources m !! k.
Proof.
  destruct d as [| | message].
  - cbn. repeat split; lia.
  - cbn. repeat split; lia.
  - destruct message as [| | | | | fields];
      try (cbn; repeat split; lia).
    unfold Station.main_turn, Station.process_message, Station.process_message_try,
      classed, from_source, source_key, message_class, is_decoded, is_not_json.
    pose proof (station_track_source
                  (from_option id (JStr "unknown") (Py.dict_lookup "source" fields)) m)
      as Htrack.
    destruct (Py.hash_key (from_option id (JStr "unknown")
                                       (Py.dict_lookup "source" fields)))
      as [ks |] eqn:Hks; rewrite Htrack.
    + rewrite (bool_decide_eq_true_2 (is_Some (Some ks))) by eauto.
      assert (Hsrc : forall k,
                 <[ks := from_option id 0 (Station.sources m !! ks) + 1]>
                   (Station.sources m) !! k
                 = if bool_decide (Some ks = Some k)
                   then Some (from_option id 0 (Station.sources m !! k) + 1)
                   else Station.sources m !! k).
      { intros k. case_bool_decide as Hk.
        - injection Hk as ->. apply lookup_insert_eq.
        - apply lookup_insert_ne. congruence. }
      destruct (Py.eq_str (from_option id (JStr "unknown")
                                       (Py.dict_lookup "type" fields)) "control");
        [| destruct (Py.eq_str (from_option id (JStr "unknown")
                                            (Py.dict_lookup "type" fields)) "data")];
        cbn; (split; [lia |]); (split; [lia |]); (split; [lia |]);
        (split; [lia |]); (split; [lia |]); exact Hsrc.
    + rewrite (bool_decide_eq_false_2 (is_Some None)) by (intros [? ?]; discriminate).
      cbn. (split; [lia |]); (split; [lia |]); (split; [lia |]);
        (split; [lia |]); (split; [lia |]).
      intros k. rewrite bool_decide_eq_false_2 by discriminate. reflexivity.
Qed.

Lemma station_main_cons d rest m :
  Station.main (d :: rest) m = Station.main rest (Station.main_turn d m).
Proof. reflexivity. Qed.





(** X23.  The [sources] table of the short-path command station holds,
    for every key, the number of dicts received whose ["source"] hashes to
    that key, added to what was there; messages without a ["source"] are
    counted under ["unknown"], and a key no message came from is left as
    it was (absent if it was absent). *)
Theorem station_counts_by_source
    (arrivals : list datagram) (m : Station.station_metrics) (k : pykey) :
  Station.sources (Station.main arrivals m) !! k
  = if (count_arrivals (from_source k) arrivals =? 0)%Z
    then Station.sources m !! k
    else Some (from_option id 0 (Station.sources m !! k)
               + count_arrivals (from_source k) arrivals).
Proof.
  revert m. induction arrivals as [| d rest IH]; intros m.
  - reflexivity.
  - rewrite station_main_cons, count_arrivals_cons, IH.
    destruct (station_main_turn d m) as (_ & _ & _ & _ & _ & Hs).
    rewrite (Hs k).
    pose proof (count_arrivals_nonneg (from_source k) rest) as Hn.
    destruct (from_source k d); cbn [Z.b2z].
    + destruct (Z.eqb_spec (count_arrivals (from_source k) rest) 0) as [H0 | H0];
        destruct (Z.eqb_spec (1 + count_arrivals (from_source k) rest) 0); try lia;
        cbn [from_option id]; f_equal; lia.
    + destruct (Z.eqb_spec (count_arrivals (from_source k) rest) 0) as [H0 | H0];
        destruct (Z.eqb_spec (0 + count_arrivals (from_source k) rest) 0); try lia;
        try reflexivity; f_equal; lia.
Qed.

Lemma field_station_main_turn d m :
  FieldStation.total_messages_received (FieldStation.main_turn d m)
  = FieldStation.total_messages_received m + Z.b2z (is_decoded d)
  /\ FieldStation.control_messages_received (FieldStation.main_turn d m)
     = FieldStation.control_messages_received m + Z.b2z (typed "control" d)
  /\ FieldStation.data_messages_received (FieldStation.main_turn d m)
     = FieldStation.data_messages_received m + Z.b2z (typed "data" d)
  /\ FieldStation.unknown_messages_received (FieldStation.main_turn d m)
     = FieldStation.unknown_messages_received m + Z.b2z (typed "unknown" d).
Proof.
  destruct d as [| | message]; try (cbn; lia).
  destruct message as [| | | | | fields]; try (cbn; lia).
  unfold FieldStation.main_turn, FieldStation.process_message,
    FieldStation.process_message_try, FieldStation.message_type,
    typed, message_class, is_decoded.
  destruct (Py.dict_lookup "type" fields) as [ty |]; [| cbn; lia].
  rewrite bool_decide_eq_true_2 by eauto. cbn [from_option id].
  destruct (Py.eq_str ty "control"); [cbn; lia |].
  destruct (Py.eq_str ty "data"); cbn; lia.
Qed.

(** X24.  The field-testing command station counts every JSON arrival in
    [total_messages_received] and the dicts that have a ["type"] key in
    the counter of their class; a message without ["type"], or that is no
    dict, raises inside the [try] and is in the total only.  Arrivals
    that do not decode are logged and not counted. *)
Theorem field_station_counts
    (arrivals : list datagram) (m : FieldStation.station_metrics) :
  let m' := FieldStation.main arrivals m in
  FieldStation.total_messages_received m'
  = FieldStation.total_messages_received m + count_arrivals is_decoded arrivals
  /\ FieldStation.control_messages_received m'
     = FieldStation.control_messages_received m + count_arrivals (typed "control") arrivals
  /\ FieldStation.data_messages_received m'
     = FieldStation.data_messages_received m + count_arrivals (typed "data") arrivals
  /\ FieldStation.unknown_messages_received m'
     = FieldStation.unknown_messages_received m + count_arrivals (typed "unknown") arrivals.
Proof.
  cbv zeta. revert m. induction arrivals as [| d rest IH]; intros m.
  - unfold count_arrivals. cbn. lia.
  - change (FieldStation.main (d :: rest) m)
      with (FieldStation.main rest (FieldStation.main_turn d m)).
    rewrite !count_arrivals_cons.
    destruct (IH (FieldStation.main_turn d m)) as (H1 & H2 & H3 & H4).
    destruct (field_station_main_turn d m) as (T1 & T2 & T3 & T4).
    rewrite H1, H2, H3, H4, T1, T2, T3, T4. lia.
Qed.

(** ** The vehicle: [send_data] *)

Lemma waits_app (t1 t2 : list Vehicle.vehicle_event) :
  Vehicle.waits (t1 ++ t2) = (Vehicle.waits t1 ++ Vehicle.waits t2)%list.
Proof.
  induction t1 as [| e t1 IH]; [reflexivity |].
  destruct e; cbn [Vehicle.waits app]; rewrite IH; reflexivity.
Qed.

Lemma vehicle_attempt_once_step N attempt v :
  vehicle_step [attempt] (fst (Vehicle.attempt_once N attempt v)) v
               (snd (Vehicle.attempt_once N attempt v)).
Proof.
  unfold Vehicle.attempt_once, vehicle_step. cbv zeta.
  destruct (Vehicle.send N (Vehicle.v_sends v)).
  - destruct (Vehicle.recv N (Vehicle.v_recvs (Vehicle.sent v))) as [| | d].
    + cbn. (split; [lia |]); (split; [lia |]); (split; [lia |]); (split; [lia |]); (split; [lia |]); (split; [lia |]); (split; [lia |]); (split; [lia |]).
      exists [2 ^ Z.of_nat attempt]. split.
      * rewrite !waits_app. cbn. rewrite !app_nil_r. reflexivity.
      * reflexivity.
    + cbn. (split; [lia |]); (split; [lia |]); (split; [lia |]); (split; [lia |]); (split; [lia |]); (split; [lia |]); (split; [lia |]); (split; [lia |]).
      exists []. split; [| apply sublist_nil_l].
      rewrite !waits_app. cbn. rewrite !app_nil_r. reflexivity.
    + destruct d as [| | ack_message];
        [| | destruct (Vehicle.valid_ack ack_message) as [[|] | e]];
        cbn; (split; [lia |]); (split; [lia |]); (split; [lia |]); (split; [lia |]); (split; [lia |]); (split; [lia |]); (split; [lia |]); (split; [lia |]);
        exists []; (split; [| apply sublist_nil_l]);
        rewrite !waits_app; cbn; rewrite !app_nil_r; reflexivity.
  - cbn. (split; [lia |]); (split; [lia |]); (split; [lia |]); (split; [lia |]); (split; [lia |]); (split; [lia |]); (split; [lia |]); (split; [lia |]).
    exists [2 ^ Z.of_nat attempt]. split; [| reflexivity].
    rewrite !waits_app. cbn. rewrite !app_nil_r. reflexivity.
  - cbn. (split; [lia |]); (split; [lia |]); (split; [lia |]); (split; [lia |]); (split; [lia |]); (split; [lia |]); (split; [lia |]); (split; [lia |]).
    exists []. split; [| apply sublist_nil_l].
    rewrite !waits_app. cbn. rewrite !app_nil_r. reflexivity.
Qed.

Lemma vehicle_step_cons attempt rest b v v1 v2 :
  vehicle_step [attempt] false v v1 ->
  vehicle_step rest b v1 v2 ->
  vehicle_step (attempt :: rest) b v v2.
Proof.
  unfold vehicle_step. cbv zeta. cbn [length map].
  intros (A1 & A2 & A3 & A4 & A5 & A6 & A7 & A8 & s1 & A9 & A10)
         (B1 & B2 & B3 & B4 & B5 & B6 & B7 & B8 & s2 & B9 & B10).
  cbn [Z.b2z] in A3.
  assert (Hs : (Vehicle.v_sends v1 <= Vehicle.v_sends v2)%nat) by (destruct b; lia).
  split; [lia |]. split; [destruct b; lia |]. split; [lia |]. split; [lia |].
  split; [lia |]. split; [lia |]. split; [lia |]. split; [lia |].
  exists (s1 ++ s2)%list. split.
  - rewrite B9, A9, app_assoc. reflexivity.
  - change (2 ^ Z.of_nat attempt :: map (fun a => 2 ^ Z.of_nat a) rest)
      with ([2 ^ Z.of_nat attempt] ++ map (fun a => 2 ^ Z.of_nat a) rest)%list.
    apply sublist_app; assumption.
Qed.

Lemma vehicle_step_first attempt rest v v1 :
  vehicle_step [attempt] true v v1 ->
  vehicle_step (attempt :: rest) true v v1.
Proof.
  unfold vehicle_step. cbv zeta. cbn [length map].
  intros (A1 & A2 & A3 & A4 & A5 & A6 & A7 & A8 & s1 & A9 & A10).
  split; [lia |]. split; [lia |]. split; [lia |]. split; [lia |].
  split; [lia |]. split; [lia |]. split; [lia |]. split; [lia |].
  exists s1. split; [exact A9 |].
  change (2 ^ Z.of_nat attempt :: map (fun a => 2 ^ Z.of_nat a) rest)
    with ([2 ^ Z.of_nat attempt] ++ map (fun a => 2 ^ Z.of_nat a) rest)%list.
  rewrite <- (app_nil_r s1). apply sublist_app; [exact A10 | apply sublist_nil_l].
Qed.

Lemma vehicle_attempts_step N turns v :
  vehicle_step turns (fst (Vehicle.attempts N turns v)) v
               (snd (Vehicle.attempts N turns v)).
Proof.
  revert v. induction turns as [| attempt rest IH]; intros v.
  - unfold vehicle_step. cbn. (split; [lia |]); (split; [lia |]); (split; [lia |]); (split; [lia |]); (split; [lia |]); (split; [lia |]); (split; [lia |]); (split; [lia |]).
    exists []. split; [symmetry; apply app_nil_r | apply sublist_nil_l].
  - cbn [Vehicle.attempts].
    pose proof (vehicle_attempt_once_step N attempt v) as Hone.
    destruct (Vehicle.attempt_once N attempt v) as [[|] v1]; cbn [fst snd] in *.
    + apply vehicle_step_first, Hone.
    + eapply vehicle_step_cons; [exact Hone | apply IH].
Qed.

(** X25.  [send_data] of the vehicle, for every behaviour of the network
    and of the relay: it calls [sendto] at least once and at most
    [MAX_RETRIES] = 3 times; it returns [True] with
    [successful_transmissions] one higher, or [False] with
    [failed_transmissions] one higher, never both; it counts a message as
    sent for each [sendto] that returned and listens once for each; it
    counts no more retransmissions than messages sent; and whatever it
    sleeps is taken, in order, from 1, 2 and 4 seconds. *)
Theorem vehicle_send_data_accounts (N : Vehicle.network) (v : Vehicle.vehicle) :
  let b := fst (Vehicle.send_data N v) in
  let v' := snd (Vehicle.send_data N v) in
  let m := Vehicle.v_metrics v in
  let m' := Vehicle.v_metrics v' in
  (Vehicle.v_sends v < Vehicle.v_sends v' <= Vehicle.v_sends v + 3)%nat
  /\ Vehicle.successful_transmissions m'
     = Vehicle.successful_transmissions m + Z.b2z b
  /\ Vehicle.failed_transmissions m'
     = Vehicle.failed_transmissions m + Z.b2z (negb b)
  /\ Vehicle.total_messages_sent m' - Vehicle.total_messages_sent m
     = Z.of_nat (Vehicle.v_recvs v' - Vehicle.v_recvs v)
  /\ (Vehicle.v_recvs v' - Vehicle.v_recvs v
      <= Vehicle.v_sends v' - Vehicle.v_sends v)%nat
  /\ 0 <= Vehicle.retransmissions m' - Vehicle.retransmissions m
     <= Z.of_nat (Vehicle.v_sends v' - Vehicle.v_sends v)
  /\ exists slept,
       Vehicle.waits (Vehicle.v_trace v')
       = (Vehicle.waits (Vehicle.v_trace v) ++ slept)%list
       /\ sublist slept [1; 2; 4].
Proof.
  cbv zeta. unfold Vehicle.send_data.
  pose proof (vehicle_attempts_step N (seq 0 Vehicle.MAX_RETRIES) v) as Hstep.
  destruct (Vehicle.attempts N (seq 0 Vehicle.MAX_RETRIES) v) as [[|] v1];
    cbn [fst snd] in *; unfold vehicle_step in Hstep; cbv zeta in Hstep;
    cbn [Vehicle.MAX_RETRIES seq length map] in Hstep;
    destruct Hstep as (A1 & A2 & A3 & A4 & A5 & A6 & A7 & A8 & slept & A9 & A10).
  - cbn [Z.b2z negb] in *. (split; [lia |]); (split; [lia |]); (split; [lia |]); (split; [lia |]); (split; [lia |]); (split; [lia |]).
    exists slept. split; assumption.
  - cbn [Vehicle.failed Vehicle.v_metrics Vehicle.v_sends Vehicle.v_recvs
         Vehicle.v_trace Vehicle.successful_transmissions
         Vehicle.failed_transmissions Vehicle.total_messages_sent
         Vehicle.retransmissions Z.b2z negb] in *.
    (split; [lia |]); (split; [lia |]); (split; [lia |]); (split; [lia |]); (split; [lia |]); (split; [lia |]).
    exists slept. split; assumption.
Qed.

Lemma vehicle_attempt_times_out N attempt v :
  Vehicle.send N (Vehicle.v_sends v) = Vehicle.Sent ->
  Vehicle.recv N (Vehicle.v_recvs v) = Vehicle.TimedOut ->
  Vehicle.attempt_once N attempt v
  = (false, Vehicle.timed_out attempt
              (Vehicle.received Vehicle.TimedOut (Vehicle.sent v))).
Proof.
  intros Hs Hr. unfold Vehicle.attempt_once. rewrite Hs.
  cbn [Vehicle.sent Vehicle.v_recvs]. rewrite Hr. reflexivity.
Qed.

(** X26.  When every message leaves and no acknowledgement comes in time,
    [send_data] backs off exponentially: it sleeps [2 ** attempt] seconds
    after each time-out, 1, 2 and then 4 seconds, the last of them after
    the last attempt, and returns [False] with three messages sent, three
    retransmissions and one failed transmission counted. *)
Theorem vehicle_backs_off_exponentially (N : Vehicle.network) (v : Vehicle.vehicle) :
  (forall i, (i < 3)%nat -> Vehicle.send N (Vehicle.v_sends v + i) = Vehicle.Sent) ->
  (forall i, (i < 3)%nat ->
             Vehicle.recv N (Vehicle.v_recvs v + i) = Vehicle.TimedOut) ->
  let v' := snd (Vehicle.send_data N v) in
  let m := Vehicle.v_metrics v in
  let m' := Vehicle.v_metrics v' in
  fst (Vehicle.send_data N v) = false
  /\ Vehicle.waits (Vehicle.v_trace v')
     = (Vehicle.waits (Vehicle.v_trace v) ++ [1; 2; 4])%list
  /\ Vehicle.total_messages_sent m' = Vehicle.total_messages_sent m + 3
  /\ Vehicle.retransmissions m' = Vehicle.retransmissions m + 3
  /\ Vehicle.failed_transmissions m' = Vehicle.failed_transmissions m + 1
  /\ Vehicle.successful_transmissions m' = Vehicle.successful_transmissions m.
Proof.
  intros Hsend Hrecv. cbv zeta.
  assert (S0 : Vehicle.send N (Vehicle.v_sends v) = Vehicle.Sent)
    by (rewrite <- (Hsend 0%nat) by lia; f_equal; lia).
  assert (S1 : Vehicle.send N (S (Vehicle.v_sends v)) = Vehicle.Sent)
    by (rewrite <- (Hsend 1%nat) by lia; f_equal; lia).
  assert (S2 : Vehicle.send N (S (S (Vehicle.v_sends v))) = Vehicle.Sent)
    by (rewrite <- (Hsend 2%nat) by lia; f_equal; lia).
  assert (R0 : Vehicle.recv N (Vehicle.v_recvs v) = Vehicle.TimedOut)
    by (rewrite <- (Hrecv 0%nat) by lia; f_equal; lia).
  assert (R1 : Vehicle.recv N (S (Vehicle.v_recvs v)) = Vehicle.TimedOut)
    by (rewrite <- (Hrecv 1%nat) by lia; f_equal; lia).
  assert (R2 : Vehicle.recv N (S (S (Vehicle.v_recvs v))) = Vehicle.TimedOut)
    by (rewrite <- (Hrecv 2%nat) by lia; f_equal; lia).
  unfold Vehicle.send_data.
  cbn [Vehicle.MAX_RETRIES seq Vehicle.attempts].
  rewrite (vehicle_attempt_times_out N 0 v S0 R0).
  rewrite (vehicle_attempt_times_out N 1
             (Vehicle.timed_out 0 (Vehicle.received Vehicle.TimedOut (Vehicle.sent v)))
             S1 R1).
  rewrite (vehicle_attempt_times_out N 2
             (Vehicle.timed_out 1
                (Vehicle.received Vehicle.TimedOut
                   (Vehicle.sent
                      (Vehicle.timed_out 0
                         (Vehicle.received Vehicle.TimedOut (Vehicle.sent v))))))
             S2 R2).
  cbn [fst snd Vehicle.failed Vehicle.timed_out Vehicle.received Vehicle.sent
       Vehicle.v_recvs Vehicle.v_sends Vehicle.v_metrics Vehicle.v_trace
       Vehicle.total_messages_sent Vehicle.successful_transmissions
       Vehicle.retransmissions Vehicle.failed_transmissions].
  split; [reflexivity |]. split.
  - rewrite !waits_app. cbn. rewrite !app_nil_r, <- !app_assoc. reflexivity.
  - split; [lia |]. split; [lia |]. split; [lia | reflexivity].
Qed.

Lemma vehicle_backs_off_exponentially_witness :
  Vehicle.waits
    (Vehicle.v_trace
       (snd (Vehicle.send_data
               (Vehicle.mkNetwork (fun _ => Vehicle.Sent) (fun _ => Vehicle.TimedOut))
               Vehicle.initial_vehicle)))
  = [1; 2; 4].
Proof.
  refine (proj1 (proj2 (vehicle_backs_off_exponentially
                          (Vehicle.mkNetwork (fun _ => Vehicle.Sent) (fun _ => Vehicle.TimedOut))
                          Vehicle.initial_vehicle _ _)));
    intros i Hi; reflexivity.
Defined.

(** ** The vehicle: [discover_satellites] *)

Lemma discover_satellites_last heard r addr :
  Discovery.discover_satellites (heard ++ [(r, addr)])
  = Discovery.hear r addr (Discovery.discover_satellites heard).
Proof.
  unfold Discovery.discover_satellites. rewrite fold_left_app. reflexivity.
Qed.

Lemma discovery_hear_cases r addr discovered :
  Discovery.hear r addr discovered = discovered
  \/ exists fields ty payload_fields p source k,
       r = Vehicle.Received (Decoded (JObj fields))
       /\ Py.dict_lookup "type" fields = Some ty
       /\ Py.eq_str ty "announcement" = true
       /\ Py.dict_lookup "payload" fields = Some (JObj payload_fields)
       /\ Py.dict_lookup "port" payload_fields = Some p
       /\ Py.dict_lookup "source" fields = Some source
       /\ Py.hash_key source = Some k
       /\ Discovery.hear r addr discovered = <[k := learned (fst addr) p]> discovered.
Proof.
  destruct r as [| | d]; try (left; reflexivity).
  destruct d as [| | message]; try (left; reflexivity).
  destruct message as [| | | | | fields]; try (left; reflexivity).
  cbn [Discovery.hear Discovery.note].
  destruct (Py.dict_lookup "type" fields) as [ty |] eqn:Hty; [| left; reflexivity].
  destruct (Py.eq_str ty "announcement") eqn:Hann; [| left; reflexivity].
  destruct (Py.dict_lookup "payload" fields) as [payload |] eqn:Hpayload;
    [| left; reflexivity].
  destruct payload as [| | | t | items | payload_fields];
    try (left; reflexivity).
  - cbn [Discovery.declares Discovery.declared_port].
    destruct (Py.is_substring "port" t); left; reflexivity.
  - cbn [Discovery.declares Discovery.declared_port].
    destruct (existsb _ items); left; reflexivity.
  - cbn [Discovery.declares Discovery.declared_port].
    destruct (Py.dict_lookup "port" payload_fields) as [p |] eqn:Hp.
    + rewrite bool_decide_eq_true_2 by eauto.
      destruct (Py.dict_lookup "source" fields) as [source |] eqn:Hsource;
        [| left; reflexivity].
      destruct (Py.hash_key source) as [k |] eqn:Hk; [| left; reflexivity].
      right. exists fields, ty, payload_fields, p, source, k.
      repeat split; try assumption; reflexivity.
    + rewrite bool_decide_eq_false_2 by (intros [? ?]; discriminate).
      left. reflexivity.
Qed.

(** X27.  What a relay broadcasts is what a vehicle discovers.  However
    the discovery went before, when the last datagram that
    [discover_satellites] hears is the announcement that
    [broadcast_presence] of a relay builds, the vehicle holds for
    [satellite_<port>] the address the datagram came from and the port it
    declares.  And a reception changes [discovered] only when it is a dict
    of type ["announcement"] whose payload is a dict with a ["port"] and
    whose source is hashable: it then writes that one entry, with the
    sender's address. *)
Theorem discovery_learns_from_broadcast
    (E : env) (now : Q) (addr : string * Z)
    (heard : list (Vehicle.reception * (string * Z)))
    (r : Vehicle.reception) (discovered : Discovery.discovered_t) :
  Discovery.discover_satellites
    (heard ++ [(Vehicle.Received (Decoded (announcement_datagram E now)), addr)])
  !! KStr (Common.satellite_name E)
  = Some (learned (fst addr) (JNum (SATELLITE_PORT E)))
  /\ (Discovery.hear r addr discovered = discovered
      \/ exists fields ty payload_fields p source k,
           r = Vehicle.Received (Decoded (JObj fields))
           /\ Py.dict_lookup "type" fields = Some ty
           /\ Py.eq_str ty "announcement" = true
           /\ Py.dict_lookup "payload" fields = Some (JObj payload_fields)
           /\ Py.dict_lookup "port" payload_fields = Some p
           /\ Py.dict_lookup "source" fields = Some source
           /\ Py.hash_key source = Some k
           /\ Discovery.hear r addr discovered
              = <[k := learned (fst addr) p]> discovered).
Proof.
  split; [| apply discovery_hear_cases].
  rewrite discover_satellites_last.
  cbn [Discovery.hear Discovery.note announcement_datagram Py.dict_lookup
       String.eqb Ascii.eqb Bool.eqb Py.eq_str Discovery.declares
       Discovery.declared_port Py.hash_key snd].
  rewrite bool_decide_eq_true_2 by eauto.
  apply lookup_insert_eq.
Qed.
